(** * SkillVerse wallet and payment ledger: a shallow embedding of
    [payment_system.py] and of the settlement part of [routes.place_order].

    Conventions of the embedding.
    - A Python [float] is a binary64 primitive float ([PrimFloat.float]);
      amounts reach the wallet code as floats (the routes apply [float(...)]
      to the request value, the order price is a float column), so
      [float(amount)] is the identity.
    - A Python [str] is a [string] read as a sequence of code points below
      256; comparison is by code point, as in Python.
    - A JSON-lines file is the list of its lines, each classified by what the
      reading loops do with it (see [line]).  The constructors of
      [PaymentGateway] and [WalletManager] create both files, so they exist
      whenever a method runs.  The modules [PaymentGateway] and
      [WalletManager] give the methods on files that open and whose
      decoded lines are records.  Where a property turns on a failing
      [open] or on a line that decodes to another JSON value, the functions
      are given with that case: the readers of the ledger in [AnyJson], the
      ledger write of [deduct_money] and [credit_seller] in [LedgerWrite],
      [save_invoice] in [InvoiceFiles].
    - [datetime.now()] and [random] are inputs: every call site reads its own
      field of an [oracle]. *)

From Stdlib Require Import List String Ascii ZArith Bool Lia.
From Stdlib Require Import Floats DecimalString.
From Stdlib Require Import Permutation Sorted.

Set Warnings "-inexact-float".

Import ListNotations.

Local Open Scope string_scope.
Local Open Scope list_scope.

Set Implicit Arguments.

(** ** Python values *)

Module Py.

(** [str(n)] for an int. *)
Definition str_of_int (n : Z) : string :=
  NilZero.string_of_int (Z.to_int n).

(** A user id: the integer primary key the routes pass, or the string a
    wallet operation turns it into with [str(user_id)]. *)
Inductive ident : Type :=
| IdInt (n : Z)
| IdStr (s : string).

Definition str (u : ident) : string :=
  match u with
  | IdInt n => str_of_int n
  | IdStr s => s
  end.

(** Truth value of an object used as a condition. *)
Definition truthy_str (s : string) : bool := negb (String.eqb s "").

Definition truthy_ident (u : ident) : bool :=
  match u with
  | IdInt n => negb (Z.eqb n 0)
  | IdStr s => truthy_str s
  end.

(** [x or y] where [x] is [None] or a string. *)
Definition or_else (x : option string) (y : string) : string :=
  match x with
  | Some s => if truthy_str s then s else y
  | None => y
  end.

(** Characters for which [str.isspace] holds, which are also the ones the
    pattern [\s] matches on a [str]. *)
Definition isspace (c : ascii) : bool :=
  let n := nat_of_ascii c in
  ((9 <=? n) && (n <=? 13) || (28 <=? n) && (n <=? 32)
   || (n =? 133) || (n =? 160))%nat.

(** ASCII case folding, as [re.IGNORECASE] compares the letters of a
    pattern. *)
Definition lower (c : ascii) : ascii :=
  let n := nat_of_ascii c in
  if ((65 <=? n) && (n <=? 90))%nat then ascii_of_nat (n + 32) else c.

Fixpoint lstrip (s : list ascii) : list ascii :=
  match s with
  | c :: rest => if isspace c then lstrip rest else s
  | [] => []
  end.

Definition rstrip (s : list ascii) : list ascii := rev (lstrip (rev s)).

(** [s.strip()] *)
Definition strip (s : list ascii) : list ascii := rstrip (lstrip s).

(** An insertion-ordered [dict] with string keys. *)
Definition dict (A : Type) : Type := list (string * A).

Fixpoint dict_get {A} (k : string) (d : dict A) : option A :=
  match d with
  | [] => None
  | (k', v) :: rest => if String.eqb k k' then Some v else dict_get k rest
  end.

(** [d[k] = v]: replaces the value in place, or adds the key at the end. *)
Fixpoint dict_set {A} (k : string) (v : A) (d : dict A) : dict A :=
  match d with
  | [] => [(k, v)]
  | (k', v') :: rest =>
      if String.eqb k k' then (k', v) :: rest
      else (k', v') :: dict_set k v rest
  end.

Definition dict_mem {A} (k : string) (d : dict A) : bool :=
  match dict_get k d with Some _ => true | None => false end.

Definition dict_values {A} (d : dict A) : list A := map snd d.

End Py.

(** ** Data model *)

(** A transaction record, with the keys the code writes.  [process_payment]
    writes no ['username'], ['type'] or ['new_balance']. *)
Record txn : Type := mk_txn {
  tx_id : string;
  tx_user_id : Py.ident;
  tx_username : option string;
  tx_amount : float;
  tx_method : string;
  tx_status : string;
  tx_type : option string;
  tx_description : string;
  tx_date : string;
  tx_time : string;
  tx_timestamp : string;
  tx_new_balance : option float
}.

Definition set_new_balance (t : txn) (b : float) : txn :=
  mk_txn (tx_id t) (tx_user_id t) (tx_username t) (tx_amount t)
         (tx_method t) (tx_status t) (tx_type t) (tx_description t)
         (tx_date t) (tx_time t) (tx_timestamp t) (Some b).

(** A wallet record.  [add_money] and [credit_seller] create one without
    ['last_updated'] and set that key right after. *)
Record wallet : Type := mk_wallet {
  wallet_user_id : Py.ident;
  wallet_balance : float;
  wallet_created_at : string;
  wallet_last_updated : option string
}.

Definition set_balance (w : wallet) (b : float) : wallet :=
  mk_wallet (wallet_user_id w) b (wallet_created_at w) (wallet_last_updated w).

Definition set_last_updated (w : wallet) (s : string) : wallet :=
  mk_wallet (wallet_user_id w) (wallet_balance w) (wallet_created_at w) (Some s).

(** One line of a JSON-lines file, as the reading loops see it after
    [line.strip()]: empty, rejected by [json.loads] with [JSONDecodeError],
    or decoded to a record.  [f.write(json.dumps(r) + '\n')] adds a [Json r]
    line.  At type [line txn] every decoded line is a record; [AnyJson]
    reads ledgers at a type with the other JSON values. *)
Inductive line (A : Type) : Type :=
| Blank
| Malformed (text : string)
| Json (v : A).

Arguments Blank {A}.
Arguments Malformed {A} text.
Arguments Json {A} v.

Inductive file_name : Type := WalletsTxt | TransactionsTxt.

Inductive io_op : Type :=
| OpenRead (f : file_name)
| OpenWrite (f : file_name)
| OpenAppend (f : file_name).

(** The state the two classes share: the two files and the log of the
    [open] calls made so far. *)
Record world : Type := mk_world {
  wallet_file : list (line wallet);
  transactions_file : list (line txn);
  io_log : list io_op
}.

(** The exceptions the methods raise. *)
Inductive exn : Type :=
| CustomException (msg : string)
| InsufficientBalanceException (required available : float)
| TransactionNotFoundException (id : string)
| KeyError (key : string).

Inductive result (A : Type) : Type :=
| Ok (a : A)
| Raise (e : exn).

Arguments Ok {A} a.
Arguments Raise {A} e.

(** What the clock and the random source answer at each call site of one
    method call. *)
Record oracle : Type := mk_oracle {
  now_id_stamp : string;      (* strftime('%Y%m%d%H%M%S') in generate_transaction_id *)
  randint_100_999 : Z;        (* random.randint(100, 999) *)
  random_random : float;      (* random.random() *)
  now_date : string;          (* strftime('%Y-%m-%d') *)
  now_time : string;          (* strftime('%H:%M:%S') *)
  now_timestamp : string;     (* isoformat() for 'timestamp' *)
  now_created_at : string;    (* isoformat() for 'created_at' *)
  now_last_updated : string   (* isoformat() for 'last_updated' *)
}.

(** ** The monad of the methods: state passing with exceptions *)

Definition M (A : Type) : Type := world -> result A * world.

Definition ret {A} (a : A) : M A := fun w => (Ok a, w).

Definition raise {A} (e : exn) : M A := fun w => (Raise e, w).

Definition bind {A B} (c : M A) (k : A -> M B) : M B :=
  fun w =>
    match c w with
    | (Ok a, w') => k a w'
    | (Raise e, w') => (Raise e, w')
    end.

Declare Scope py_scope.
Delimit Scope py_scope with py.
Notation "x <- c ;; k" := (bind c (fun x => k))
  (at level 100, c at next level, right associativity) : py_scope.
Notation "c ;;; k" := (bind c (fun _ => k))
  (at level 100, right associativity) : py_scope.
Local Open Scope py_scope.

Definition log_io (op : io_op) : M unit :=
  fun w => (Ok tt, mk_world (wallet_file w) (transactions_file w) (io_log w ++ [op])).

(** ** class PaymentGateway *)

Module PaymentGateway.

(** [self.__success_rate], set by the constructor. *)
Definition success_rate : float := 1.0%float.

Definition generate_transaction_id (o : oracle) : string :=
  "TXN" ++ now_id_stamp o ++ Py.str_of_int (randint_100_999 o).

Definition save_transaction (txn_data : txn) : M unit :=
  log_io (OpenAppend TransactionsTxt) ;;;
  fun w => (Ok tt, mk_world (wallet_file w)
                            (transactions_file w ++ [Json txn_data])
                            (io_log w)).

Definition process_payment (o : oracle) (amount : float)
    (payment_method : string) (user_id : Py.ident) (description : string)
    : M txn :=
  let txn_id := generate_transaction_id o in
  let success := (random_random o <? success_rate)%float in
  let status := if success then "success" else "failed" in
  let txn_data :=
    mk_txn txn_id user_id None amount payment_method status None
           description (now_date o) (now_time o) (now_timestamp o) None in
  save_transaction txn_data ;;;
  ret txn_data.

(** The [for line in f] loop of [get_transaction].  The [try] encloses the
    whole loop: a [JSONDecodeError] leaves it, the handler is [pass], and
    the method returns [None]. *)
Fixpoint scan_transaction (txn_id : string) (user_id : option Py.ident)
    (lines : list (line txn)) : result (option txn) :=
  match lines with
  | [] => Raise (TransactionNotFoundException txn_id)
  | Blank :: rest => scan_transaction txn_id user_id rest
  | Malformed _ :: _ => Ok None
  | Json t :: rest =>
      if String.eqb (tx_id t) txn_id then
        match user_id with
        | Some u =>
            if Py.truthy_ident u
               && negb (String.eqb (Py.str (tx_user_id t)) (Py.str u))
            then scan_transaction txn_id user_id rest
            else Ok (Some t)
        | None => Ok (Some t)
        end
      else scan_transaction txn_id user_id rest
  end.

Definition get_transaction (txn_id : string) (user_id : option Py.ident)
    : M (option txn) :=
  log_io (OpenRead TransactionsTxt) ;;;
  fun w => (scan_transaction txn_id user_id (transactions_file w), w).

(** The reading loop of [get_user_transactions]: the [try] is inside the
    loop, a malformed line is skipped with [continue]. *)
Fixpoint collect_user (user_id : Py.ident) (lines : list (line txn))
    (transactions : list txn) : list txn :=
  match lines with
  | [] => transactions
  | Json t :: rest =>
      if String.eqb (Py.str (tx_user_id t)) (Py.str user_id)
      then collect_user user_id rest (transactions ++ [t])
      else collect_user user_id rest transactions
  | _ :: rest => collect_user user_id rest transactions
  end.

(** The reading loop of [get_all_transactions]. *)
Fixpoint collect_all (lines : list (line txn)) (transactions : list txn)
    : list txn :=
  match lines with
  | [] => transactions
  | Json t :: rest => collect_all rest (transactions ++ [t])
  | _ :: rest => collect_all rest transactions
  end.

(** [transactions.sort(key=lambda x: x.get('timestamp', ''), reverse=True)]:
    a stable sort, largest key first; records with equal keys keep their
    order.  That determines the result whatever the algorithm; it is
    computed here by insertion from the right, and [SortFacts] shows the
    result sorted, a permutation and stable. *)
Fixpoint insert_desc (t : txn) (sorted : list txn) : list txn :=
  match sorted with
  | [] => [t]
  | t' :: rest =>
      if String.leb (tx_timestamp t') (tx_timestamp t)
      then t :: t' :: rest
      else t' :: insert_desc t rest
  end.

Fixpoint sort_by_timestamp_desc (l : list txn) : list txn :=
  match l with
  | [] => []
  | t :: rest => insert_desc t (sort_by_timestamp_desc rest)
  end.

Definition get_user_transactions (user_id : Py.ident) : M (list txn) :=
  log_io (OpenRead TransactionsTxt) ;;;
  fun w =>
    (Ok (sort_by_timestamp_desc
           (collect_user user_id (transactions_file w) [])), w).

Definition get_all_transactions : M (list txn) :=
  log_io (OpenRead TransactionsTxt) ;;;
  fun w =>
    (Ok (sort_by_timestamp_desc (collect_all (transactions_file w) [])), w).

End PaymentGateway.

(** ** class WalletManager *)

Module WalletManager.

Import Py.

(** The loop of [__read_all_wallets]: a later line of the same user
    replaces the earlier one. *)
Fixpoint load_wallets (lines : list (line wallet)) (wallets : dict wallet)
    : dict wallet :=
  match lines with
  | [] => wallets
  | Json w :: rest =>
      load_wallets rest (dict_set (str (wallet_user_id w)) w wallets)
  | _ :: rest => load_wallets rest wallets
  end.

Definition read_all_wallets : M (dict wallet) :=
  log_io (OpenRead WalletsTxt) ;;;
  fun w => (Ok (load_wallets (wallet_file w) []), w).

Definition write_all_wallets (wallets : dict wallet) : M unit :=
  log_io (OpenWrite WalletsTxt) ;;;
  fun w => (Ok tt, mk_world (map (fun x => Json x) (dict_values wallets))
                            (transactions_file w) (io_log w)).

(** [wallets[user_id]] *)
Definition getitem (user_id : string) (wallets : dict wallet) : M wallet :=
  match dict_get user_id wallets with
  | Some w => ret w
  | None => raise (KeyError user_id)
  end.

Definition get_balance (user_id : ident) : M float :=
  wallets <- read_all_wallets ;;
  let user_id := str user_id in
  match dict_get user_id wallets with
  | Some w => ret (wallet_balance w)
  | None => ret 0.0%float
  end.

Definition create_wallet (o : oracle) (user_id : ident)
    (initial_balance : float) : M wallet :=
  wallets <- read_all_wallets ;;
  let user_id := str user_id in
  wallets <-
    (if dict_mem user_id wallets then ret wallets
     else
       let wallets :=
         dict_set user_id
           (mk_wallet (IdStr user_id) initial_balance (now_created_at o)
                      (Some (now_last_updated o)))
           wallets in
       write_all_wallets wallets ;;; ret wallets) ;;
  getitem user_id wallets.

Definition invalid_amount : exn :=
  CustomException "Amount must be greater than 0".

(** The creation step shared by [add_money] and [credit_seller]. *)
Definition ensure_wallet (o : oracle) (user_id : string)
    (wallets : dict wallet) : dict wallet :=
  if dict_mem user_id wallets then wallets
  else dict_set user_id
         (mk_wallet (IdStr user_id) 0.0%float (now_created_at o) None)
         wallets.

(** [wallets[user_id]['balance'] = float(wallets[user_id].get('balance', 0))
    + float(amount)] followed by the ['last_updated'] assignment. *)
Definition credit_balance (o : oracle) (user_id : string) (amount : float)
    (wallets : dict wallet) : M (dict wallet) :=
  w0 <- getitem user_id wallets ;;
  let wallets :=
    dict_set user_id (set_balance w0 (wallet_balance w0 + amount)%float)
             wallets in
  w1 <- getitem user_id wallets ;;
  ret (dict_set user_id (set_last_updated w1 (now_last_updated o)) wallets).

Definition add_money (o : oracle) (user_id : ident) (amount : float)
    (payment_method description : string) : M txn :=
  if (amount <=? 0)%float then raise invalid_amount
  else
    txn_result <-
      PaymentGateway.process_payment o amount payment_method user_id
                                     description ;;
    if String.eqb (tx_status txn_result) "success" then
      wallets <- read_all_wallets ;;
      let user_id := str user_id in
      let wallets := ensure_wallet o user_id wallets in
      wallets <- credit_balance o user_id amount wallets ;;
      write_all_wallets wallets ;;;
      w <- getitem user_id wallets ;;
      ret (set_new_balance txn_result (wallet_balance w))
    else ret txn_result.

Definition deduct_money (o : oracle) (user_id : ident) (amount : float)
    (description : string) (username : option string) : M txn :=
  if (amount <=? 0)%float then raise invalid_amount
  else
    wallets <- read_all_wallets ;;
    let user_id := str user_id in
    let current_balance :=
      match dict_get user_id wallets with
      | Some w => wallet_balance w
      | None => 0%float
      end in
    if (current_balance <? amount)%float then
      raise (InsufficientBalanceException amount current_balance)
    else
      w0 <- getitem user_id wallets ;;
      let wallets :=
        dict_set user_id (set_balance w0 (current_balance - amount)%float)
                 wallets in
      w1 <- getitem user_id wallets ;;
      let wallets :=
        dict_set user_id (set_last_updated w1 (now_last_updated o))
                 wallets in
      write_all_wallets wallets ;;;
      let id := PaymentGateway.generate_transaction_id o in
      w2 <- getitem user_id wallets ;;
      let txn_result :=
        mk_txn id (IdStr user_id)
               (Some (or_else username ("User #" ++ user_id)))
               amount "wallet" "success" (Some "debit") description
               (now_date o) (now_time o) (now_timestamp o)
               (Some (wallet_balance w2)) in
      PaymentGateway.save_transaction txn_result ;;;
      ret txn_result.

Definition credit_seller (o : oracle) (user_id : ident) (amount : float)
    (description : string) (username transaction_id : option string)
    : M txn :=
  if (amount <=? 0)%float then raise invalid_amount
  else
    wallets <- read_all_wallets ;;
    let user_id := str user_id in
    let wallets := ensure_wallet o user_id wallets in
    wallets <- credit_balance o user_id amount wallets ;;
    write_all_wallets wallets ;;;
    let id :=
      or_else transaction_id (PaymentGateway.generate_transaction_id o) in
    w <- getitem user_id wallets ;;
    let txn_result :=
      mk_txn id (IdStr user_id)
             (Some (or_else username ("User #" ++ user_id)))
             amount "wallet" "success" (Some "credit") description
             (now_date o) (now_time o) (now_timestamp o)
             (Some (wallet_balance w)) in
    PaymentGateway.save_transaction txn_result ;;;
    ret txn_result.

Definition get_transaction_history (user_id : ident) : M (list txn) :=
  PaymentGateway.get_user_transactions user_id.

End WalletManager.

(** ** class InvoiceGenerator *)

Module InvoiceGenerator.

Import Py.

(** The elements of the one regular expression the module uses:
    [\s*] (greedy) and a literal character, compared without regard to
    case under [re.IGNORECASE]. *)
Inductive re_atom : Type :=
| SpaceStar
| Lit (c : ascii).

(** [r'\s*\[MANUAL FIX\]\s*'] *)
Definition manual_fix_pattern : list re_atom :=
  SpaceStar :: map Lit (list_ascii_of_string "[MANUAL FIX]") ++ [SpaceStar].

(** Matching at the head of [s], as the backtracking matcher of [re] does:
    [\s*] first takes as many characters as it can and gives them back one
    by one while the rest of the pattern fails.  The answer is the number
    of characters of the match. *)
Fixpoint re_match (p : list re_atom) (s : list ascii) : option nat :=
  match p with
  | [] => Some 0
  | Lit c :: p' =>
      match s with
      | c' :: s' =>
          if Ascii.eqb (lower c) (lower c')
          then option_map S (re_match p' s')
          else None
      | [] => None
      end
  | SpaceStar :: p' =>
      (fix star (s : list ascii) : option nat :=
         match s with
         | c :: s' =>
             if isspace c then
               match star s' with
               | Some n => Some (S n)
               | None => re_match p' s
               end
             else re_match p' s
         | [] => re_match p' s
         end) s
  end.

(** [re.sub(p, '', s)]: the matches are found from left to right, each
    search starting where the previous match ended, and are dropped.
    [skip] counts the characters of the current match still to drop. *)
Fixpoint re_sub_from (p : list re_atom) (skip : nat) (s : list ascii)
    : list ascii :=
  match s with
  | [] => []
  | c :: rest =>
      match skip with
      | S k => re_sub_from p k rest
      | O =>
          match re_match p s with
          | Some (S k) => re_sub_from p k rest
          | _ => c :: re_sub_from p 0 rest
          end
      end
  end.

Definition re_sub (p : list re_atom) (s : string) : string :=
  string_of_list_ascii (re_sub_from p 0 (list_ascii_of_string s)).

Definition str_strip (s : string) : string :=
  string_of_list_ascii (strip (list_ascii_of_string s)).

(** The values [generate_invoice_html] binds and its f-string template
    interpolates; the document is the fixed markup around them. *)
Record invoice : Type := mk_invoice {
  inv_txn_id : string;
  inv_amount : float;
  inv_status : string;
  inv_method : string;
  inv_date : string;
  inv_time : string;
  inv_description : string;
  inv_username : string;
  inv_status_color : string;
  inv_generated_on : string
}.

Definition generate_invoice_html (generated_on : string) (transaction : txn)
    : M invoice :=
  let txn_id := tx_id transaction in
  let amount := tx_amount transaction in
  let status := tx_status transaction in
  let method := tx_method transaction in
  let date := tx_date transaction in
  let time := tx_time transaction in
  let description := tx_description transaction in
  let user_id := tx_user_id transaction in
  let username :=
    match tx_username transaction with
    | Some u => u
    | None => ("User #" ++ str user_id)%string
    end in
  let description := str_strip (re_sub manual_fix_pattern description) in
  let status_color :=
    if String.eqb status "success" then "#28a745" else "#dc3545" in
  ret (mk_invoice txn_id amount status method date time description
                  username status_color generated_on).

End InvoiceGenerator.

(** ** routes.place_order: the settlement of a created order *)

Module Routes.

Import Py.

Definition platform_fee_percent : float := 0.10%float.

(** How [place_order] leaves its payment section: the order cancelled
    because the debit raised, or the order kept, with the debit record and
    the outcome of the seller credit, whose exception is only printed. *)
Inductive outcome : Type :=
| Cancelled (e : exn)
| Placed (buyer_txn : txn) (seller_credit : result txn).

(** [place_order] from the call of [deduct_money] to the end of the seller
    credit, for an order [order_id] of [total_price] on the service
    [title]. *)
Definition place_order (o_debit o_credit : oracle)
    (buyer : ident) (buyer_username : string)
    (seller : ident) (seller_username : string)
    (total_price : float) (title : string) (order_id : Z)
    : world -> outcome * world :=
  fun w =>
    match
      WalletManager.deduct_money o_debit buyer total_price
        ("Service Purchase: " ++ title ++ " (Order #"
           ++ str_of_int order_id ++ ")")
        (Some buyer_username) w
    with
    | (Raise e, w1) => (Cancelled e, w1)
    | (Ok buyer_txn, w1) =>
        let buyer_txn_id := tx_id buyer_txn in
        let seller_amount :=
          (total_price * (1 - platform_fee_percent))%float in
        let '(credit, w2) :=
          WalletManager.credit_seller o_credit seller seller_amount
            ("Payment Received: " ++ title ++ " (Order #"
               ++ str_of_int order_id ++ ") - After 10% platform fee")
            (Some seller_username) (Some buyer_txn_id) w1 in
        (Placed buyer_txn credit, w2)
    end.

End Routes.

(** ** Vocabulary of the specification *)

Module Spec.

Import Py.

(** The valid records of a ledger file, in file order. *)
Fixpoint valid_records (lines : list (line txn)) : list txn :=
  match lines with
  | [] => []
  | Json t :: rest => t :: valid_records rest
  | _ :: rest => valid_records rest
  end.

Definition is_malformed {A} (l : line A) : bool :=
  match l with Malformed _ => true | _ => false end.

(** [t] answers a lookup of [txn_id], restricted to [user_id] when one is
    given (and is not an empty value). *)
Definition matches (txn_id : string) (user_id : option ident) (t : txn)
    : bool :=
  String.eqb (tx_id t) txn_id
  && match user_id with
     | Some u =>
         negb (truthy_ident u)
         || String.eqb (str (tx_user_id t)) (str u)
     | None => true
     end.

(** The answer [find] owes: the first matching valid record of the whole
    file, malformed lines skipped. *)
Definition first_match (txn_id : string) (user_id : option ident)
    (lines : list (line txn)) : option txn :=
  List.find (matches txn_id user_id) (valid_records lines).

(** Newest first: timestamps never increase along the list. *)
Definition newest_first (l : list txn) : Prop :=
  StronglySorted
    (fun a b => String.leb (tx_timestamp b) (tx_timestamp a) = true) l.

Definition owned_by (user_id : ident) (t : txn) : bool :=
  String.eqb (str (tx_user_id t)) (str user_id).

(** The balance stored for a user: that of the last wallet line of the
    user in the snapshot, [0] without one. *)
Fixpoint last_wallet (key : string) (lines : list (line wallet))
    (found : option wallet) : option wallet :=
  match lines with
  | [] => found
  | Json w :: rest =>
      if String.eqb key (str (wallet_user_id w))
      then last_wallet key rest (Some w)
      else last_wallet key rest found
  | _ :: rest => last_wallet key rest found
  end.

Definition stored_wallet (w : world) (user_id : ident) : option wallet :=
  last_wallet (str user_id) (wallet_file w) None.

Definition stored_balance (w : world) (user_id : ident) : float :=
  match stored_wallet w user_id with
  | Some x => wallet_balance x
  | None => 0%float
  end.

(** The tag of a manual reconciliation. *)
Definition manual_fix_tag : list ascii := list_ascii_of_string "[MANUAL FIX]".

(** [s] begins with [tag], case ignored. *)
Fixpoint starts_with (tag s : list ascii) : bool :=
  match tag, s with
  | [], _ => true
  | t :: tag', c :: s' => Ascii.eqb (lower t) (lower c) && starts_with tag' s'
  | _ :: _, [] => false
  end.

Fixpoint leading_spaces (s : list ascii) : nat :=
  match s with
  | c :: rest => if isspace c then S (leading_spaces rest) else 0
  | [] => 0
  end.

(** The length of the occurrence of the tag at the head of [s] together
    with the whitespace around it, when there is one. *)
Definition tag_span (s : list ascii) : option nat :=
  let before := leading_spaces s in
  let s1 := skipn before s in
  if starts_with manual_fix_tag s1 then
    Some (before + List.length manual_fix_tag
          + leading_spaces (skipn (List.length manual_fix_tag) s1))
  else None.

(** The text with every occurrence of the tag, and the whitespace around
    it, removed. *)
Fixpoint remove_tags_from (skip : nat) (s : list ascii) : list ascii :=
  match s with
  | [] => []
  | c :: rest =>
      match skip with
      | S k => remove_tags_from k rest
      | O =>
          match tag_span s with
          | Some (S k) => remove_tags_from k rest
          | _ => c :: remove_tags_from 0 rest
          end
      end
  end.

Definition remove_tags (s : string) : string :=
  string_of_list_ascii (remove_tags_from 0 (list_ascii_of_string s)).

End Spec.

(** ** The values the wallet methods build *)

Module Outcome.

Import Py.

(** The debit record [deduct_money] writes for a new balance. *)
Definition debit_record (o : oracle) (u : ident) (amount : float)
    (description : string) (username : option string) (new_balance : float)
    : txn :=
  mk_txn (PaymentGateway.generate_transaction_id o) (IdStr (str u))
         (Some (or_else username ("User #" ++ str u)))
         amount "wallet" "success" (Some "debit") description
         (now_date o) (now_time o) (now_timestamp o) (Some new_balance).

(** The wallet a credit starts from: the stored one, or the zero-balance
    wallet [add_money] and [credit_seller] create first. *)
Definition wallet_or_new (o : oracle) (w : world) (u : ident) : wallet :=
  match Spec.stored_wallet w u with
  | Some x => x
  | None => mk_wallet (IdStr (str u)) 0.0%float (now_created_at o) None
  end.

(** That wallet after a credit of [amount]. *)
Definition credited (o : oracle) (w : world) (u : ident) (amount : float)
    : wallet :=
  let x := wallet_or_new o w u in
  set_last_updated (set_balance x (wallet_balance x + amount)%float)
                   (now_last_updated o).

(** The record [process_payment] writes. *)
Definition payment_record (o : oracle) (u : ident) (amount : float)
    (payment_method description status : string) : txn :=
  mk_txn (PaymentGateway.generate_transaction_id o) u None amount
         payment_method status None description
         (now_date o) (now_time o) (now_timestamp o) None.

(** The credit record [credit_seller] writes. *)
Definition credit_record (o : oracle) (u : ident) (amount : float)
    (description : string) (username transaction_id : option string)
    (new_balance : float) : txn :=
  mk_txn (or_else transaction_id (PaymentGateway.generate_transaction_id o))
         (IdStr (str u))
         (Some (or_else username ("User #" ++ str u)))
         amount "wallet" "success" (Some "credit") description
         (now_date o) (now_time o) (now_timestamp o) (Some new_balance).

End Outcome.

(** The shape of every dictionary [__read_all_wallets] returns and every
    dictionary the methods pass to [__write_all_wallets]: keys are distinct
    and each wallet sits under [str] of its own ['user_id']. *)
Definition keyed (d : Py.dict wallet) : Prop :=
  NoDup (map fst d)
  /\ Forall (fun p => fst p = Py.str (wallet_user_id (snd p))) d.

(** ** Sample inputs *)

Module Sample.

Import Py.

(** A reading of the clock and of the random source. *)
Definition oracle_a : oracle :=
  mk_oracle "20260115103000" 123 0.5%float "2026-01-15" "10:30:00"
            "2026-01-15T10:30:00.000001" "2026-01-15T10:30:00.000002"
            "2026-01-15T10:30:00.000003".

Definition oracle_b : oracle :=
  mk_oracle "20260115103001" 456 0.25%float "2026-01-15" "10:30:01"
            "2026-01-15T10:30:01.000001" "2026-01-15T10:30:01.000002"
            "2026-01-15T10:30:01.000003".

(** Both files empty, as the constructors create them. *)
Definition fresh : world := mk_world [] [] [].

Definition wallet_of (user_id : string) (balance : float) : wallet :=
  mk_wallet (IdStr user_id) balance "2026-01-01T09:00:00"
            (Some "2026-01-01T09:00:00").

(** User 1 holds 1000, nobody else has a wallet. *)
Definition buyer_1000 : world :=
  mk_world [Json (wallet_of "1" 1000%float)] [] [].

(** User 7 holds 5. *)
Definition holder_5 : world :=
  mk_world [Json (wallet_of "7" 5%float)] [] [].

(** A debit record of user 1. *)
Definition record_r : txn :=
  mk_txn "TXN20260115103000123" (IdStr "1") (Some "asha") 200%float
         "wallet" "success" (Some "debit") "Course Purchase"
         "2026-01-15" "10:30:00" "2026-01-15T10:30:00.000001"
         (Some 800%float).

(** The seller's credit of the same order: it shares the id of
    [record_r]. *)
Definition record_credit : txn :=
  mk_txn "TXN20260115103000123" (IdStr "2") (Some "ravi") 180%float
         "wallet" "success" (Some "credit") "Payment Received"
         "2026-01-15" "10:30:01" "2026-01-15T10:30:01.000001"
         (Some 180%float).

(** An older recharge of user 2. *)
Definition record_s : txn :=
  mk_txn "TXN20260110080000555" (IdInt 2) None 50%float
         "upi" "success" None "Wallet Recharge"
         "2026-01-10" "08:00:00" "2026-01-10T08:00:00.000001" None.

(** A debit whose description, sent by the client of [/wallet/deduct],
    has blanks at both ends. *)
Definition record_padded : txn :=
  mk_txn "TXN20260116120000321" (IdStr "1") None 40%float
         "wallet" "success" (Some "debit") " Gift card "
         "2026-01-16" "12:00:00" "2026-01-16T12:00:00.000001"
         (Some 760%float).

(** A ledger whose first line was cut short by a partial write, followed
    by the line of [record_r]. *)
Definition torn_ledger : world :=
  mk_world [] [Malformed "{truncated"; Json record_r] [].

(** A ledger with a malformed line between two valid ones. *)
Definition mixed_ledger : world :=
  mk_world [] [Json record_s; Malformed "{truncated"; Json record_r] [].

End Sample.

(** ** PaymentGateway.validate_card *)

Module CardValidation.

Import Py.

Local Open Scope Z_scope.

(** [c.isdigit()] for one character: the decimal digits and the three
    superscript digits below 256. *)
Definition isdigit (c : ascii) : bool :=
  let n := nat_of_ascii c in
  ((48 <=? n) && (n <=? 57) || (n =? 178) || (n =? 179) || (n =? 185))%nat.

(** [s.isdigit()]: every character is a digit and there is at least one. *)
Definition str_isdigit (s : list ascii) : bool :=
  match s with
  | [] => false
  | _ => forallb isdigit s
  end.

(** [s.replace(' ', '')] *)
Definition remove_spaces (s : list ascii) : list ascii :=
  filter (fun c => negb (Ascii.eqb c " "%char)) s.

(** The characters [int()] skips at both ends of its argument. *)
Definition int_space (c : ascii) : bool :=
  let n := nat_of_ascii c in
  ((9 <=? n) && (n <=? 13) || (n =? 32) || (n =? 133) || (n =? 160))%nat.

Definition is_decimal (c : ascii) : bool :=
  let n := nat_of_ascii c in ((48 <=? n) && (n <=? 57))%nat.

Definition digit_value (c : ascii) : Z := Z.of_nat (nat_of_ascii c - 48).

Fixpoint int_lstrip (s : list ascii) : list ascii :=
  match s with
  | c :: rest => if int_space c then int_lstrip rest else s
  | [] => []
  end.

Definition int_strip (s : list ascii) : list ascii :=
  rev (int_lstrip (rev (int_lstrip s))).

(** The digits of an [int()] literal: decimal digits, with single
    underscores allowed between two digits. *)
Fixpoint int_digits (s : list ascii) (acc : Z) (after_digit : bool)
    : option Z :=
  match s with
  | [] => if after_digit then Some acc else None
  | c :: rest =>
      if is_decimal c then int_digits rest (10 * acc + digit_value c) true
      else if Ascii.eqb c "_"%char && after_digit
           then int_digits rest acc false
           else None
  end.

(** [int(s)]; [None] stands for [ValueError]. *)
Definition py_int (s : list ascii) : option Z :=
  match int_strip s with
  | "+"%char :: rest => int_digits rest 0 false
  | "-"%char :: rest => option_map Z.opp (int_digits rest 0 false)
  | body => int_digits body 0 false
  end.

(** What a call of [validate_card] ends in: [return True] or the
    exception. *)
Inductive verdict : Type :=
| Accepted
| InvalidCardException (message : string).

(** [now_year] and [now_month] are the readings [datetime.now().year] and
    [datetime.now().month]. *)
Definition validate_card (now_year now_month : Z)
    (card_number expiry_date cvv : string) : verdict :=
  let number := remove_spaces (list_ascii_of_string card_number) in
  let code := list_ascii_of_string cvv in
  let expiry := list_ascii_of_string expiry_date in
  if negb (truthy_str card_number) || negb (List.length number =? 16)%nat
  then InvalidCardException "Card number must be 16 digits"
  else if negb (str_isdigit number)
  then InvalidCardException "Card number must contain only digits"
  else if negb (truthy_str cvv) || negb (List.length code =? 3)%nat
          || negb (str_isdigit code)
  then InvalidCardException "CVV must be 3 digits"
  else if negb (truthy_str expiry_date) || negb (List.length expiry =? 5)%nat
          || negb (Ascii.eqb (nth 2 expiry "000"%char) "/"%char)
  then InvalidCardException "Expiry date must be in MM/YY format"
  else
    match py_int (firstn 2 expiry) with
    | None => InvalidCardException "Invalid expiry date format"
    | Some month =>
        match py_int (skipn 3 expiry) with
        | None => InvalidCardException "Invalid expiry date format"
        | Some year =>
            if (month <? 1) || (month >? 12)
            then InvalidCardException "Invalid expiry month"
            else
              let current_year := now_year mod 100 in
              let current_month := now_month in
              if (year <? current_year)
                 || ((year =? current_year) && (month <? current_month))
              then InvalidCardException "Card has expired"
              else Accepted
        end
    end.

End CardValidation.

(** ** WalletManager.get_wallet *)

Module WalletQueries.

Import Py.

Definition get_wallet (o : oracle) (user_id : ident) : M wallet :=
  wallets <- WalletManager.read_all_wallets ;;
  let user_id := str user_id in
  match dict_get user_id wallets with
  | Some w => ret w
  | None =>
      ret (mk_wallet (IdStr user_id) 0.0%float (now_created_at o)
                     (Some (now_last_updated o)))
  end.

End WalletQueries.

(** ** class TransactionFilter *)

Module TransactionFilter.

Import Py.

(** The loop of [filter_by_date_range]; the comparison of dates is the
    comparison of strings. *)
Fixpoint date_range_loop (transactions : list txn)
    (start_date end_date : string) (filtered : list txn) : list txn :=
  match transactions with
  | [] => filtered
  | t :: rest =>
      let txn_date := tx_date t in
      if String.leb start_date txn_date && String.leb txn_date end_date
      then date_range_loop rest start_date end_date (filtered ++ [t])
      else date_range_loop rest start_date end_date filtered
  end.

Definition filter_by_date_range (transactions : list txn)
    (start_date end_date : string) : list txn :=
  date_range_loop transactions start_date end_date [].

Definition filter_by_status (transactions : list txn) (status : string)
    : list txn :=
  filter (fun t => String.eqb (tx_status t) status) transactions.

(** [sep.join(items)] *)
Fixpoint join (sep : string) (items : list string) : string :=
  match items with
  | [] => ""
  | [x] => x
  | x :: rest => (x ++ sep ++ join sep rest)%string
  end.

(** [s.replace(',', ';')] *)
Fixpoint replace_commas (s : string) : string :=
  match s with
  | EmptyString => EmptyString
  | String c rest =>
      String (if Ascii.eqb c ","%char then ";"%char else c)
             (replace_commas rest)
  end.

Definition newline : string := String (ascii_of_nat 10) EmptyString.

Definition headers : list string :=
  ["Transaction ID"; "Amount"; "Status"; "Method"; "Description"; "Date";
   "Time"].

Section Csv.

(** [str(x)] for a float, the text Python prints for it. *)
Variable float_str : float -> string.

Definition row (t : txn) : list string :=
  [tx_id t; float_str (tx_amount t); tx_status t; tx_method t;
   replace_commas (tx_description t); tx_date t; tx_time t].

Fixpoint rows_loop (transactions : list txn) (csv_content : string)
    : string :=
  match transactions with
  | [] => csv_content
  | t :: rest =>
      rows_loop rest (csv_content ++ join "," (row t) ++ newline)%string
  end.

(** The text returned, and the file written as (name, content) when one
    is. *)
Definition export_to_csv (transactions : list txn) (filename : string)
    : string * option (string * string) :=
  match transactions with
  | [] => ("No transactions to export", None)
  | _ =>
      let csv_content := (join "," headers ++ newline)%string in
      let csv_content := rows_loop transactions csv_content in
      (csv_content, Some (filename, csv_content))
  end.

End Csv.

End TransactionFilter.

(** ** What the file system answers to [open] *)

Module Storage.

(** The file is opened, or [IOError] is raised with a text (the file or a
    folder of its path does not exist, the name is too long, the file may
    not be read or written). *)
Inductive opening : Type :=
| Opens
| IOError (text : string).

End Storage.

(** ** InvoiceGenerator.save_invoice *)

Module InvoiceFiles.

Import Py Storage.

Definition ends_with_slash (s : string) : bool :=
  match rev (list_ascii_of_string s) with
  | c :: _ => Ascii.eqb c "/"%char
  | [] => false
  end.

(** [os.path.join(a, b)] on a POSIX system. *)
Definition path_join (a b : string) : string :=
  if String.prefix "/" b then b
  else if negb (truthy_str a) || ends_with_slash a then (a ++ b)%string
  else (a ++ "/" ++ b)%string.

(** The documents of the invoices folder, by path. *)
Definition folder : Type := dict InvoiceGenerator.invoice.

(** [open(file_path, 'w')] itself refuses a path that holds the character
    of code 0, with [ValueError]. *)
Definition has_nul (path : string) : bool :=
  existsb (fun c => Ascii.eqb c "000"%char) (list_ascii_of_string path).

(** How [save_invoice] ends: it returns the path, the folder now holding
    the document; it raises an exception of [exn], which for an [IOError]
    of [open] is the [CustomException] of the handler; or the
    [ValueError] of [open] leaves it, which the handler does not catch. *)
Inductive saved : Type :=
| Saved (file_path : string) (files : folder)
| Raised (e : exn)
| ValueError (file_path : string).

Definition save_invoice (io : opening) (invoices_folder generated_on : string)
    (transaction : txn) (files : folder) : world -> saved * world :=
  fun w =>
    let txn_id := tx_id transaction in
    match
      InvoiceGenerator.generate_invoice_html generated_on transaction w
    with
    | (Raise e, w1) => (Raised e, w1)
    | (Ok html_content, w1) =>
        let file_path :=
          path_join invoices_folder
                    ("invoice_" ++ txn_id ++ ".html")%string in
        if has_nul file_path then (ValueError file_path, w1)
        else
          match io with
          | Opens =>
              (Saved file_path (dict_set file_path html_content files), w1)
          | IOError text =>
              (Raised (CustomException ("Error saving invoice: " ++ text)),
               w1)
          end
    end.

End InvoiceFiles.

(** ** The wallet routes of routes.py *)

Module WalletRoutes.

Import Py.

(** [place_order]: the price of the order for the chosen budget tier. *)
Definition order_price (base_price : float) (budget_tier : string) : float :=
  if String.eqb budget_tier "Basic" then (base_price * 0.8)%float
  else if String.eqb budget_tier "Premium" then (base_price * 1.5)%float
  else base_price.

(** [int(x)] raises on a float that is not finite: [ValueError] on NaN,
    [OverflowError] on an infinity. *)
Definition int_raises (x : float) : bool := negb (is_finite x).

(** Where a request to [place_order] ends, as far as the wallet goes.
    [WalletPage] and [ErrorPlacingOrder] are the two redirections taken
    before any payment.  [Unhandled] is an exception that no handler of
    the route catches; [None] stands for the error of [int] on an amount
    that is not finite, in the message shown on the wallet page.
    [OrderCreated] says that an order was created and how the payment
    section left it; what follows a placed order (the notification, the
    e-mails, the redirection) is not modelled. *)
Inductive page : Type :=
| WalletPage
| ErrorPlacingOrder
| Unhandled (cause : option exn)
| OrderCreated (payment : Routes.outcome).

(** [place_order] as a whole.  [order] is what [order_manager.create_order]
    returns: nothing, or an order with its total price and its id. *)
Definition place_order_request (o_debit o_credit : oracle)
    (buyer : ident) (buyer_username : string)
    (seller : ident) (seller_username : string)
    (base_price : float) (budget_tier : string)
    (order : option (float * Z)) (title : string)
    : world -> page * world :=
  fun w =>
    let order_price := order_price base_price budget_tier in
    match WalletManager.get_balance buyer w with
    | (Raise e, w1) => (Unhandled (Some e), w1)
    | (Ok current_balance, w1) =>
        if (current_balance <? order_price)%float then
          let shortfall := (order_price - current_balance)%float in
          if int_raises order_price || int_raises current_balance
             || int_raises shortfall
          then (Unhandled None, w1)
          else (WalletPage, w1)
        else
          match order with
          | Some (total_price, order_id) =>
              let '(payment, w2) :=
                Routes.place_order o_debit o_credit buyer buyer_username
                  seller seller_username total_price title order_id w1 in
              (OrderCreated payment, w2)
          | None => (ErrorPlacingOrder, w1)
          end
    end.

(** The answers of [get_invoice]: the document, or a JSON error with its
    status.  [ServerError None] is the [AttributeError] raised on a
    transaction that is [None]. *)
Inductive invoice_reply : Type :=
| InvoiceDocument (doc : InvoiceGenerator.invoice)
| Unauthorized
| TransactionNotFound
| ServerError (cause : option exn).

(** The two [except] clauses of [get_invoice]. *)
Definition invoice_error (e : exn) : invoice_reply :=
  match e with
  | TransactionNotFoundException _ => TransactionNotFound
  | _ => ServerError (Some e)
  end.

Definition get_invoice (generated_on : string) (current_user_id : ident)
    (txn_id : string) : world -> invoice_reply * world :=
  fun w =>
    match PaymentGateway.get_transaction txn_id None w with
    | (Ok (Some transaction), w1) =>
        if negb (String.eqb (str (tx_user_id transaction))
                            (str current_user_id))
        then (Unauthorized, w1)
        else
          match
            InvoiceGenerator.generate_invoice_html generated_on transaction w1
          with
          | (Ok invoice_html, w2) => (InvoiceDocument invoice_html, w2)
          | (Raise e, w2) => (invoice_error e, w2)
          end
    | (Ok None, w1) => (ServerError None, w1)
    | (Raise e, w1) => (invoice_error e, w1)
    end.

(** The answers of the [/wallet/add] endpoint. *)
Inductive add_money_reply : Type :=
| Processed (success : bool) (transaction : txn)
| InvalidAmount
| ErrorMessage (e : exn)
| PaymentFailed.

(** [add_money] of [routes.py].  [amount] is the outcome of
    [float(data.get('amount', 0))], [None] when it raises. *)
Definition add_money (o : oracle) (current_user_id : ident)
    (amount : option float) (method : string)
    : world -> add_money_reply * world :=
  fun w =>
    match amount with
    | None => (PaymentFailed, w)
    | Some amount =>
        if (amount <=? 0)%float then (InvalidAmount, w)
        else
          match
            WalletManager.add_money o current_user_id amount method
                                    "Wallet Recharge" w
          with
          | (Ok result, w1) =>
              (Processed (String.eqb (tx_status result) "success") result, w1)
          | (Raise (KeyError k), w1) => (PaymentFailed, w1)
          | (Raise e, w1) => (ErrorMessage e, w1)
          end
    end.

End WalletRoutes.

(** ** chat_manager.py and routes_chat.py *)

Module Chat.

(** What the two endpoints ask of [current_user]. *)
Record user : Type := mk_user {
  has_is_authenticated : bool;
  is_authenticated : bool;
  has_is_provider : bool;
  is_provider : bool;
  has_is_admin : bool;
  is_admin : bool
}.

(** The role [ask] computes. *)
Definition ask_role (u : user) : string :=
  if has_is_authenticated u && is_authenticated u then
    if has_is_provider u && is_provider u then "provider"
    else if has_is_admin u && is_admin u then "admin"
    else "client"
  else "guest".

(** The role [init_chat] computes. *)
Definition init_chat_role (u : user) : string :=
  if has_is_authenticated u && is_authenticated u then
    if has_is_admin u && is_admin u then "admin"
    else if has_is_provider u && is_provider u then "provider"
    else "client"
  else "guest".

Definition get_initial_suggestions (role : string) : list string :=
  if String.eqb role "admin" then
    ["How can I manage users on this platform?";
     "How do I add or update services?";
     "How can I manage service categories?";
     "How do I view or handle orders?";
     "What should I configure first as an admin?"]
  else
    ["How do I find the right service for me?";
     "How can I book a service?";
     "How do I manage my bookings?";
     "How can I contact a service provider?";
     "How do I track my orders?"].

(** The suggestions [get_response] attaches to an answer. *)
Definition response_suggestions (user_role : string) : list string :=
  firstn 3 (get_initial_suggestions user_role).

(** [init_chat]: the status and the suggestions, none when the feature is
    disabled. *)
Definition init_chat (enable_askvera : bool) (u : user)
    : Z * option (list string) :=
  if negb enable_askvera then (404%Z, None)
  else (200%Z, Some (get_initial_suggestions (init_chat_role u))).

End Chat.

(** ** Vocabulary for the wallet snapshot *)

Module Snapshot.

Import Py.

(** The wallet records of a snapshot file, in file order. *)
Fixpoint wallet_records (lines : list (line wallet)) : list wallet :=
  match lines with
  | [] => []
  | Json x :: rest => x :: wallet_records rest
  | _ :: rest => wallet_records rest
  end.

Definition is_record {A} (l : line A) : bool :=
  match l with Json _ => true | _ => false end.

(** Every line is a wallet record and no two lines are of one user. *)
Definition one_line_per_user (lines : list (line wallet)) : Prop :=
  forallb is_record lines = true
  /\ NoDup (map (fun x => str (wallet_user_id x)) (wallet_records lines)).

End Snapshot.

(** ** More sample inputs *)

Module SampleMore.

Import Py.

(** A snapshot with a torn line, an empty line and two lines of user 7. *)
Definition messy_wallets : world :=
  mk_world [Malformed "{torn"; Json (Sample.wallet_of "7" 5%float); Blank;
            Json (Sample.wallet_of "7" 9%float);
            Json (Sample.wallet_of "8" 20%float)] [] [].

(** User 7 holds a balance that is not a number. *)
Definition holder_nan : world :=
  mk_world [Json (Sample.wallet_of "7" nan)] [] [].

(** User 7 holds an infinite balance. *)
Definition holder_infinity : world :=
  mk_world [Json (Sample.wallet_of "7" infinity)] [] [].

(** The ledger after the settlement of one order: the buyer's debit, then
    the seller's credit under the same id. *)
Definition settled_ledger : world :=
  mk_world [] [Json Sample.record_r; Json Sample.record_credit] [].

Definition float_text (x : float) : string := "0.0".

End SampleMore.

(** ** Vocabulary for files and text *)

Module Text.

(** No line of the file is malformed. *)
Definition clean {A} (lines : list (line A)) : bool :=
  forallb (fun l => negb (Spec.is_malformed l)) lines.

(** The number of occurrences of a character in a text. *)
Fixpoint count_char (c : ascii) (s : string) : nat :=
  match s with
  | EmptyString => 0
  | String c' rest =>
      (if Ascii.eqb c' c then 1 else 0) + count_char c rest
  end.

Definition in_date_range (start_date end_date : string) (t : txn) : bool :=
  String.leb start_date (tx_date t) && String.leb (tx_date t) end_date.

Definition has_status (status : string) (t : txn) : bool :=
  String.eqb (tx_status t) status.

Definition has_timestamp (timestamp : string) (t : txn) : bool :=
  String.eqb (tx_timestamp t) timestamp.

(** The fields of a record that [export_to_csv] writes as they are hold no
    comma; [float_str] is the text of a float. *)
Definition comma_free (float_str : float -> string) (t : txn) : Prop :=
  count_char ","%char (tx_id t) = 0
  /\ count_char ","%char (float_str (tx_amount t)) = 0
  /\ count_char ","%char (tx_status t) = 0
  /\ count_char ","%char (tx_method t) = 0
  /\ count_char ","%char (tx_date t) = 0
  /\ count_char ","%char (tx_time t) = 0.

(** A three-digit suffix of a transaction id: [str] of it has three
    characters and [int] reads the number back. *)
Definition suffix_ok (n : Z) : bool :=
  (String.length (Py.str_of_int n) =? 3)%nat
  && match
       CardValidation.py_int (list_ascii_of_string (Py.str_of_int n))
     with
     | Some m => (m =? n)%Z
     | None => false
     end.

End Text.

(** ** The ledger readers on a file that holds any JSON value

    A line of the ledger that [json.loads] accepts need not be a record:
    a file edited by hand can hold a number, a string, a list, [true],
    [false] or [null].  The readers call [.get] on whatever [json.loads]
    returns, and Python raises [AttributeError] for it on a value that is
    not a dictionary.  The definitions of [PaymentGateway] read a
    [list (line txn)], where every decoded line is a record; the readers
    are given here once more on a [list (line value)], so that such a line
    has its outcome too, and with the answer of [open] as an argument, so
    that a ledger that cannot be opened has one.  They use nothing of the
    world but the content of the ledger. *)

Module AnyJson.

Import Py Storage.

(** The handler [except IOError] of the three readers. *)
Definition reading_error (text : string) : exn :=
  CustomException ("Error reading transactions: " ++ text).

(** What [json.loads] returns for a line: a transaction record, or another
    JSON value, given by its text. *)
Inductive value : Type :=
| Record (t : txn)
| Other (text : string).

(** How a reader ends: it returns, it raises one of the exceptions of
    [exn], or it raises the [AttributeError] of [.get] on the value
    [value], which none of its handlers catches. *)
Inductive ending (A : Type) : Type :=
| Returns (a : A)
| Raises (e : exn)
| AttributeError (value : string).

Arguments Returns {A} a.
Arguments Raises {A} e.
Arguments AttributeError {A} value.

(** The [for line in f] loop of [get_transaction]; the [try] encloses the
    whole loop and catches [IOError] and [JSONDecodeError] only. *)
Fixpoint scan_transaction (txn_id : string) (user_id : option ident)
    (lines : list (line value)) : ending (option txn) :=
  match lines with
  | [] => Raises (TransactionNotFoundException txn_id)
  | Blank :: rest => scan_transaction txn_id user_id rest
  | Malformed _ :: _ => Returns None
  | Json (Other v) :: _ => AttributeError v
  | Json (Record t) :: rest =>
      if String.eqb (tx_id t) txn_id then
        match user_id with
        | Some u =>
            if truthy_ident u
               && negb (String.eqb (str (tx_user_id t)) (str u))
            then scan_transaction txn_id user_id rest
            else Returns (Some t)
        | None => Returns (Some t)
        end
      else scan_transaction txn_id user_id rest
  end.

Definition get_transaction (io : opening) (txn_id : string)
    (user_id : option ident) (ledger : list (line value))
    : ending (option txn) :=
  match io with
  | IOError text => Raises (reading_error text)
  | Opens => scan_transaction txn_id user_id ledger
  end.

(** The reading loop of [get_user_transactions]: the inner [try] catches
    [JSONDecodeError] only, so [txn.get('user_id')] on a value that is not
    a record ends the call. *)
Fixpoint collect_user (user_id : ident) (lines : list (line value))
    (transactions : list txn) : ending (list txn) :=
  match lines with
  | [] => Returns transactions
  | Json (Record t) :: rest =>
      if String.eqb (str (tx_user_id t)) (str user_id)
      then collect_user user_id rest (transactions ++ [t])
      else collect_user user_id rest transactions
  | Json (Other v) :: _ => AttributeError v
  | _ :: rest => collect_user user_id rest transactions
  end.

Definition get_user_transactions (io : opening) (user_id : ident)
    (ledger : list (line value)) : ending (list txn) :=
  match io with
  | IOError text => Raises (reading_error text)
  | Opens =>
      match collect_user user_id ledger [] with
      | Returns transactions =>
          Returns (PaymentGateway.sort_by_timestamp_desc transactions)
      | Raises e => Raises e
      | AttributeError v => AttributeError v
      end
  end.

(** The reading loop of [get_all_transactions]: every decoded value is
    appended, whatever it is. *)
Fixpoint collect_all (lines : list (line value)) (transactions : list value)
    : list value :=
  match lines with
  | [] => transactions
  | Json v :: rest => collect_all rest (transactions ++ [v])
  | _ :: rest => collect_all rest transactions
  end.

(** [list.sort] first applies the key function
    [lambda x: x.get('timestamp', '')] to every element, in the order of
    the list; the first element that is not a record ends the call. *)
Fixpoint sort_keys (transactions : list value) : ending (list txn) :=
  match transactions with
  | [] => Returns []
  | Record t :: rest =>
      match sort_keys rest with
      | Returns records => Returns (t :: records)
      | Raises e => Raises e
      | AttributeError v => AttributeError v
      end
  | Other v :: _ => AttributeError v
  end.

Definition get_all_transactions (io : opening)
    (ledger : list (line value)) : ending (list txn) :=
  match io with
  | IOError text => Raises (reading_error text)
  | Opens =>
      match sort_keys (collect_all ledger []) with
      | Returns transactions =>
          Returns (PaymentGateway.sort_by_timestamp_desc transactions)
      | Raises e => Raises e
      | AttributeError v => AttributeError v
      end
  end.

(** *** Vocabulary *)

(** A ledger of [PaymentGateway], read as a ledger of any values. *)
Definition of_line (l : line txn) : line value :=
  match l with
  | Blank => Blank
  | Malformed text => Malformed text
  | Json t => Json (Record t)
  end.

Definition of_file (lines : list (line txn)) : list (line value) :=
  map of_line lines.

(** Every line that [json.loads] accepts is a record. *)
Definition is_other (l : line value) : bool :=
  match l with Json (Other _) => true | _ => false end.

Definition records_only (ledger : list (line value)) : bool :=
  forallb (fun l => negb (is_other l)) ledger.

(** The records of a ledger, in file order. *)
Fixpoint valid_records (ledger : list (line value)) : list txn :=
  match ledger with
  | [] => []
  | Json (Record t) :: rest => t :: valid_records rest
  | _ :: rest => valid_records rest
  end.

(** The scan of [get_transaction] goes past the line: it is empty, or a
    record that does not answer the lookup. *)
Definition passed (txn_id : string) (user_id : option ident)
    (l : line value) : bool :=
  match l with
  | Blank => true
  | Json (Record t) => negb (Spec.matches txn_id user_id t)
  | _ => false
  end.

End AnyJson.

(** ** The wallet methods and the write of the ledger

    [deduct_money] and [credit_seller] call
    [self.payment_gateway.save_transaction] after they have rewritten the
    wallet snapshot, and [save_transaction] raises [CustomException] when
    [open] of the ledger raises [IOError].  The methods of [WalletManager]
    above are those on a ledger that opens; they are given here with the
    answer of that [open] as an argument. *)

Module LedgerWrite.

Import Py Storage.

(** [save_transaction]: when [open(self.transactions_file, 'a')] raises
    [IOError] nothing is written and the handler raises
    [CustomException]. *)
Definition save_transaction (io : opening) (txn_data : txn) : M unit :=
  match io with
  | Opens => PaymentGateway.save_transaction txn_data
  | IOError text =>
      log_io (OpenAppend TransactionsTxt) ;;;
      raise (CustomException ("Error saving transaction: " ++ text))
  end.

Definition deduct_money (io : opening) (o : oracle) (user_id : ident)
    (amount : float) (description : string) (username : option string)
    : M txn :=
  if (amount <=? 0)%float then raise WalletManager.invalid_amount
  else
    wallets <- WalletManager.read_all_wallets ;;
    let user_id := str user_id in
    let current_balance :=
      match dict_get user_id wallets with
      | Some w => wallet_balance w
      | None => 0%float
      end in
    if (current_balance <? amount)%float then
      raise (InsufficientBalanceException amount current_balance)
    else
      w0 <- WalletManager.getitem user_id wallets ;;
      let wallets :=
        dict_set user_id (set_balance w0 (current_balance - amount)%float)
                 wallets in
      w1 <- WalletManager.getitem user_id wallets ;;
      let wallets :=
        dict_set user_id (set_last_updated w1 (now_last_updated o))
                 wallets in
      WalletManager.write_all_wallets wallets ;;;
      let id := PaymentGateway.generate_transaction_id o in
      w2 <- WalletManager.getitem user_id wallets ;;
      let txn_result :=
        mk_txn id (IdStr user_id)
               (Some (or_else username ("User #" ++ user_id)))
               amount "wallet" "success" (Some "debit") description
               (now_date o) (now_time o) (now_timestamp o)
               (Some (wallet_balance w2)) in
      save_transaction io txn_result ;;;
      ret txn_result.

Definition credit_seller (io : opening) (o : oracle) (user_id : ident)
    (amount : float) (description : string)
    (username transaction_id : option string) : M txn :=
  if (amount <=? 0)%float then raise WalletManager.invalid_amount
  else
    wallets <- WalletManager.read_all_wallets ;;
    let user_id := str user_id in
    let wallets := WalletManager.ensure_wallet o user_id wallets in
    wallets <- WalletManager.credit_balance o user_id amount wallets ;;
    WalletManager.write_all_wallets wallets ;;;
    let id :=
      or_else transaction_id (PaymentGateway.generate_transaction_id o) in
    w <- WalletManager.getitem user_id wallets ;;
    let txn_result :=
      mk_txn id (IdStr user_id)
             (Some (or_else username ("User #" ++ user_id)))
             amount "wallet" "success" (Some "credit") description
             (now_date o) (now_time o) (now_timestamp o)
             (Some (wallet_balance w)) in
    save_transaction io txn_result ;;;
    ret txn_result.

End LedgerWrite.

(** ** Sample ledgers of any values *)

Module SampleJson.

(** A ledger with a malformed line between two records. *)
Definition mixed_ledger : list (line AnyJson.value) :=
  [Json (AnyJson.Record Sample.record_s); Malformed "{truncated";
   Json (AnyJson.Record Sample.record_r)].

(** A ledger whose second line is the number 123. *)
Definition ledger_with_number : list (line AnyJson.value) :=
  [Json (AnyJson.Record Sample.record_r); Json (AnyJson.Other "123");
   Json (AnyJson.Record Sample.record_s)].

End SampleJson.
(** ** Order facts on floats, from their specification *)

Module FloatOrder.

Lemma SFcompare_antisym (x y : spec_float) (c : comparison) :
  SFcompare x y = Some c -> SFcompare y x = Some (CompOpp c).
Proof.
  destruct x as [sx| sx| |sx mx ex], y as [sy| sy| |sy my ey]; simpl;
    try discriminate;
    try (destruct sx; intros [= <-]; reflexivity);
    try (destruct sy; intros [= <-]; reflexivity);
    try (intros [= <-]; reflexivity).
  - destruct sx, sy; intros [= <-]; reflexivity.
  - destruct sx, sy; intros [= <-]; try reflexivity;
      rewrite (Z.compare_antisym ex ey);
      destruct (ex ?= ey)%Z eqn:E; simpl; try reflexivity;
      change (Pos.compare_cont Eq my mx) with (Pos.compare my mx);
      change (Pos.compare_cont Eq mx my) with (Pos.compare mx my);
      rewrite (Pos.compare_antisym mx my);
      destruct (mx ?= my)%positive; reflexivity.
Qed.

(** [a <= b] excludes [b < a]. *)
Lemma leb_true_ltb_false (a b : float) :
  (a <=? b)%float = true -> (b <? a)%float = false.
Proof.
  rewrite leb_spec, ltb_spec. unfold SFleb, SFltb.
  destruct (SFcompare (Prim2SF a) (Prim2SF b)) as [c|] eqn:E;
    [|discriminate].
  rewrite (SFcompare_antisym _ _ E).
  destruct c; simpl; congruence.
Qed.

(** [a < b] excludes [b <= a]. *)
Lemma ltb_true_leb_false (a b : float) :
  (a <? b)%float = true -> (b <=? a)%float = false.
Proof.
  intros H. destruct (b <=? a)%float eqn:E; [|reflexivity].
  apply leb_true_ltb_false in E. congruence.
Qed.

End FloatOrder.

(** ** Positive prices stay positive under the platform fee *)

Module FloatPositive.

Local Open Scope Z_scope.

Lemma shr_1_m mrs : 0 <= shr_m mrs -> shr_m (shr_1 mrs) = Z.div2 (shr_m mrs).
Proof.
  destruct mrs as [m r s]. simpl.
  destruct m as [|[p|p|]|p]; simpl; try reflexivity; lia.
Qed.

Lemma iter_shr_1_m p :
  forall mrs, 0 <= shr_m mrs ->
    shr_m (iter_pos shr_1 p mrs) = Z.shiftr (shr_m mrs) (Zpos p).
Proof.
  induction p as [p IH|p IH|]; intros mrs Hm; simpl iter_pos.
  - assert (H1 : 0 <= shr_m (shr_1 mrs)).
    { rewrite shr_1_m by assumption. now apply Z.div2_nonneg. }
    assert (H2 : 0 <= shr_m (iter_pos shr_1 p (shr_1 mrs))).
    { rewrite IH by assumption. now apply Z.shiftr_nonneg. }
    rewrite IH, IH, shr_1_m, Z.div2_spec by assumption.
    rewrite !Z.shiftr_shiftr by lia. f_equal. lia.
  - assert (H2 : 0 <= shr_m (iter_pos shr_1 p mrs)).
    { rewrite IH by assumption. now apply Z.shiftr_nonneg. }
    rewrite IH, IH by assumption.
    rewrite Z.shiftr_shiftr by lia. f_equal. lia.
  - rewrite shr_1_m by assumption. apply Z.div2_spec.
Qed.

Lemma digits_lower p : 2 ^ (Zpos (digits2_pos p) - 1) <= Zpos p.
Proof.
  induction p as [p IH|p IH|]; simpl digits2_pos.
  - rewrite Pos2Z.inj_succ.
    replace (Z.succ (Zpos (digits2_pos p)) - 1)
      with (Z.succ (Zpos (digits2_pos p) - 1)) by lia.
    rewrite Z.pow_succ_r by lia. lia.
  - rewrite Pos2Z.inj_succ.
    replace (Z.succ (Zpos (digits2_pos p)) - 1)
      with (Z.succ (Zpos (digits2_pos p) - 1)) by lia.
    rewrite Z.pow_succ_r by lia. lia.
  - simpl. lia.
Qed.

Lemma shr_fexp_keeps_positive M E :
  0 < M ->
  emin - E <= 0 \/ 2 ^ (emin - E) <= M ->
  1 <= shr_m (fst (shr_fexp prec emax M E loc_Exact))
  /\ emin <= snd (shr_fexp prec emax M E loc_Exact).
Proof.
  intros HM HE. unfold shr_fexp, fexp. simpl shr_record_of_loc.
  set (s := Z.max (Zdigits2 M + E - prec) (emin) - E).
  assert (Hd : 2 ^ (Zdigits2 M - 1) <= M).
  { destruct M as [|p|p]; try lia. apply digits_lower. }
  destruct s as [|p|p] eqn:Hs; simpl; try (split; lia).
  rewrite iter_shr_1_m by (simpl; lia). simpl shr_m.
  rewrite Z.shiftr_div_pow2 by lia.
  split; [|lia].
  apply Z.div_le_lower_bound; [apply Z.pow_pos_nonneg; lia|].
  rewrite Z.mul_1_r.
  destruct (Z.max_spec (Zdigits2 M + E - prec) (emin))
    as [[_ Hmax]|[_ Hmax]].
  - destruct HE as [HE|HE]; [lia|].
    replace (Zpos p) with (emin - E) by lia. exact HE.
  - apply Z.le_trans with (2 ^ (Zdigits2 M - 1)); [|exact Hd].
    apply Z.pow_le_mono_r; [lia|]. unfold prec in *. lia.
Qed.

Lemma round_nearest_even_ge m l : m <= round_nearest_even m l.
Proof.
  destruct l as [|[| |]]; simpl; try lia. destruct (Z.even m); lia.
Qed.

(** Rounding a positive mantissa that is not too small for its exponent
    gives a positive number. *)
Lemma binary_round_aux_positive M E :
  0 < M ->
  emin - E <= 0 \/ 2 ^ (emin - E) <= M ->
  match binary_round_aux prec emax false M E loc_Exact with
  | S754_finite false _ _ | S754_infinity false => True
  | _ => False
  end.
Proof.
  intros HM HE. unfold binary_round_aux.
  destruct (@shr_fexp_keeps_positive M E HM HE) as [H1 H1e].
  destruct (shr_fexp prec emax M E loc_Exact) as [mrs1 e1].
  simpl fst in H1. simpl snd in H1e.
  set (m1 := round_nearest_even (shr_m mrs1) (loc_of_shr_record mrs1)).
  assert (Hm1 : 0 < m1).
  { pose proof (round_nearest_even_ge (shr_m mrs1) (loc_of_shr_record mrs1)).
    unfold m1. lia. }
  destruct (@shr_fexp_keeps_positive m1 e1 Hm1) as [H2 _]; [left; lia|].
  destruct (shr_fexp prec emax m1 e1 loc_Exact) as [mrs2 e2].
  simpl fst in H2.
  destruct (shr_m mrs2) as [|p|p]; try lia.
  destruct (e2 <=? emax - prec); exact I.
Qed.

(** The factor [1 - platform_fee_percent] that [place_order] applies to
    the price. *)
Lemma fee_factor_spec :
  Prim2SF (1 - Routes.platform_fee_percent)%float
  = S754_finite false 8106479329266893 (-53).
Proof. reflexivity. Qed.

Local Open Scope float_scope.

(** A positive price less the platform fee is positive. *)
Lemma mul_fee_factor_positive (P : float) :
  (0 <? P) = true ->
  (0 <? P * (1 - Routes.platform_fee_percent)) = true.
Proof.
  rewrite !ltb_spec, mul_spec, fee_factor_spec.
  change (Prim2SF 0) with (S754_zero false).
  pose proof (Prim2SF_valid P) as Hvalid.
  destruct (Prim2SF P) as [s|s| |s m e]; try discriminate.
  - destruct s; [discriminate|]. reflexivity.
  - destruct s; [discriminate|]. intros _.
    unfold SF64mul, SFmul. simpl xorb.
    simpl in Hvalid. unfold bounded, canonical_mantissa, fexp in Hvalid.
    apply andb_prop in Hvalid. destruct Hvalid as [Hcanon _].
    apply Z.eqb_eq in Hcanon.
    assert (Hr :
      match binary_round_aux prec emax false
              (Zpos (m * 8106479329266893)) (e + -53) loc_Exact with
      | S754_finite false _ _ | S754_infinity false => True
      | _ => False
      end).
    { destruct (Pos.eq_dec m 1) as [->|Hm].
      - assert (e = (-1074)%Z)
          by (cbv [SpecFloat.emin prec emax digits2_pos] in Hcanon; lia).
        subst e. vm_compute. exact I.
      - apply binary_round_aux_positive; [lia|]. right.
        apply Z.le_trans with (2 ^ 53)%Z.
        + apply Z.pow_le_mono_r; [lia|]. unfold prec in *. lia.
        + rewrite Pos2Z.inj_mul.
          assert (2 <= Zpos m)%Z by lia.
          change (2 ^ 53)%Z with (2 * 4503599627370496)%Z. nia. }
    destruct (binary_round_aux prec emax false
                (Zpos (m * 8106479329266893)) (e + -53) loc_Exact)
      as [s|s| |s m' e']; try contradiction;
      destruct s; try contradiction; reflexivity.
Qed.

End FloatPositive.

(** ** Facts on dictionaries and on the wallet snapshot *)

Module DictFacts.

Import Py.

Section Dict.
Variable A : Type.
Implicit Types (d : dict A) (k : string) (v : A).

Lemma dict_get_set_same k v d : dict_get k (dict_set k v d) = Some v.
Proof.
  induction d as [|[k' v'] d IH]; simpl.
  - now rewrite String.eqb_refl.
  - destruct (String.eqb k k') eqn:E; simpl; rewrite E; auto.
Qed.

Lemma dict_get_set_other k k' v d :
  k <> k' -> dict_get k' (dict_set k v d) = dict_get k' d.
Proof.
  intros Hne. induction d as [|[k0 v0] d IH]; simpl.
  - destruct (String.eqb k' k) eqn:E; [|reflexivity].
    apply String.eqb_eq in E. congruence.
  - destruct (String.eqb k k0) eqn:E; simpl.
    + apply String.eqb_eq in E. subst k0.
      destruct (String.eqb k' k) eqn:E'; [|reflexivity].
      apply String.eqb_eq in E'. congruence.
    + now rewrite IH.
Qed.

Lemma dict_get_none_notin k d :
  dict_get k d = None -> ~ In k (map fst d).
Proof.
  induction d as [|[k' v'] d IH]; simpl; [tauto|].
  destruct (String.eqb k k') eqn:E; [discriminate|].
  apply String.eqb_neq in E. intros H [H1|H1]; [congruence|].
  now apply IH.
Qed.

Lemma dict_set_fresh k v d :
  ~ In k (map fst d) -> dict_set k v d = d ++ [(k, v)].
Proof.
  induction d as [|[k' v'] d IH]; simpl; [reflexivity|].
  intros H. destruct (String.eqb k k') eqn:E.
  - apply String.eqb_eq in E. subst. tauto.
  - rewrite IH; tauto.
Qed.

Lemma dict_set_keys k v d :
  dict_get k d <> None -> map fst (dict_set k v d) = map fst d.
Proof.
  induction d as [|[k' v'] d IH]; simpl; [congruence|].
  destruct (String.eqb k k') eqn:E; simpl; [reflexivity|].
  intros H. now rewrite IH.
Qed.

Lemma dict_set_in k v d p :
  In p (dict_set k v d) -> In p d \/ p = (k, v).
Proof.
  induction d as [|[k' v'] d IH]; simpl.
  - intros [H|[]]; auto.
  - destruct (String.eqb k k') eqn:E; simpl.
    + apply String.eqb_eq in E. subst k'. intros [H|H]; auto.
    + intros [H|H]; auto. destruct (IH H); auto.
Qed.

End Dict.

Lemma keyed_nil : keyed [].
Proof. split; constructor. Qed.

Lemma keyed_set k w d :
  keyed d -> k = str (wallet_user_id w) -> keyed (dict_set k w d).
Proof.
  intros [Hnd Hall] Hk. split.
  - destruct (dict_get k d) eqn:E.
    + rewrite dict_set_keys; [assumption|congruence].
    + apply dict_get_none_notin in E.
      rewrite (dict_set_fresh _ _ _ E), map_app. simpl.
      apply NoDup_app; auto.
      * repeat constructor. simpl. tauto.
      * intros x Hx [<-|[]]. tauto.
  - apply Forall_forall. intros p Hp.
    destruct (dict_set_in _ _ _ _ Hp) as [H| ->]; [|exact Hk].
    rewrite Forall_forall in Hall. auto.
Qed.

Lemma load_wallets_keyed lines :
  forall acc, keyed acc -> keyed (WalletManager.load_wallets lines acc).
Proof.
  induction lines as [|[| |w] lines IH]; simpl; intros acc H; auto.
  apply IH, keyed_set; auto.
Qed.

(** Reading back what [__write_all_wallets] wrote gives the dictionary that
    was written. *)
Lemma load_written_app d :
  forall acc, keyed (acc ++ d) ->
    WalletManager.load_wallets (map (fun x => Json x) (dict_values d)) acc
    = acc ++ d.
Proof.
  unfold dict_values.
  induction d as [|[k w] d IH]; simpl; intros acc H.
  - now rewrite app_nil_r.
  - assert (Hk : k = str (wallet_user_id w)).
    { destruct H as [_ H]. rewrite Forall_forall in H.
      apply (H (k, w)). apply in_or_app. right. now left. }
    assert (Hfresh : ~ In k (map fst acc)).
    { destruct H as [H _]. rewrite map_app in H. simpl in H.
      apply NoDup_remove_2 in H. intros Hin. apply H.
      apply in_or_app. now left. }
    rewrite <- Hk, (dict_set_fresh _ _ _ Hfresh).
    change (acc ++ (k, w) :: d) with (acc ++ [(k, w)] ++ d).
    rewrite app_assoc. apply IH. now rewrite <- app_assoc.
Qed.

Lemma load_written d :
  keyed d ->
  WalletManager.load_wallets (map (fun x => Json x) (dict_values d)) [] = d.
Proof. intros H. now apply (load_written_app d []). Qed.

Lemma keyed_loaded lines : keyed (WalletManager.load_wallets lines []).
Proof. apply load_wallets_keyed, keyed_nil. Qed.

End DictFacts.

(** ** How the methods run *)

Module Run.

Import Py DictFacts.

Lemma dict_get_set_dec (A : Type) k k' (v : A) d :
  dict_get k' (dict_set k v d)
  = if String.eqb k' k then Some v else dict_get k' d.
Proof.
  destruct (String.eqb k' k) eqn:E.
  - apply String.eqb_eq in E. subst. apply dict_get_set_same.
  - apply String.eqb_neq in E. apply dict_get_set_other. congruence.
Qed.

(** The dictionary [__read_all_wallets] builds holds, for each user, the
    last wallet line of that user. *)
Lemma loaded_get key lines :
  forall acc,
    dict_get key (WalletManager.load_wallets lines acc)
    = Spec.last_wallet key lines (dict_get key acc).
Proof.
  induction lines as [|[| |x] lines IH]; simpl; intros acc; auto.
  rewrite IH, dict_get_set_dec.
  destruct (String.eqb key (str (wallet_user_id x))); reflexivity.
Qed.

Lemma loaded_stored w u :
  dict_get (str u) (WalletManager.load_wallets (wallet_file w) [])
  = Spec.stored_wallet w u.
Proof. apply loaded_get. Qed.

(** [get_balance] returns the stored balance and only reads. *)
Lemma get_balance_stored w u :
  WalletManager.get_balance u w
  = (Ok (Spec.stored_balance w u),
     mk_world (wallet_file w) (transactions_file w)
              (io_log w ++ [OpenRead WalletsTxt])).
Proof.
  unfold WalletManager.get_balance, WalletManager.read_all_wallets,
    Spec.stored_balance, bind, log_io, ret. simpl.
  rewrite loaded_stored. destruct (Spec.stored_wallet w u); reflexivity.
Qed.

(** The stored wallet of a user after a snapshot was written. *)
Lemma stored_after_write d u tf log :
  keyed d ->
  Spec.stored_wallet
    (mk_world (map (fun x => Json x) (dict_values d)) tf log) u
  = dict_get (str u) d.
Proof.
  intros H. rewrite <- loaded_stored. simpl. now rewrite load_written.
Qed.

Lemma keyed_update d k w0 w1 :
  keyed d -> dict_get k d = Some w0 ->
  wallet_user_id w1 = wallet_user_id w0 ->
  keyed (dict_set k w1 d).
Proof.
  intros H Hget Hid. apply keyed_set; [assumption|].
  rewrite Hid. clear Hid w1. destruct H as [_ H].
  induction d as [|[k' v'] d IH]; simpl in *; [discriminate|].
  inversion H; subst. destruct (String.eqb k k') eqn:E.
  - apply String.eqb_eq in E. injection Hget as <-. now subst.
  - auto.
Qed.

Lemma dict_set_set (A : Type) k (v1 v2 : A) d :
  dict_set k v2 (dict_set k v1 d) = dict_set k v2 d.
Proof.
  induction d as [|[k' v'] d IH]; simpl.
  - now rewrite String.eqb_refl.
  - destruct (String.eqb k k') eqn:E; simpl; rewrite E; [reflexivity|].
    now rewrite IH.
Qed.

Lemma deduct_money_invalid o u amount description username w :
  (amount <=? 0)%float = true ->
  WalletManager.deduct_money o u amount description username w
  = (Raise WalletManager.invalid_amount, w).
Proof.
  intros H. unfold WalletManager.deduct_money. now rewrite H.
Qed.

Lemma deduct_money_insufficient o u amount description username w :
  (amount <=? 0)%float = false ->
  (Spec.stored_balance w u <? amount)%float = true ->
  WalletManager.deduct_money o u amount description username w
  = (Raise (InsufficientBalanceException amount (Spec.stored_balance w u)),
     mk_world (wallet_file w) (transactions_file w)
              (io_log w ++ [OpenRead WalletsTxt])).
Proof.
  intros H0 H. unfold WalletManager.deduct_money. rewrite H0.
  unfold WalletManager.read_all_wallets, bind, log_io. simpl.
  rewrite loaded_stored. fold (Spec.stored_balance w u).
  unfold Spec.stored_balance in *.
  destruct (Spec.stored_wallet w u); rewrite H; reflexivity.
Qed.

Lemma deduct_money_missing o u amount description username w :
  (amount <=? 0)%float = false ->
  Spec.stored_wallet w u = None ->
  (0 <? amount)%float = false ->
  WalletManager.deduct_money o u amount description username w
  = (Raise (KeyError (str u)),
     mk_world (wallet_file w) (transactions_file w)
              (io_log w ++ [OpenRead WalletsTxt])).
Proof.
  intros H0 Hw H. unfold WalletManager.deduct_money. rewrite H0.
  unfold WalletManager.read_all_wallets, bind, log_io. simpl.
  rewrite loaded_stored, Hw, H.
  unfold WalletManager.getitem. rewrite loaded_stored, Hw. reflexivity.
Qed.

Lemma deduct_money_success o u amount description username w x :
  (amount <=? 0)%float = false ->
  Spec.stored_wallet w u = Some x ->
  (wallet_balance x <? amount)%float = false ->
  let b := (wallet_balance x - amount)%float in
  let r := Outcome.debit_record o u amount description username b in
  let d :=
    dict_set (str u)
      (set_last_updated (set_balance x b) (now_last_updated o))
      (WalletManager.load_wallets (wallet_file w) []) in
  WalletManager.deduct_money o u amount description username w
  = (Ok r,
     mk_world (map (fun x => Json x) (dict_values d))
              (transactions_file w ++ [Json r])
              (io_log w ++ [OpenRead WalletsTxt; OpenWrite WalletsTxt;
                            OpenAppend TransactionsTxt])).
Proof.
  intros H0 Hw H b r d. unfold WalletManager.deduct_money. rewrite H0.
  unfold WalletManager.read_all_wallets, bind, log_io. simpl.
  rewrite loaded_stored, Hw, H.
  unfold WalletManager.getitem at 1. rewrite loaded_stored, Hw.
  unfold ret at 1.
  unfold WalletManager.getitem at 1. rewrite dict_get_set_same.
  unfold ret at 1. rewrite dict_set_set.
  unfold WalletManager.write_all_wallets, PaymentGateway.save_transaction,
    bind, log_io. simpl.
  unfold WalletManager.getitem. rewrite dict_get_set_same.
  unfold ret. simpl. rewrite <- !app_assoc. reflexivity.
Qed.

(** The wallet stays [keyed] and the user's line is the updated one. *)
Lemma stored_after_update w u x x' tf log :
  Spec.stored_wallet w u = Some x ->
  wallet_user_id x' = wallet_user_id x ->
  Spec.stored_wallet
    (mk_world
       (map (fun y => Json y)
            (dict_values
               (dict_set (str u) x'
                         (WalletManager.load_wallets (wallet_file w) []))))
       tf log) u
  = Some x'.
Proof.
  intros Hw Hid. rewrite stored_after_write.
  - apply dict_get_set_same.
  - eapply keyed_update; eauto using keyed_loaded.
    now rewrite loaded_stored.
Qed.

Lemma stored_after_update_other w u v x x' tf log :
  Spec.stored_wallet w u = Some x ->
  wallet_user_id x' = wallet_user_id x ->
  str u <> str v ->
  Spec.stored_wallet
    (mk_world
       (map (fun y => Json y)
            (dict_values
               (dict_set (str u) x'
                         (WalletManager.load_wallets (wallet_file w) []))))
       tf log) v
  = Spec.stored_wallet w v.
Proof.
  intros Hw Hid Hne. rewrite stored_after_write.
  - rewrite dict_get_set_other by assumption. apply loaded_stored.
  - eapply keyed_update; eauto using keyed_loaded.
    now rewrite loaded_stored.
Qed.

Lemma create_wallet_existing o u b w x :
  Spec.stored_wallet w u = Some x ->
  WalletManager.create_wallet o u b w
  = (Ok x, mk_world (wallet_file w) (transactions_file w)
                    (io_log w ++ [OpenRead WalletsTxt])).
Proof.
  intros Hw. unfold WalletManager.create_wallet,
    WalletManager.read_all_wallets, bind at 1 2, log_io. simpl.
  unfold dict_mem. rewrite loaded_stored, Hw.
  unfold bind, ret. simpl.
  unfold WalletManager.getitem. now rewrite loaded_stored, Hw.
Qed.

Lemma create_wallet_new o u b w :
  Spec.stored_wallet w u = None ->
  let x :=
    mk_wallet (IdStr (str u)) b (now_created_at o)
              (Some (now_last_updated o)) in
  let d :=
    dict_set (str u) x (WalletManager.load_wallets (wallet_file w) []) in
  WalletManager.create_wallet o u b w
  = (Ok x, mk_world (map (fun y => Json y) (dict_values d))
                    (transactions_file w)
                    (io_log w ++ [OpenRead WalletsTxt; OpenWrite WalletsTxt])).
Proof.
  intros Hw x d. unfold WalletManager.create_wallet,
    WalletManager.read_all_wallets, bind at 1 2, log_io. simpl.
  unfold dict_mem. rewrite loaded_stored, Hw.
  unfold WalletManager.write_all_wallets, bind, log_io, ret. simpl.
  unfold WalletManager.getitem. rewrite dict_get_set_same.
  unfold ret. now rewrite <- app_assoc.
Qed.

Lemma stored_after_create o u b w tf log :
  Spec.stored_wallet
    (mk_world
       (map (fun y => Json y)
          (dict_values
             (dict_set (str u)
                (mk_wallet (IdStr (str u)) b (now_created_at o)
                           (Some (now_last_updated o)))
                (WalletManager.load_wallets (wallet_file w) []))))
       tf log) u
  = Some (mk_wallet (IdStr (str u)) b (now_created_at o)
                    (Some (now_last_updated o))).
Proof.
  rewrite stored_after_write.
  - apply dict_get_set_same.
  - apply keyed_set; [apply keyed_loaded|reflexivity].
Qed.

Lemma stored_balance_or_new o w u :
  wallet_balance (Outcome.wallet_or_new o w u) = Spec.stored_balance w u.
Proof.
  unfold Outcome.wallet_or_new, Spec.stored_balance.
  destruct (Spec.stored_wallet w u); reflexivity.
Qed.

Lemma ensure_wallet_get o w u :
  dict_get (str u)
    (WalletManager.ensure_wallet o (str u)
       (WalletManager.load_wallets (wallet_file w) []))
  = Some (Outcome.wallet_or_new o w u).
Proof.
  unfold WalletManager.ensure_wallet, dict_mem, Outcome.wallet_or_new.
  rewrite loaded_stored.
  destruct (Spec.stored_wallet w u) eqn:E.
  - now rewrite loaded_stored.
  - apply dict_get_set_same.
Qed.

Lemma ensure_wallet_keyed o k d :
  keyed d -> keyed (WalletManager.ensure_wallet o k d).
Proof.
  intros H. unfold WalletManager.ensure_wallet.
  destruct (dict_mem k d); [assumption|]. now apply keyed_set.
Qed.

Lemma ensure_wallet_other o k k' d :
  k <> k' ->
  dict_get k' (WalletManager.ensure_wallet o k d) = dict_get k' d.
Proof.
  intros H. unfold WalletManager.ensure_wallet.
  destruct (dict_mem k d); [reflexivity|]. now apply dict_get_set_other.
Qed.

(** The dictionary a credit writes. *)
Lemma credit_balance_run o w0 u amount w :
  WalletManager.credit_balance o (str u) amount
    (WalletManager.ensure_wallet o (str u)
       (WalletManager.load_wallets (wallet_file w0) [])) w
  = (Ok (dict_set (str u) (Outcome.credited o w0 u amount)
           (WalletManager.ensure_wallet o (str u)
              (WalletManager.load_wallets (wallet_file w0) []))), w).
Proof.
  unfold WalletManager.credit_balance, bind.
  unfold WalletManager.getitem at 1. rewrite ensure_wallet_get.
  unfold ret at 1.
  unfold WalletManager.getitem. rewrite dict_get_set_same.
  unfold ret. now rewrite dict_set_set.
Qed.

Lemma credited_keyed o w u amount :
  keyed (dict_set (str u) (Outcome.credited o w u amount)
           (WalletManager.ensure_wallet o (str u)
              (WalletManager.load_wallets (wallet_file w) []))).
Proof.
  eapply keyed_update.
  - apply ensure_wallet_keyed, keyed_loaded.
  - apply ensure_wallet_get.
  - reflexivity.
Qed.

Lemma add_money_invalid o u amount payment_method description w :
  (amount <=? 0)%float = true ->
  WalletManager.add_money o u amount payment_method description w
  = (Raise WalletManager.invalid_amount, w).
Proof.
  intros H. unfold WalletManager.add_money. now rewrite H.
Qed.

Lemma add_money_success o u amount payment_method description w :
  (amount <=? 0)%float = false ->
  (random_random o <? PaymentGateway.success_rate)%float = true ->
  let paid :=
    Outcome.payment_record o u amount payment_method description "success" in
  let x := Outcome.credited o w u amount in
  let d :=
    dict_set (str u) x
      (WalletManager.ensure_wallet o (str u)
         (WalletManager.load_wallets (wallet_file w) [])) in
  WalletManager.add_money o u amount payment_method description w
  = (Ok (set_new_balance paid (wallet_balance x)),
     mk_world (map (fun y => Json y) (dict_values d))
              (transactions_file w ++ [Json paid])
              (io_log w ++ [OpenAppend TransactionsTxt; OpenRead WalletsTxt;
                            OpenWrite WalletsTxt])).
Proof.
  intros H0 Hr paid x d. unfold WalletManager.add_money. rewrite H0.
  unfold PaymentGateway.process_payment. rewrite Hr.
  unfold PaymentGateway.save_transaction, WalletManager.read_all_wallets,
    bind at 1 2 3 4 5 6, log_io, ret at 1. simpl.
  rewrite (credit_balance_run o w u amount).
  unfold WalletManager.write_all_wallets, bind, log_io. simpl.
  unfold WalletManager.getitem. rewrite dict_get_set_same.
  unfold ret. simpl. rewrite <- !app_assoc. reflexivity.
Qed.

Lemma credit_seller_invalid o u amount description username txid w :
  (amount <=? 0)%float = true ->
  WalletManager.credit_seller o u amount description username txid w
  = (Raise WalletManager.invalid_amount, w).
Proof.
  intros H. unfold WalletManager.credit_seller. now rewrite H.
Qed.

Lemma credit_seller_success o u amount description username txid w :
  (amount <=? 0)%float = false ->
  let x := Outcome.credited o w u amount in
  let r :=
    Outcome.credit_record o u amount description username txid
                       (wallet_balance x) in
  let d :=
    dict_set (str u) x
      (WalletManager.ensure_wallet o (str u)
         (WalletManager.load_wallets (wallet_file w) [])) in
  WalletManager.credit_seller o u amount description username txid w
  = (Ok r,
     mk_world (map (fun y => Json y) (dict_values d))
              (transactions_file w ++ [Json r])
              (io_log w ++ [OpenRead WalletsTxt; OpenWrite WalletsTxt;
                            OpenAppend TransactionsTxt])).
Proof.
  intros H0 x r d. unfold WalletManager.credit_seller. rewrite H0.
  unfold WalletManager.read_all_wallets, bind at 1 2 3, log_io. simpl.
  rewrite (credit_balance_run o w u amount).
  unfold WalletManager.write_all_wallets, PaymentGateway.save_transaction,
    bind, log_io. simpl.
  unfold WalletManager.getitem. rewrite dict_get_set_same.
  unfold ret. simpl. rewrite <- !app_assoc. reflexivity.
Qed.

(** The stored wallets after a credit to [u]. *)
Lemma stored_after_credit o w u amount tf log :
  Spec.stored_wallet
    (mk_world
       (map (fun y => Json y)
          (dict_values
             (dict_set (str u) (Outcome.credited o w u amount)
                (WalletManager.ensure_wallet o (str u)
                   (WalletManager.load_wallets (wallet_file w) [])))))
       tf log) u
  = Some (Outcome.credited o w u amount).
Proof.
  rewrite stored_after_write by apply credited_keyed.
  apply dict_get_set_same.
Qed.

Lemma stored_after_credit_other o w u v amount tf log :
  str u <> str v ->
  Spec.stored_wallet
    (mk_world
       (map (fun y => Json y)
          (dict_values
             (dict_set (str u) (Outcome.credited o w u amount)
                (WalletManager.ensure_wallet o (str u)
                   (WalletManager.load_wallets (wallet_file w) [])))))
       tf log) v
  = Spec.stored_wallet w v.
Proof.
  intros Hne. rewrite stored_after_write by apply credited_keyed.
  rewrite dict_get_set_other, ensure_wallet_other by assumption.
  apply loaded_stored.
Qed.

End Run.

(** ** The order of strings and the sort of the listings *)

Module SortFacts.

Lemma ascii_compare_eq a b : Ascii.compare a b = Eq -> a = b.
Proof. apply Ascii.compare_eq_iff. Qed.

Lemma ascii_compare_refl a : Ascii.compare a a = Eq.
Proof. apply N.compare_refl. Qed.

Lemma ascii_compare_trans a b c o :
  Ascii.compare a b = o -> Ascii.compare b c = o -> Ascii.compare a c = o.
Proof.
  unfold Ascii.compare. destruct o; intros H1 H2.
  - apply N.compare_eq_iff in H1, H2. apply N.compare_eq_iff. congruence.
  - rewrite N.compare_lt_iff in *. lia.
  - rewrite N.compare_gt_iff in *. lia.
Qed.

(** Comparison of strings is transitive on [Lt]-or-[Eq]. *)
Lemma string_leb_trans s1 :
  forall s2 s3,
    String.leb s1 s2 = true -> String.leb s2 s3 = true ->
    String.leb s1 s3 = true.
Proof.
  unfold String.leb.
  induction s1 as [|a s1 IH]; intros [|b s2] [|c s3]; simpl; auto;
    try discriminate.
  destruct (Ascii.compare a b) eqn:Eab; try discriminate;
    destruct (Ascii.compare b c) eqn:Ebc; try discriminate; intros H1 H2.
  - apply ascii_compare_eq in Eab, Ebc. subst.
    rewrite ascii_compare_refl. now apply IH with (s2 := s2).
  - apply ascii_compare_eq in Eab. subst. now rewrite Ebc.
  - apply ascii_compare_eq in Ebc. subst. now rewrite Eab.
  - now rewrite (ascii_compare_trans _ _ _ Eab Ebc).
Qed.

Import PaymentGateway.

Lemma insert_desc_perm t l : Permutation (insert_desc t l) (t :: l).
Proof.
  induction l as [|t' l IH]; simpl; [reflexivity|].
  destruct (String.leb (tx_timestamp t') (tx_timestamp t)); [reflexivity|].
  rewrite perm_swap. now constructor.
Qed.

Lemma sort_perm l : Permutation (sort_by_timestamp_desc l) l.
Proof.
  induction l as [|t l IH]; simpl; [constructor|].
  rewrite insert_desc_perm. now constructor.
Qed.

Lemma insert_desc_sorted t l :
  Spec.newest_first l -> Spec.newest_first (insert_desc t l).
Proof.
  unfold Spec.newest_first.
  induction l as [|t' l IH]; simpl; intros H.
  - repeat constructor.
  - inversion H as [|? ? Hl Hall]; subst.
    destruct (String.leb (tx_timestamp t') (tx_timestamp t)) eqn:E.
    + constructor; [assumption|]. constructor; [assumption|].
      eapply Forall_impl; [|exact Hall]. simpl. intros b Hb.
      now apply string_leb_trans with (s2 := tx_timestamp t').
    + constructor; [auto|].
      assert (Hle : String.leb (tx_timestamp t) (tx_timestamp t') = true).
      { destruct (String.leb_total (tx_timestamp t) (tx_timestamp t'));
          congruence. }
      eapply Permutation_Forall.
      * symmetry. apply insert_desc_perm.
      * now constructor.
Qed.

Lemma sort_sorted l : Spec.newest_first (sort_by_timestamp_desc l).
Proof.
  induction l as [|t l IH]; simpl.
  - constructor.
  - now apply insert_desc_sorted.
Qed.

(** The sort is stable: the records of one timestamp keep the order they
    had in the file. *)
Lemma insert_desc_stable k t l :
  filter (fun x => String.eqb (tx_timestamp x) k) (insert_desc t l)
  = filter (fun x => String.eqb (tx_timestamp x) k) (t :: l).
Proof.
  induction l as [|t' l IH]; [reflexivity|].
  cbn [insert_desc].
  destruct (String.leb (tx_timestamp t') (tx_timestamp t)) eqn:E;
    [reflexivity|].
  cbn [filter] in *. rewrite IH.
  destruct (String.eqb (tx_timestamp t) k) eqn:Et; [|reflexivity].
  destruct (String.eqb (tx_timestamp t') k) eqn:Et'; [|reflexivity].
  apply String.eqb_eq in Et, Et'. rewrite Et, Et' in E.
  destruct (String.leb_total k k); congruence.
Qed.

Lemma sort_stable k l :
  filter (fun x => String.eqb (tx_timestamp x) k) (sort_by_timestamp_desc l)
  = filter (fun x => String.eqb (tx_timestamp x) k) l.
Proof.
  induction l as [|t l IH]; [reflexivity|].
  cbn [sort_by_timestamp_desc]. rewrite insert_desc_stable.
  cbn [filter]. now rewrite IH.
Qed.

(** What the reading loops gather. *)
Lemma collect_all_spec lines :
  forall acc, collect_all lines acc = acc ++ Spec.valid_records lines.
Proof.
  induction lines as [|[| |t] lines IH]; simpl; intros acc; auto.
  - now rewrite app_nil_r.
  - now rewrite IH, <- app_assoc.
Qed.

Lemma collect_user_spec u lines :
  forall acc,
    collect_user u lines acc
    = acc ++ filter (Spec.owned_by u) (Spec.valid_records lines).
Proof.
  induction lines as [|[| |t] lines IH]; simpl; intros acc; auto.
  - now rewrite app_nil_r.
  - unfold Spec.owned_by at 1.
    destruct (String.eqb (Py.str (tx_user_id t)) (Py.str u)); auto.
    now rewrite IH, <- app_assoc.
Qed.

End SortFacts.

(** ** The lookup in the ledger *)

Module LedgerFacts.

Import PaymentGateway.

(** On a file whose lines before the first match are not malformed, the
    scan gives the answer the specification owes. *)
Lemma scan_clean txn_id user_id lines :
  (forall l, In l lines -> Spec.is_malformed l = false) ->
  scan_transaction txn_id user_id lines
  = match Spec.first_match txn_id user_id lines with
    | Some t => Ok (Some t)
    | None => Raise (TransactionNotFoundException txn_id)
    end.
Proof.
  unfold Spec.first_match.
  induction lines as [|[| |t] lines IH]; simpl; intros H; auto.
  - discriminate (H (Malformed text) (or_introl eq_refl)).
  - unfold Spec.matches at 1.
    destruct (String.eqb (tx_id t) txn_id); simpl; auto.
    destruct user_id as [u|]; simpl; auto.
    destruct (Py.truthy_ident u); simpl; auto.
    destruct (String.eqb (Py.str (tx_user_id t)) (Py.str u)); simpl; auto.
Qed.

Lemma valid_records_app l1 l2 :
  Spec.valid_records (l1 ++ l2)
  = Spec.valid_records l1 ++ Spec.valid_records l2.
Proof.
  induction l1 as [|[| |t] l1 IH]; simpl; auto. now rewrite IH.
Qed.

Lemma valid_records_in t lines :
  In t (Spec.valid_records lines) -> In (Json t) lines.
Proof.
  induction lines as [|[| |t'] lines IH]; simpl; auto.
  intros [->|H]; auto.
Qed.

Lemma find_none_app (A : Type) (f : A -> bool) l1 l2 :
  (forall x, In x l1 -> f x = false) ->
  List.find f (l1 ++ l2) = List.find f l2.
Proof.
  induction l1 as [|a l1 IH]; simpl; intros H; auto.
  rewrite (H a (or_introl eq_refl)). auto.
Qed.

End LedgerFacts.

(** ** The pattern of the invoice description *)

Module PatternFacts.

Import Py InvoiceGenerator.

Lemma re_match_star_nil p : re_match (SpaceStar :: p) [] = re_match p [].
Proof. reflexivity. Qed.

Lemma re_match_star_cons p c s :
  re_match (SpaceStar :: p) (c :: s)
  = if isspace c then
      match re_match (SpaceStar :: p) s with
      | Some n => Some (S n)
      | None => re_match p (c :: s)
      end
    else re_match p (c :: s).
Proof. reflexivity. Qed.

(** The final [\s*] takes the whole run of whitespace. *)
Lemma re_match_trailing_star s :
  re_match [SpaceStar] s = Some (Spec.leading_spaces s).
Proof.
  induction s as [|c s IH]; [reflexivity|].
  rewrite re_match_star_cons, IH. simpl.
  destruct (isspace c); reflexivity.
Qed.

(** The literal part followed by the final [\s*]. *)
Lemma re_match_literals tag :
  forall s,
    re_match (map Lit tag ++ [SpaceStar]) s
    = if Spec.starts_with tag s
      then Some (List.length tag
                 + Spec.leading_spaces (skipn (List.length tag) s))
      else None.
Proof.
  induction tag as [|t tag IH]; intros s.
  - simpl. apply re_match_trailing_star.
  - destruct s as [|c s]; [reflexivity|]. simpl.
    destruct (Ascii.eqb (lower t) (lower c)); [|reflexivity].
    rewrite IH. simpl.
    destruct (Spec.starts_with tag s); reflexivity.
Qed.

(** No whitespace character is a bracket, whatever its case. *)
Lemma space_not_bracket c :
  isspace c = true -> Ascii.eqb (lower "["%char) (lower c) = false.
Proof.
  destruct c as [[] [] [] [] [] [] [] []]; try discriminate; reflexivity.
Qed.

(** The leading [\s*] can only stop at the end of the run of whitespace,
    since the literal that follows is not whitespace. *)
Lemma re_match_leading_star tag s :
  let p := Lit "["%char :: tag in
  re_match (SpaceStar :: p) s
  = match re_match p (skipn (Spec.leading_spaces s) s) with
    | Some n => Some (Spec.leading_spaces s + n)
    | None => None
    end.
Proof.
  intros p. induction s as [|c s IH].
  - rewrite re_match_star_nil. simpl. destruct (re_match p []); reflexivity.
  - rewrite re_match_star_cons. simpl Spec.leading_spaces.
    destruct (isspace c) eqn:Ec.
    + rewrite IH. simpl skipn.
      destruct (re_match p (skipn (Spec.leading_spaces s) s));
        [reflexivity|].
      unfold p. cbn [re_match]. now rewrite (space_not_bracket c Ec).
    + simpl skipn. destruct (re_match p (c :: s)); reflexivity.
Qed.

(** On this pattern the backtracking matcher finds the occurrence of the
    tag with the whitespace around it. *)
Lemma re_match_manual_fix s :
  re_match manual_fix_pattern s = Spec.tag_span s.
Proof.
  unfold manual_fix_pattern, Spec.tag_span.
  change (map Lit (list_ascii_of_string "[MANUAL FIX]") ++ [SpaceStar])
    with (Lit "["%char
            :: (map Lit (list_ascii_of_string "MANUAL FIX]") ++ [SpaceStar])).
  rewrite re_match_leading_star.
  change (Lit "["%char
            :: (map Lit (list_ascii_of_string "MANUAL FIX]") ++ [SpaceStar]))
    with (map Lit Spec.manual_fix_tag ++ [SpaceStar]).
  rewrite re_match_literals.
  destruct (Spec.starts_with Spec.manual_fix_tag
              (skipn (Spec.leading_spaces s) s)); [|reflexivity].
  now rewrite Nat.add_assoc.
Qed.

Lemma re_sub_from_manual_fix s :
  forall skip,
    re_sub_from manual_fix_pattern skip s = Spec.remove_tags_from skip s.
Proof.
  induction s as [|c s IH]; intros skip; [reflexivity|].
  cbn [re_sub_from Spec.remove_tags_from].
  destruct skip as [|k]; [|apply IH].
  rewrite re_match_manual_fix.
  destruct (Spec.tag_span (c :: s)) as [[|k]|]; now rewrite IH.
Qed.

End PatternFacts.

(** ** The readers on a ledger of any values *)

Module AnyJsonFacts.

Import Py Storage AnyJson.

Lemma scan_record txn_id user_id t rest :
  scan_transaction txn_id user_id (Json (Record t) :: rest)
  = if Spec.matches txn_id user_id t then Returns (Some t)
    else scan_transaction txn_id user_id rest.
Proof.
  cbn [scan_transaction]. unfold Spec.matches.
  destruct (String.eqb (tx_id t) txn_id); [|reflexivity].
  destruct user_id as [u|]; [|reflexivity]. simpl.
  destruct (truthy_ident u); simpl; [|reflexivity].
  now destruct (String.eqb (str (tx_user_id t)) (str u)).
Qed.

(** The four ways the scan of [get_transaction] ends, by the first line it
    does not go past. *)
Lemma scan_endings txn_id user_id ledger :
  (exists pre t post,
     ledger = pre ++ Json (Record t) :: post
     /\ forallb (passed txn_id user_id) pre = true
     /\ Spec.matches txn_id user_id t = true
     /\ scan_transaction txn_id user_id ledger = Returns (Some t))
  \/ (exists pre text post,
        ledger = pre ++ Malformed text :: post
        /\ forallb (passed txn_id user_id) pre = true
        /\ scan_transaction txn_id user_id ledger = Returns None)
  \/ (exists pre text post,
        ledger = pre ++ Json (Other text) :: post
        /\ forallb (passed txn_id user_id) pre = true
        /\ scan_transaction txn_id user_id ledger = AttributeError text)
  \/ (forallb (passed txn_id user_id) ledger = true
      /\ scan_transaction txn_id user_id ledger
         = Raises (TransactionNotFoundException txn_id)).
Proof.
  induction ledger as [|l ledger IH].
  - right. right. right. split; reflexivity.
  - assert (Hpast :
      passed txn_id user_id l = true ->
      scan_transaction txn_id user_id (l :: ledger)
      = scan_transaction txn_id user_id ledger ->
      (exists pre t post,
         l :: ledger = pre ++ Json (Record t) :: post
         /\ forallb (passed txn_id user_id) pre = true
         /\ Spec.matches txn_id user_id t = true
         /\ scan_transaction txn_id user_id (l :: ledger)
            = Returns (Some t))
      \/ (exists pre text post,
            l :: ledger = pre ++ Malformed text :: post
            /\ forallb (passed txn_id user_id) pre = true
            /\ scan_transaction txn_id user_id (l :: ledger)
               = Returns None)
      \/ (exists pre text post,
            l :: ledger = pre ++ Json (Other text) :: post
            /\ forallb (passed txn_id user_id) pre = true
            /\ scan_transaction txn_id user_id (l :: ledger)
               = AttributeError text)
      \/ (forallb (passed txn_id user_id) (l :: ledger) = true
          /\ scan_transaction txn_id user_id (l :: ledger)
             = Raises (TransactionNotFoundException txn_id))).
    { intros Hl ->.
      destruct IH as [(pre & t & post & -> & Hp & Hm & Hs)
                     |[(pre & text & post & -> & Hp & Hs)
                      |[(pre & text & post & -> & Hp & Hs)
                       |(Hp & Hs)]]].
      - left. exists (l :: pre), t, post.
        cbn [forallb app]. rewrite Hl, Hp. auto.
      - right. left. exists (l :: pre), text, post.
        cbn [forallb app]. rewrite Hl, Hp. auto.
      - right. right. left. exists (l :: pre), text, post.
        cbn [forallb app]. rewrite Hl, Hp. auto.
      - right. right. right. cbn [forallb]. rewrite Hl, Hp. auto. }
    destruct l as [|text|[t|text]].
    + apply Hpast; reflexivity.
    + right. left. exists [], text, ledger. auto.
    + rewrite scan_record in *.
      destruct (Spec.matches txn_id user_id t) eqn:Em.
      * left. exists [], t, ledger. auto.
      * apply Hpast; [cbn [passed]; now rewrite Em|reflexivity].
    + right. right. left. exists [], text, ledger. auto.
Qed.

(** On a ledger whose decoded lines are records, the loop of
    [get_all_transactions] gathers the records in file order. *)
Lemma collect_all_records ledger :
  forall acc,
    records_only ledger = true ->
    collect_all ledger (map Record acc)
    = map Record (acc ++ valid_records ledger).
Proof.
  unfold records_only.
  induction ledger as [|[|text|[t|text]] ledger IH]; cbn; intros acc H.
  - now rewrite app_nil_r.
  - now apply IH.
  - now apply IH.
  - change (map Record acc ++ [Record t]) with
      (map Record acc ++ map Record [t]).
    rewrite <- map_app, IH by exact H. now rewrite <- app_assoc.
  - discriminate H.
Qed.

Lemma sort_keys_records l : sort_keys (map Record l) = Returns l.
Proof.
  induction l as [|t l IH]; cbn; [reflexivity|]. now rewrite IH.
Qed.

Lemma get_all_transactions_records ledger :
  records_only ledger = true ->
  get_all_transactions Opens ledger
  = Returns (PaymentGateway.sort_by_timestamp_desc (valid_records ledger)).
Proof.
  intros H. unfold get_all_transactions.
  change (@nil value) with (map Record []).
  rewrite collect_all_records by exact H. now rewrite sort_keys_records.
Qed.

Lemma collect_user_records user_id ledger :
  forall acc,
    records_only ledger = true ->
    collect_user user_id ledger acc
    = Returns (acc ++ filter (Spec.owned_by user_id) (valid_records ledger)).
Proof.
  unfold records_only.
  induction ledger as [|[|text|[t|text]] ledger IH]; cbn; intros acc H.
  - now rewrite app_nil_r.
  - now apply IH.
  - now apply IH.
  - unfold Spec.owned_by at 1.
    destruct (String.eqb (str (tx_user_id t)) (str user_id)).
    + rewrite IH by exact H. now rewrite <- app_assoc.
    + now apply IH.
  - discriminate H.
Qed.

Lemma get_user_transactions_records user_id ledger :
  records_only ledger = true ->
  get_user_transactions Opens user_id ledger
  = Returns (PaymentGateway.sort_by_timestamp_desc
               (filter (Spec.owned_by user_id) (valid_records ledger))).
Proof.
  intros H. unfold get_user_transactions.
  now rewrite collect_user_records by exact H.
Qed.

(** A ledger of [PaymentGateway] is a ledger of records, and on it the
    readers given here are those of [PaymentGateway]. *)
Lemma of_file_records_only lines : records_only (of_file lines) = true.
Proof.
  unfold records_only, of_file.
  induction lines as [|[|text|t] lines IH]; cbn; auto.
Qed.

Lemma of_file_valid_records lines :
  valid_records (of_file lines) = Spec.valid_records lines.
Proof.
  unfold of_file.
  induction lines as [|[|text|t] lines IH]; cbn; auto. now rewrite IH.
Qed.

Lemma get_all_transactions_of_file w l w' :
  PaymentGateway.get_all_transactions w = (Ok l, w') ->
  get_all_transactions Opens (of_file (transactions_file w)) = Returns l.
Proof.
  intros H. rewrite get_all_transactions_records, of_file_valid_records
    by apply of_file_records_only.
  unfold PaymentGateway.get_all_transactions, bind, log_io in H.
  cbn in H. injection H as <- _.
  now rewrite SortFacts.collect_all_spec.
Qed.

Lemma get_user_transactions_of_file user_id w l w' :
  PaymentGateway.get_user_transactions user_id w = (Ok l, w') ->
  get_user_transactions Opens user_id (of_file (transactions_file w))
  = Returns l.
Proof.
  intros H. rewrite get_user_transactions_records, of_file_valid_records
    by apply of_file_records_only.
  unfold PaymentGateway.get_user_transactions, bind, log_io in H.
  cbn in H. injection H as <- _.
  now rewrite SortFacts.collect_user_spec.
Qed.

Lemma scan_transaction_of_file txn_id user_id lines :
  scan_transaction txn_id user_id (of_file lines)
  = match PaymentGateway.scan_transaction txn_id user_id lines with
    | Ok answer => Returns answer
    | Raise e => Raises e
    end.
Proof.
  unfold of_file.
  induction lines as [|[|text|t] lines IH]; cbn [map of_line]; auto.
  cbn [scan_transaction PaymentGateway.scan_transaction].
  destruct (String.eqb (tx_id t) txn_id); [|exact IH].
  destruct user_id as [u|]; [|reflexivity].
  destruct (truthy_ident u
            && negb (String.eqb (str (tx_user_id t)) (str u)));
    [exact IH|reflexivity].
Qed.

Lemma collect_all_app ledger :
  forall acc, collect_all ledger acc = acc ++ collect_all ledger [].
Proof.
  induction ledger as [|[|text|v] ledger IH]; cbn [collect_all]; intros acc.
  - now rewrite app_nil_r.
  - apply IH.
  - apply IH.
  - rewrite IH, (IH ([] ++ [v])). now rewrite <- app_assoc.
Qed.

Lemma sort_keys_other l text rest :
  sort_keys (map Record l ++ Other text :: rest) = AttributeError text.
Proof.
  induction l as [|t l IH]; cbn [map app sort_keys]; [reflexivity|].
  now rewrite IH.
Qed.

(** A line that is not a record ends both listings, with the
    [AttributeError] of the first such line. *)
Lemma listings_raise ledger :
  records_only ledger = false ->
  exists text,
    In (Json (Other text)) ledger
    /\ get_all_transactions Opens ledger = AttributeError text
    /\ forall user_id,
         get_user_transactions Opens user_id ledger = AttributeError text.
Proof.
  intros H.
  assert (Hall : forall acc,
            exists text,
              In (Json (Other text)) ledger
              /\ sort_keys (collect_all ledger (map Record acc))
                 = AttributeError text
              /\ forall user_id acc',
                   collect_user user_id ledger acc' = AttributeError text).
  { unfold records_only in H.
    induction ledger as [|[|text|[t|text]] ledger IH]; cbn in H;
      [discriminate H| | | |]; intros acc.
    - destruct (IH H acc) as (v & Hin & Hs & Hu).
      exists v. split; [now right|]. split; [exact Hs|]. exact Hu.
    - destruct (IH H acc) as (v & Hin & Hs & Hu).
      exists v. split; [now right|]. split; [exact Hs|]. exact Hu.
    - destruct (IH H (acc ++ [t])) as (v & Hin & Hs & Hu).
      exists v. split; [now right|]. split.
      + cbn [collect_all]. rewrite map_app in Hs. exact Hs.
      + intros user_id acc'. cbn [collect_user].
        destruct (String.eqb (str (tx_user_id t)) (str user_id)); apply Hu.
    - exists text. split; [now left|]. split; [|reflexivity].
      cbn [collect_all]. rewrite collect_all_app, <- app_assoc.
      apply sort_keys_other. }
  destruct (Hall []) as (text & Hin & Hs & Hu).
  exists text. split; [exact Hin|]. split.
  - unfold get_all_transactions. cbn [map] in Hs. now rewrite Hs.
  - intros user_id. unfold get_user_transactions. now rewrite Hu.
Qed.

End AnyJsonFacts.

(** ** The claims *)

Unset Implicit Arguments.

Module Claims.

Import Py DictFacts Run.

(** C1. For a positive amount, [deduct_money] raises
    [InsufficientBalanceException] with [required = amount] and
    [available] the stored balance when the stored balance is below the
    amount, leaving the wallet snapshot and the ledger as they were; when
    the amount is at most the stored balance it succeeds, the stored
    balance becomes the old balance minus the amount, and the record
    returned, of type debit, method wallet, status success and
    [new_balance] the new stored balance, is the line added to the
    ledger. *)
Theorem deduct_money_balance_check
    (o : oracle) (u : ident) (amount : float) (description : string)
    (username : option string) (w : world) :
  (0 <? amount)%float = true ->
  let balance := Spec.stored_balance w u in
  ((balance <? amount)%float = true ->
     exists w',
       WalletManager.deduct_money o u amount description username w
       = (Raise (InsufficientBalanceException amount balance), w')
       /\ wallet_file w' = wallet_file w
       /\ transactions_file w' = transactions_file w)
  /\ ((amount <=? balance)%float = true ->
     exists r w',
       WalletManager.deduct_money o u amount description username w
       = (Ok r, w')
       /\ Spec.stored_balance w' u = (balance - amount)%float
       /\ tx_type r = Some "debit"
       /\ tx_method r = "wallet"
       /\ tx_status r = "success"
       /\ tx_new_balance r = Some (Spec.stored_balance w' u)
       /\ transactions_file w' = transactions_file w ++ [Json r]).
Proof.
  intros Hpos balance.
  pose proof (FloatOrder.ltb_true_leb_false Hpos) as Hvalid.
  split.
  - intros Hlow. eexists. split; [|split].
    + now apply deduct_money_insufficient.
    + reflexivity.
    + reflexivity.
  - intros Hge. apply FloatOrder.leb_true_ltb_false in Hge.
    unfold balance, Spec.stored_balance in *.
    destruct (Spec.stored_wallet w u) as [x|] eqn:Hw; [|congruence].
    do 2 eexists. split; [now apply deduct_money_success with (x := x)|].
    assert (Hst : forall tf log,
      Spec.stored_wallet
        (mk_world
           (map (fun y => Json y)
              (dict_values
                 (dict_set (str u)
                    (set_last_updated
                       (set_balance x (wallet_balance x - amount)%float)
                       (now_last_updated o))
                    (WalletManager.load_wallets (wallet_file w) []))))
           tf log) u
      = Some (set_last_updated
                (set_balance x (wallet_balance x - amount)%float)
                (now_last_updated o))).
    { intros. now apply stored_after_update with (x := x). }
    rewrite Hst. simpl. repeat split; try reflexivity.
Qed.

Lemma deduct_money_balance_check_witness :
  (0 <? 200)%float = true
  /\ (exists r w',
        WalletManager.deduct_money Sample.oracle_a (IdInt 1) 200%float
          "Course Purchase" None Sample.buyer_1000 = (Ok r, w')
        /\ Spec.stored_balance w' (IdInt 1) = 800%float
        /\ tx_new_balance r = Some 800%float)
  /\ (0 <? 1000.01)%float = true
  /\ (exists w',
        WalletManager.deduct_money Sample.oracle_a (IdInt 1) 1000.01%float
          "Course Purchase" None Sample.buyer_1000
        = (Raise (InsufficientBalanceException 1000.01%float 1000%float), w')
        /\ wallet_file w' = wallet_file Sample.buyer_1000).
Proof.
  split; [reflexivity|]. split.
  - destruct (deduct_money_balance_check Sample.oracle_a (IdInt 1) 200%float
                "Course Purchase" None Sample.buyer_1000 eq_refl)
      as [_ H].
    destruct (H eq_refl) as (r & w' & Hrun & Hbal & _ & _ & _ & Hnew & _).
    exists r, w'. split; [exact Hrun|]. split; [exact Hbal|].
    rewrite Hnew, Hbal. reflexivity.
  - split; [reflexivity|].
    destruct (deduct_money_balance_check Sample.oracle_a (IdInt 1)
                1000.01%float "Course Purchase" None Sample.buyer_1000
                eq_refl)
      as [H _].
    destruct (H eq_refl) as (w' & Hrun & Hwf & _).
    exists w'. split; [exact Hrun|exact Hwf].
Defined.

(** C3. With an amount that is not positive, [add_money], [deduct_money]
    and [credit_seller] each raise the invalid-amount exception and return
    the world they were given: no file was opened, no wallet and no ledger
    line changed. *)
Theorem nonpositive_amount_rejected
    (o : oracle) (u : ident) (amount : float)
    (payment_method description : string)
    (username transaction_id : option string) (w : world) :
  (amount <=? 0)%float = true ->
  WalletManager.add_money o u amount payment_method description w
  = (Raise (CustomException "Amount must be greater than 0"), w)
  /\ WalletManager.deduct_money o u amount description username w
     = (Raise (CustomException "Amount must be greater than 0"), w)
  /\ WalletManager.credit_seller o u amount description username
       transaction_id w
     = (Raise (CustomException "Amount must be greater than 0"), w).
Proof.
  intros H. split; [|split].
  - now apply add_money_invalid.
  - now apply deduct_money_invalid.
  - now apply credit_seller_invalid.
Qed.

Lemma nonpositive_amount_rejected_witness :
  (-5 <=? 0)%float = true
  /\ WalletManager.deduct_money Sample.oracle_a (IdInt 1) (-5)%float
       "Service Purchase" None Sample.buyer_1000
     = (Raise (CustomException "Amount must be greater than 0"),
        Sample.buyer_1000).
Proof.
  split; [reflexivity|].
  apply (nonpositive_amount_rejected Sample.oracle_a (IdInt 1) (-5)%float
           "card" "Service Purchase" None None Sample.buyer_1000 eq_refl).
Defined.

(** C4. For a positive amount, and a draw of [random.random()] below 1 as
    all its draws are, [add_money] returns a record of status success, the
    stored balance becomes the balance before plus the amount, and the
    record carries that new stored balance; from balance 0, adding 500
    gives [new_balance = 500]. *)
Theorem add_money_succeeds
    (o : oracle) (u : ident) (amount : float)
    (payment_method description : string) (w : world) :
  (0 <? amount)%float = true ->
  (random_random o <? 1)%float = true ->
  exists r w',
    WalletManager.add_money o u amount payment_method description w
    = (Ok r, w')
    /\ tx_status r = "success"
    /\ Spec.stored_balance w' u = (Spec.stored_balance w u + amount)%float
    /\ tx_new_balance r = Some (Spec.stored_balance w' u)
    /\ (Spec.stored_balance w u = 0%float -> amount = 500%float ->
        tx_new_balance r = Some 500%float).
Proof.
  intros Hpos Hdraw.
  pose proof (FloatOrder.ltb_true_leb_false Hpos) as Hvalid.
  do 2 eexists. split; [now apply add_money_success|].
  unfold Spec.stored_balance at 1 3.
  rewrite stored_after_credit. unfold Outcome.credited.
  cbn [wallet_balance set_last_updated set_balance set_new_balance
       tx_status tx_new_balance Outcome.payment_record].
  rewrite stored_balance_or_new.
  repeat split. intros -> ->. reflexivity.
Qed.

Lemma add_money_succeeds_witness :
  (0 <? 500)%float = true
  /\ (random_random Sample.oracle_a <? 1)%float = true
  /\ exists r w',
       WalletManager.add_money Sample.oracle_a (IdInt 7) 500%float
         "card" "Test" Sample.fresh = (Ok r, w')
       /\ tx_status r = "success"
       /\ tx_new_balance r = Some 500%float.
Proof.
  split; [reflexivity|]. split; [reflexivity|].
  destruct (add_money_succeeds Sample.oracle_a (IdInt 7) 500%float
              "card" "Test" Sample.fresh eq_refl eq_refl)
    as (r & w' & Hrun & Hst & _ & _ & H500).
  exists r, w'. repeat split; auto.
Defined.

(** C10. For a positive amount, [deduct_money] on a user without a wallet
    record raises [InsufficientBalanceException] with [available = 0] and
    [required = amount]; it never raises [KeyError], and when it succeeds
    the wallet record exists. *)
Theorem deduct_money_index_safe
    (o : oracle) (u : ident) (amount : float) (description : string)
    (username : option string) (w : world) :
  (0 <? amount)%float = true ->
  (Spec.stored_wallet w u = None ->
     exists w',
       WalletManager.deduct_money o u amount description username w
       = (Raise (InsufficientBalanceException amount 0%float), w'))
  /\ (forall key,
        fst (WalletManager.deduct_money o u amount description username w)
        <> Raise (KeyError key))
  /\ (forall r w',
        WalletManager.deduct_money o u amount description username w
        = (Ok r, w') ->
        exists x, Spec.stored_wallet w u = Some x).
Proof.
  intros Hpos.
  pose proof (FloatOrder.ltb_true_leb_false Hpos) as Hvalid.
  destruct (Spec.stored_wallet w u) as [x|] eqn:Hw.
  - split; [discriminate|].
    destruct (wallet_balance x <? amount)%float eqn:Hlow.
    + assert (Hb : (Spec.stored_balance w u <? amount)%float = true).
      { unfold Spec.stored_balance. now rewrite Hw. }
      rewrite (deduct_money_insufficient o u description username w
                 Hvalid Hb).
      split; [discriminate|]. intros r w' [=].
    + rewrite (deduct_money_success o u description username w
                 Hvalid Hw Hlow).
      split; [discriminate|]. intros r w' _. now exists x.
  - assert (Hz : Spec.stored_balance w u = 0%float).
    { unfold Spec.stored_balance. now rewrite Hw. }
    assert (Hb : (Spec.stored_balance w u <? amount)%float = true).
    { now rewrite Hz. }
    rewrite (deduct_money_insufficient o u description username w
               Hvalid Hb), Hz.
    split; [intros _; eexists; reflexivity|].
    split; [discriminate|]. intros r w' [=].
Qed.

Lemma deduct_money_index_safe_witness :
  (0 <? 200)%float = true
  /\ exists w',
       WalletManager.deduct_money Sample.oracle_a (IdInt 9) 200%float
         "Service Purchase" None Sample.buyer_1000
       = (Raise (InsufficientBalanceException 200%float 0%float), w').
Proof.
  split; [reflexivity|].
  apply (deduct_money_index_safe Sample.oracle_a (IdInt 9) 200%float
           "Service Purchase" None Sample.buyer_1000 eq_refl).
  reflexivity.
Defined.

(** C2. [get_transaction] does not skip a malformed line: on a ledger
    whose first line is malformed and whose second line is the record
    asked for, it returns [None], while the first matching record of the
    file is that record. *)
Theorem get_transaction_stops_at_malformed :
  fst (PaymentGateway.get_transaction "TXN20260115103000123" None
         Sample.torn_ledger)
  = Ok None
  /\ Spec.first_match "TXN20260115103000123" None
       (transactions_file Sample.torn_ledger)
     = Some Sample.record_r.
Proof. split; reflexivity. Qed.

(** C6, as amended. For a user without a stored wallet, [create_wallet]
    with [b1] and then with [b2] return the same wallet record, of balance
    [b1]; the stored balance is [b1] after each call, and the second call
    leaves both files as the first left them. *)
Theorem create_wallet_idempotent
    (o1 o2 : oracle) (u : ident) (b1 b2 : float) (w : world) :
  Spec.stored_wallet w u = None ->
  exists r w1 w2,
    WalletManager.create_wallet o1 u b1 w = (Ok r, w1)
    /\ WalletManager.create_wallet o2 u b2 w1 = (Ok r, w2)
    /\ wallet_balance r = b1
    /\ Spec.stored_balance w1 u = b1
    /\ Spec.stored_balance w2 u = b1
    /\ wallet_file w2 = wallet_file w1
    /\ transactions_file w2 = transactions_file w1.
Proof.
  intros Hw. do 3 eexists.
  split; [now apply create_wallet_new|].
  split; [apply create_wallet_existing, stored_after_create|].
  unfold Spec.stored_balance. cbn [wallet_file transactions_file].
  rewrite stored_after_create.
  assert (Hsame : forall tf log,
    Spec.stored_wallet
      (mk_world
         (map (fun y => Json y)
            (dict_values
               (dict_set (str u)
                  (mk_wallet (IdStr (str u)) b1 (now_created_at o1)
                             (Some (now_last_updated o1)))
                  (WalletManager.load_wallets (wallet_file w) []))))
         tf log) u
    = Some (mk_wallet (IdStr (str u)) b1 (now_created_at o1)
                      (Some (now_last_updated o1)))).
  { intros. apply stored_after_create. }
  unfold Spec.stored_wallet in *. cbn [wallet_file] in *.
  rewrite (Hsame [] []). repeat split.
Qed.

Lemma create_wallet_idempotent_witness :
  Spec.stored_wallet Sample.fresh (IdInt 7) = None
  /\ exists r w1 w2,
       WalletManager.create_wallet Sample.oracle_a (IdInt 7) 100%float
         Sample.fresh = (Ok r, w1)
       /\ WalletManager.create_wallet Sample.oracle_b (IdInt 7) 250%float
            w1 = (Ok r, w2)
       /\ Spec.stored_balance w2 (IdInt 7) = 100%float.
Proof.
  split; [reflexivity|].
  destruct (create_wallet_idempotent Sample.oracle_a Sample.oracle_b
              (IdInt 7) 100%float 250%float Sample.fresh eq_refl)
    as (r & w1 & w2 & H1 & H2 & _ & _ & Hb & _).
  exists r, w1, w2. auto.
Defined.

(** C6, as stated, fails when the user already has a wallet: with a
    stored balance of 5, [create_wallet] with 10 and then with 20 leaves
    the stored balance at 5, not at 10. *)
Lemma create_wallet_keeps_existing_balance :
  exists r1 w1 r2 w2,
    WalletManager.create_wallet Sample.oracle_a (IdInt 7) 10%float
      Sample.holder_5 = (Ok r1, w1)
    /\ WalletManager.create_wallet Sample.oracle_b (IdInt 7) 20%float w1
       = (Ok r2, w2)
    /\ Spec.stored_balance w2 (IdInt 7) = 5%float
    /\ Spec.stored_balance w2 (IdInt 7) <> 10%float.
Proof.
  do 4 eexists. split; [reflexivity|]. split; [reflexivity|].
  split; [reflexivity|].
  intros H. apply (f_equal (fun x => (x =? 10)%float)) in H.
  vm_compute in H. discriminate H.
Qed.

(** C7. A record written by [save_transaction] to a ledger of valid lines
    is returned whole by [get_transaction] on its id, asked without a user
    id or with the record's own, provided no other line answers the same
    lookup: none has its id or, when the user id is given because ids are
    shared, none has both its id and its user id. *)
Theorem saved_transaction_found
    (r : txn) (user_id : option ident) (w : world) :
  (forall l, In l (transactions_file w) -> Spec.is_malformed l = false) ->
  (forall t, In (Json t) (transactions_file w) ->
             Spec.matches (tx_id r) user_id t = false) ->
  user_id = None \/ user_id = Some (tx_user_id r) ->
  exists w1 w2,
    PaymentGateway.save_transaction r w = (Ok tt, w1)
    /\ PaymentGateway.get_transaction (tx_id r) user_id w1
       = (Ok (Some r), w2).
Proof.
  intros Hvalid Hfresh Huser. do 2 eexists. split; [reflexivity|].
  unfold PaymentGateway.get_transaction, bind, log_io.
  cbn [transactions_file wallet_file io_log PaymentGateway.save_transaction].
  simpl. rewrite LedgerFacts.scan_clean.
  - unfold Spec.first_match.
    rewrite LedgerFacts.valid_records_app, LedgerFacts.find_none_app.
    + simpl. unfold Spec.matches. rewrite String.eqb_refl.
      destruct Huser as [->| ->]; simpl.
      * reflexivity.
      * now rewrite String.eqb_refl, orb_true_r.
    + intros t Ht. now apply Hfresh, LedgerFacts.valid_records_in.
  - intros l Hl. apply in_app_or in Hl. destruct Hl as [Hl|[<-|[]]]; auto.
Qed.

Lemma saved_transaction_found_witness :
  (forall l, In l [Json Sample.record_r] -> Spec.is_malformed l = false)
  /\ (forall t, In (Json t) [Json Sample.record_r] ->
        Spec.matches (tx_id Sample.record_credit)
          (Some (tx_user_id Sample.record_credit)) t = false)
  /\ exists w1 w2,
       PaymentGateway.save_transaction Sample.record_credit
         (mk_world [] [Json Sample.record_r] []) = (Ok tt, w1)
       /\ PaymentGateway.get_transaction (tx_id Sample.record_credit)
            (Some (tx_user_id Sample.record_credit)) w1
          = (Ok (Some Sample.record_credit), w2).
Proof.
  assert (H1 : forall l, In l [Json Sample.record_r] ->
                         Spec.is_malformed l = false).
  { intros l [<-|[]]. reflexivity. }
  assert (H2 : forall t, In (Json t) [Json Sample.record_r] ->
                 Spec.matches (tx_id Sample.record_credit)
                   (Some (tx_user_id Sample.record_credit)) t = false).
  { intros t [[= <-]|[]]. reflexivity. }
  split; [exact H1|]. split; [exact H2|].
  exact (saved_transaction_found Sample.record_credit
           (Some (tx_user_id Sample.record_credit))
           (mk_world [] [Json Sample.record_r] []) H1 H2
           (or_intror eq_refl)).
Defined.

(** C8, as amended. On every ledger file that opens and whose decoded
    lines are all records, with or without malformed lines among them,
    [get_all_transactions] returns the valid records of the file in an
    order where timestamps never increase, and [get_user_transactions]
    returns in such an order the valid records whose user id, as a string,
    is the one asked. *)
Theorem listings_newest_first
    (user_id : ident) (ledger : list (line AnyJson.value)) :
  AnyJson.records_only ledger = true ->
  (exists l,
     AnyJson.get_all_transactions Storage.Opens ledger = AnyJson.Returns l
     /\ Permutation l (AnyJson.valid_records ledger)
     /\ Spec.newest_first l)
  /\ (exists l,
        AnyJson.get_user_transactions Storage.Opens user_id ledger
        = AnyJson.Returns l
        /\ Permutation l
             (filter (Spec.owned_by user_id) (AnyJson.valid_records ledger))
        /\ Spec.newest_first l).
Proof.
  intros H. split; eexists.
  - split; [exact (@AnyJsonFacts.get_all_transactions_records ledger H)|].
    split; [apply SortFacts.sort_perm|apply SortFacts.sort_sorted].
  - split;
      [exact (@AnyJsonFacts.get_user_transactions_records user_id ledger H)|].
    split; [apply SortFacts.sort_perm|apply SortFacts.sort_sorted].
Qed.

Lemma listings_newest_first_witness :
  AnyJson.records_only SampleJson.mixed_ledger = true
  /\ AnyJson.get_all_transactions Storage.Opens SampleJson.mixed_ledger
     = AnyJson.Returns [Sample.record_r; Sample.record_s]
  /\ AnyJson.get_user_transactions Storage.Opens (IdInt 2)
       SampleJson.mixed_ledger
     = AnyJson.Returns [Sample.record_s].
Proof.
  split; [reflexivity|].
  destruct (listings_newest_first (IdInt 2) SampleJson.mixed_ledger eq_refl)
    as [(l & Hl & _ & _) (m & Hm & _ & _)].
  pose proof Hl as Hl'. vm_compute in Hl'. injection Hl' as Hl'.
  pose proof Hm as Hm'. vm_compute in Hm'. injection Hm' as Hm'.
  split.
  - rewrite Hl, <- Hl'. reflexivity.
  - rewrite Hm, <- Hm'. reflexivity.
Defined.

(** C8, as stated, fails on a ledger that holds a line [json.loads]
    accepts and that is not a record: with the number 123 on the second
    line, between two records, both listings raise [AttributeError]. *)
Lemma listings_raise_on_a_number :
  AnyJson.get_all_transactions Storage.Opens SampleJson.ledger_with_number
  = AnyJson.AttributeError "123"
  /\ AnyJson.get_user_transactions Storage.Opens (IdInt 1)
       SampleJson.ledger_with_number
     = AnyJson.AttributeError "123".
Proof. split; reflexivity. Qed.

(** C5. For an order of positive price [P] that the buyer's stored
    balance covers, with the fee rate 0.10:
    [place_order] debits the buyer and credits the seller; the debit takes
    [P] off the buyer's stored balance, the credit adds [P * (1 - 0.10)]
    to the seller's, the credit record carries the id of the debit
    record, and both records are the lines added to the ledger.  When
    buyer and seller are different users these are the changes from the
    balances before the settlement to the balances after it. *)
Theorem settlement_moves_price_less_fee
    (o1 o2 : oracle) (buyer seller : ident)
    (buyer_username seller_username : string)
    (P : float) (title : string) (order_id : Z) (w : world) :
  (0 <? P)%float = true ->
  (P <=? Spec.stored_balance w buyer)%float = true ->
  exists debit credit w1 w2,
    WalletManager.deduct_money o1 buyer P
      ("Service Purchase: " ++ title ++ " (Order #"
         ++ str_of_int order_id ++ ")")%string
      (Some buyer_username) w = (Ok debit, w1)
    /\ Routes.place_order o1 o2 buyer buyer_username seller
         seller_username P title order_id w
       = (Routes.Placed debit (Ok credit), w2)
    /\ Spec.stored_balance w1 buyer
       = (Spec.stored_balance w buyer - P)%float
    /\ Spec.stored_balance w2 seller
       = (Spec.stored_balance w1 seller
          + P * (1 - Routes.platform_fee_percent))%float
    /\ tx_id credit = tx_id debit
    /\ tx_type debit = Some "debit"
    /\ tx_type credit = Some "credit"
    /\ transactions_file w2
       = transactions_file w ++ [Json debit; Json credit]
    /\ (str buyer <> str seller ->
        Spec.stored_balance w2 buyer
        = (Spec.stored_balance w buyer - P)%float
        /\ Spec.stored_balance w2 seller
           = (Spec.stored_balance w seller
              + P * (1 - Routes.platform_fee_percent))%float).
Proof.
  intros Hpos Hge.
  pose proof (@FloatPositive.mul_fee_factor_positive P Hpos) as Hcredit.
  pose proof (FloatOrder.ltb_true_leb_false Hpos) as Hv1.
  pose proof (FloatOrder.ltb_true_leb_false Hcredit) as Hv2.
  apply FloatOrder.leb_true_ltb_false in Hge.
  assert (Hx : exists x, Spec.stored_wallet w buyer = Some x
                         /\ Spec.stored_balance w buyer = wallet_balance x).
  { unfold Spec.stored_balance in *.
    destruct (Spec.stored_wallet w buyer) as [x|]; [|congruence].
    now exists x. }
  destruct Hx as (x & Hw & Hbal). rewrite Hbal in *.
  set (description1 := ("Service Purchase: " ++ title ++ " (Order #"
                          ++ str_of_int order_id ++ ")")%string).
  pose proof (deduct_money_success o1 buyer description1
                (Some buyer_username) w Hv1 Hw Hge) as Hd.
  cbv zeta in Hd.
  set (x' := set_last_updated _ _) in Hd.
  set (debit := Outcome.debit_record _ _ _ _ _ _) in Hd.
  set (w1 := mk_world _ _ _) in Hd.
  assert (Hid : wallet_user_id x' = wallet_user_id x) by reflexivity.
  pose proof (credit_seller_success o2 seller
                ("Payment Received: " ++ title ++ " (Order #"
                   ++ str_of_int order_id
                   ++ ") - After 10% platform fee")%string
                (Some seller_username) (Some (tx_id debit)) w1 Hv2) as Hc.
  cbv zeta in Hc.
  set (credit := Outcome.credit_record _ _ _ _ _ _ _) in Hc.
  set (w2 := mk_world _ _ _) in Hc.
  exists debit, credit, w1, w2.
  split; [exact Hd|].
  split.
  { unfold Routes.place_order. fold description1. rewrite Hd.
    cbv zeta. now rewrite Hc. }
  assert (H1 : Spec.stored_balance w1 buyer = (wallet_balance x - P)%float).
  { unfold Spec.stored_balance, w1.
    now rewrite (@stored_after_update w buyer x x' _ _ Hw Hid). }
  assert (H2 : Spec.stored_balance w2 seller
               = (Spec.stored_balance w1 seller
                  + P * (1 - Routes.platform_fee_percent))%float).
  { unfold Spec.stored_balance at 1. unfold w2.
    rewrite stored_after_credit. unfold Outcome.credited.
    cbn [wallet_balance set_last_updated set_balance].
    now rewrite stored_balance_or_new. }
  split; [exact H1|]. split; [exact H2|].
  split; [reflexivity|]. split; [reflexivity|]. split; [reflexivity|].
  split.
  { unfold w2, w1. cbn [transactions_file]. now rewrite <- app_assoc. }
  intros Hne. split.
  - rewrite <- H1. unfold Spec.stored_balance, w2.
    rewrite stored_after_credit_other by congruence. reflexivity.
  - rewrite H2. f_equal. unfold Spec.stored_balance, w1.
    now rewrite (@stored_after_update_other w buyer seller x x' _ _ Hw Hid Hne).
Qed.

Lemma settlement_moves_price_less_fee_witness :
  (0 <? 200)%float = true
  /\ (200 <=? Spec.stored_balance Sample.buyer_1000 (IdInt 1))%float = true
  /\ exists debit credit w2,
       Routes.place_order Sample.oracle_a Sample.oracle_b
         (IdInt 1) "asha" (IdInt 2) "ravi" 200%float "Logo design" 12
         Sample.buyer_1000
       = (Routes.Placed debit (Ok credit), w2)
       /\ Spec.stored_balance w2 (IdInt 1) = 800%float
       /\ Spec.stored_balance w2 (IdInt 2) = 180%float
       /\ tx_id credit = tx_id debit.
Proof.
  split; [reflexivity|]. split; [reflexivity|].
  destruct (settlement_moves_price_less_fee Sample.oracle_a Sample.oracle_b
              (IdInt 1) (IdInt 2) "asha" "ravi" 200%float "Logo design" 12
              Sample.buyer_1000 eq_refl eq_refl)
    as (debit & credit & w1 & w2 & _ & Hrun & _ & _ & Hid & _ & _ & _ & H).
  exists debit, credit, w2. split; [exact Hrun|].
  destruct H as [Hb Hs]; [discriminate|].
  split; [rewrite Hb; reflexivity|]. split; [rewrite Hs; reflexivity|].
  exact Hid.
Defined.

(** C9, as amended. The description of the invoice is the record's
    description with every occurrence of the tag, case ignored, and the
    whitespace around it removed, and then stripped of the whitespace at
    its two ends; [generate_invoice_html] returns the same document in
    every world and leaves the world as it is. *)
Theorem invoice_description_cleaned (generated_on : string) (t : txn) :
  exists doc,
    (forall w,
       InvoiceGenerator.generate_invoice_html generated_on t w = (Ok doc, w))
    /\ InvoiceGenerator.inv_description doc
       = InvoiceGenerator.str_strip (Spec.remove_tags (tx_description t)).
Proof.
  eexists. split; [intros w; reflexivity|].
  cbn [InvoiceGenerator.inv_description].
  unfold InvoiceGenerator.re_sub, Spec.remove_tags.
  now rewrite PatternFacts.re_sub_from_manual_fix.
Qed.

(** C9, as stated, fails on a description with blanks at its ends and no
    tag: the invoice shows it without them. *)
Lemma invoice_description_loses_outer_blanks :
  exists doc,
    InvoiceGenerator.generate_invoice_html "2026-01-16 12:05:00"
      Sample.record_padded Sample.fresh = (Ok doc, Sample.fresh)
    /\ InvoiceGenerator.inv_description doc = "Gift card"
    /\ Spec.remove_tags (tx_description Sample.record_padded)
       = " Gift card "
    /\ InvoiceGenerator.inv_description doc
       <> Spec.remove_tags (tx_description Sample.record_padded).
Proof.
  eexists. split; [reflexivity|]. split; [reflexivity|].
  split; [reflexivity|]. discriminate.
Qed.

End Claims.

(** ** The scenarios of the specification, run on the embedding *)

Module Scenarios.

Import Py.

(** A malformed line among valid ones: the listing returns the two valid
    records, the newer first. *)
Example list_all_skips_malformed :
  fst (PaymentGateway.get_all_transactions Sample.mixed_ledger)
  = Ok [Sample.record_r; Sample.record_s].
Proof. reflexivity. Qed.

Example list_by_user_compares_as_strings :
  fst (PaymentGateway.get_user_transactions (IdStr "2") Sample.mixed_ledger)
  = Ok [Sample.record_s].
Proof. reflexivity. Qed.

(** A lookup that meets no malformed line before the record finds it. *)
Example lookup_before_malformed :
  fst (PaymentGateway.get_transaction "TXN20260110080000555" None
         Sample.mixed_ledger)
  = Ok (Some Sample.record_s).
Proof. reflexivity. Qed.

Example lookup_on_empty_ledger :
  fst (PaymentGateway.get_transaction "TXN20260110080000555" None
         Sample.fresh)
  = Raise (TransactionNotFoundException "TXN20260110080000555").
Proof. reflexivity. Qed.

(** The demo of the module: a wallet of 100 recharged by 500, then a
    purchase of 200. *)
Example recharge_then_purchase :
  let '(_, w1) :=
    WalletManager.create_wallet Sample.oracle_a (IdStr "demo_user_001")
      100%float Sample.fresh in
  let '(_, w2) :=
    WalletManager.add_money Sample.oracle_a (IdStr "demo_user_001")
      500%float "card" "Test Recharge" w1 in
  let '(_, w3) :=
    WalletManager.deduct_money Sample.oracle_b (IdStr "demo_user_001")
      200%float "Course Purchase" None w2 in
  Spec.stored_balance w3 (IdStr "demo_user_001") = 400%float.
Proof. reflexivity. Qed.

(** A debit above the balance by one cent. *)
Example deduct_one_cent_too_much :
  fst (WalletManager.deduct_money Sample.oracle_a (IdInt 1) 1000.01%float
         "Service Purchase" None Sample.buyer_1000)
  = Raise (InsufficientBalanceException 1000.01%float 1000%float).
Proof. reflexivity. Qed.

(** The tag of a manual fix disappears from the invoice with the blanks
    around it. *)
Example invoice_without_tag :
  InvoiceGenerator.str_strip
    (InvoiceGenerator.re_sub InvoiceGenerator.manual_fix_pattern
       "Payment Received: Logo design [Manual Fix] (Order #12)")
  = "Payment Received: Logo design(Order #12)".
Proof. reflexivity. Qed.

End Scenarios.

(** ** Floats at the edges: NaN, infinity, zero *)

Module FloatEdge.

Local Open Scope float_scope.

Lemma add_nan_r (x : float) : x + nan = nan.
Proof.
  apply Prim2SF_inj. rewrite add_spec.
  change (Prim2SF nan) with S754_nan.
  destruct (Prim2SF x); reflexivity.
Qed.

Lemma sub_nan_l (x : float) : nan - x = nan.
Proof.
  apply Prim2SF_inj. rewrite sub_spec.
  change (Prim2SF nan) with S754_nan. reflexivity.
Qed.

Lemma ltb_nan_l (x : float) : (nan <? x) = false.
Proof. rewrite ltb_spec. reflexivity. Qed.

(** The values strictly between zero and infinity. *)
Lemma positive_finite_spec (x : float) :
  (0 <? x) = true -> (x <? infinity) = true ->
  exists m e, Prim2SF x = S754_finite false m e.
Proof.
  rewrite !ltb_spec.
  change (Prim2SF 0) with (S754_zero false).
  change (Prim2SF infinity) with (S754_infinity false).
  destruct (Prim2SF x) as [s|s| |s m e]; try discriminate.
  - destruct s; discriminate.
  - destruct s; [discriminate|]. intros _ _. now exists m, e.
Qed.

Lemma positive_spec (x : float) :
  (0 <? x) = true ->
  Prim2SF x = S754_infinity false
  \/ exists m e, Prim2SF x = S754_finite false m e.
Proof.
  rewrite ltb_spec. change (Prim2SF 0) with (S754_zero false).
  destruct (Prim2SF x) as [s|s| |s m e]; try discriminate.
  - destruct s; [discriminate|]. now left.
  - destruct s; [discriminate|]. intros _. right. now exists m, e.
Qed.

(** Adding a positive amount to the zero of a new wallet gives the amount
    itself. *)
Lemma zero_add_positive (x : float) : (0 <? x) = true -> 0 + x = x.
Proof.
  intros H. apply Prim2SF_inj. rewrite add_spec.
  change (Prim2SF 0) with (S754_zero false).
  destruct (positive_spec x H) as [E|(m & e & E)]; rewrite E; reflexivity.
Qed.

(** Taking a positive finite amount from itself leaves zero. *)
Lemma sub_diag_finite (x : float) :
  (0 <? x) = true -> (x <? infinity) = true -> x - x = 0.
Proof.
  intros H1 H2. apply Prim2SF_inj. rewrite sub_spec.
  destruct (positive_finite_spec x H1 H2) as (m & e & E). rewrite E.
  change (Prim2SF 0) with (S754_zero false).
  unfold SF64sub, SFsub. rewrite Z.sub_diag. reflexivity.
Qed.

(** Infinity less a positive finite amount is infinity. *)
Lemma infinity_sub_finite (x : float) :
  (0 <? x) = true -> (x <? infinity) = true -> infinity - x = infinity.
Proof.
  intros H1 H2. apply Prim2SF_inj. rewrite sub_spec.
  destruct (positive_finite_spec x H1 H2) as (m & e & E). rewrite E.
  reflexivity.
Qed.

Lemma ltb_asym (a b : float) : (a <? b) = true -> (b <? a) = false.
Proof.
  intros H. apply FloatOrder.leb_true_ltb_false.
  rewrite leb_spec. rewrite ltb_spec in H. unfold SFleb, SFltb in *.
  destruct (SFcompare (Prim2SF a) (Prim2SF b)) as [[]|]; congruence.
Qed.

Lemma ltb_irrefl (a : float) : (a <? a) = false.
Proof.
  destruct (a <? a) eqn:E; [|reflexivity].
  pose proof (ltb_asym a a E). congruence.
Qed.

End FloatEdge.

(** ** Further properties of the wallet methods *)

Module WalletFacts.

Import Py DictFacts Run.

Lemma add_money_failed o u amount payment_method description w :
  (amount <=? 0)%float = false ->
  (random_random o <? PaymentGateway.success_rate)%float = false ->
  let paid :=
    Outcome.payment_record o u amount payment_method description "failed" in
  WalletManager.add_money o u amount payment_method description w
  = (Ok paid,
     mk_world (wallet_file w) (transactions_file w ++ [Json paid])
              (io_log w ++ [OpenAppend TransactionsTxt])).
Proof.
  intros H0 Hr paid. unfold WalletManager.add_money. rewrite H0.
  unfold PaymentGateway.process_payment. rewrite Hr.
  reflexivity.
Qed.

Lemma stored_balance_of w u x :
  Spec.stored_wallet w u = Some x -> Spec.stored_balance w u = wallet_balance x.
Proof. intros H. unfold Spec.stored_balance. now rewrite H. Qed.

Lemma stored_balance_none w u :
  Spec.stored_wallet w u = None -> Spec.stored_balance w u = 0%float.
Proof. intros H. unfold Spec.stored_balance. now rewrite H. Qed.

(** [add_money] returns a record whenever its guard lets the amount
    through. *)
Lemma add_money_ledger_cases o u amount payment_method description w :
  (amount <=? 0)%float = false ->
  exists r w',
    WalletManager.add_money o u amount payment_method description w
    = (Ok r, w').
Proof.
  intros H0.
  destruct (random_random o <? PaymentGateway.success_rate)%float eqn:Hr.
  - do 2 eexists. now apply add_money_success.
  - do 2 eexists. now apply add_money_failed.
Qed.

(** The four ways [deduct_money] ends. *)
Lemma deduct_money_cases o u amount description username w :
  (exists e,
     (e = WalletManager.invalid_amount
      \/ e = InsufficientBalanceException amount (Spec.stored_balance w u)
      \/ e = KeyError (str u))
     /\ exists log,
          WalletManager.deduct_money o u amount description username w
          = (Raise e, mk_world (wallet_file w) (transactions_file w) log))
  \/ (exists x,
        Spec.stored_wallet w u = Some x
        /\ (amount <=? 0)%float = false
        /\ (wallet_balance x <? amount)%float = false
        /\ WalletManager.deduct_money o u amount description username w
           = (Ok (Outcome.debit_record o u amount description username
                    (wallet_balance x - amount)%float),
              mk_world
                (map (fun y => Json y)
                   (dict_values
                      (dict_set (str u)
                         (set_last_updated
                            (set_balance x (wallet_balance x - amount)%float)
                            (now_last_updated o))
                         (WalletManager.load_wallets (wallet_file w) []))))
                (transactions_file w
                   ++ [Json (Outcome.debit_record o u amount description
                               username (wallet_balance x - amount)%float)])
                (io_log w ++ [OpenRead WalletsTxt; OpenWrite WalletsTxt;
                              OpenAppend TransactionsTxt]))).
Proof.
  destruct (amount <=? 0)%float eqn:H0.
  { left. exists WalletManager.invalid_amount. split; [now left|].
    exists (io_log w).
    rewrite (@deduct_money_invalid o u amount description username w H0).
    now destruct w. }
  destruct (Spec.stored_wallet w u) as [x|] eqn:Hw.
  - destruct (wallet_balance x <? amount)%float eqn:Hlow.
    + left. eexists. split; [right; left; reflexivity|]. eexists.
      apply deduct_money_insufficient; [assumption|].
      now rewrite (stored_balance_of w u x Hw).
    + right. exists x. repeat split; try assumption.
      now apply deduct_money_success.
  - destruct (0 <? amount)%float eqn:Hpos.
    + left. eexists. split; [right; left; reflexivity|]. eexists.
      apply deduct_money_insufficient; [assumption|].
      now rewrite (stored_balance_none w u Hw).
    + left. eexists. split; [right; right; reflexivity|]. eexists.
      now apply deduct_money_missing.
Qed.

End WalletFacts.

Module SnapshotFacts.

Import Py DictFacts.

Lemma wallet_records_written (d : dict wallet) :
  Snapshot.wallet_records (map (fun y => Json y) (dict_values d))
  = dict_values d.
Proof.
  unfold dict_values. induction d as [|[k x] d IH]; simpl; congruence.
Qed.

Lemma written_one_line_per_user (d : dict wallet) :
  keyed d ->
  Snapshot.one_line_per_user (map (fun y => Json y) (dict_values d)).
Proof.
  intros [Hnd Hall]. split.
  - unfold dict_values. induction d as [|[k x] d IH]; simpl; auto.
    apply IH; [now inversion Hnd|now inversion Hall].
  - rewrite wallet_records_written. unfold dict_values.
    rewrite map_map.
    replace (map (fun p => str (wallet_user_id (snd p))) d) with (map fst d);
      [assumption|].
    apply map_ext_in. intros p Hp. rewrite Forall_forall in Hall. auto.
Qed.

End SnapshotFacts.

(** ** More on the ledger readers *)

Module ListingFacts.

Import PaymentGateway.

Lemma scan_continue_iff txn_id user_id t rest :
  scan_transaction txn_id user_id (Json t :: rest)
  = if Spec.matches txn_id user_id t then Ok (Some t)
    else scan_transaction txn_id user_id rest.
Proof.
  cbn [scan_transaction]. unfold Spec.matches.
  destruct (String.eqb (tx_id t) txn_id); [|reflexivity].
  destruct user_id as [u|]; [|reflexivity]. simpl.
  destruct (Py.truthy_ident u); simpl; [|reflexivity].
  now destruct (String.eqb (Py.str (tx_user_id t)) (Py.str u)).
Qed.

(** The three ways the scan of [get_transaction] ends. *)
Lemma scan_outcomes txn_id user_id lines :
  (exists pre t post,
     lines = pre ++ Json t :: post
     /\ Text.clean pre = true
     /\ Spec.first_match txn_id user_id pre = None
     /\ Spec.matches txn_id user_id t = true
     /\ scan_transaction txn_id user_id lines = Ok (Some t))
  \/ (exists pre text post,
        lines = pre ++ Malformed text :: post
        /\ Text.clean pre = true
        /\ Spec.first_match txn_id user_id pre = None
        /\ scan_transaction txn_id user_id lines = Ok None)
  \/ (Text.clean lines = true
      /\ Spec.first_match txn_id user_id lines = None
      /\ scan_transaction txn_id user_id lines
         = Raise (TransactionNotFoundException txn_id)).
Proof.
  induction lines as [|l lines IH].
  - right. right. repeat split.
  - destruct l as [|text|t].
    + destruct IH as [(pre & t & post & -> & Hc & Hn & Hm & Hs)
                     |[(pre & text & post & -> & Hc & Hn & Hs)
                      |(Hc & Hn & Hs)]].
      * left. exists (Blank :: pre), t, post. repeat split; assumption.
      * right. left. exists (Blank :: pre), text, post.
        repeat split; assumption.
      * right. right. repeat split; assumption.
    + right. left. exists [], text, lines. repeat split.
    + rewrite scan_continue_iff.
      destruct (Spec.matches txn_id user_id t) eqn:Em.
      * left. exists [], t, lines. repeat split. exact Em.
      * destruct IH as [(pre & t' & post & -> & Hc & Hn & Hm & Hs)
                       |[(pre & text & post & -> & Hc & Hn & Hs)
                        |(Hc & Hn & Hs)]].
        -- left. exists (Json t :: pre), t', post.
           repeat split; try assumption.
           unfold Spec.first_match in *. simpl. now rewrite Em.
        -- right. left. exists (Json t :: pre), text, post.
           repeat split; try assumption.
           unfold Spec.first_match in *. simpl. now rewrite Em.
        -- right. right. repeat split; try assumption.
           unfold Spec.first_match in *. simpl. now rewrite Em.
Qed.

Lemma insert_desc_head t l :
  Forall (fun y => String.leb (tx_timestamp y) (tx_timestamp t) = true) l ->
  insert_desc t l = t :: l.
Proof.
  destruct l as [|y l]; [reflexivity|].
  intros H. inversion H as [|? ? Hy _]; subst. simpl. now rewrite Hy.
Qed.

Lemma forall_filter (A : Type) (P : A -> Prop) (f : A -> bool) l :
  Forall P l -> Forall P (filter f l).
Proof.
  induction 1 as [|x l Hx Hl IH]; simpl; [constructor|].
  destruct (f x); auto.
Qed.

Lemma newest_first_filter (f : txn -> bool) l :
  Spec.newest_first l -> Spec.newest_first (filter f l).
Proof.
  unfold Spec.newest_first. induction 1 as [|x l Hl IH Hx]; simpl.
  - constructor.
  - destruct (f x); [|assumption].
    constructor; [assumption|]. now apply forall_filter.
Qed.

(** Inserting into a sorted list and restricting commute. *)
Lemma filter_insert_desc (f : txn -> bool) t l :
  Spec.newest_first l ->
  filter f (insert_desc t l)
  = if f t then insert_desc t (filter f l) else filter f l.
Proof.
  unfold Spec.newest_first. induction 1 as [|y l Hl IH Hy].
  - simpl. destruct (f t); reflexivity.
  - cbn [insert_desc].
    destruct (String.leb (tx_timestamp y) (tx_timestamp t)) eqn:E.
    + change (filter f (t :: y :: l))
        with (if f t then t :: filter f (y :: l) else filter f (y :: l)).
      destruct (f t); [|reflexivity].
      symmetry. apply insert_desc_head, forall_filter.
      constructor; [assumption|].
      eapply Forall_impl; [|exact Hy]. simpl. intros z Hz.
      now apply SortFacts.string_leb_trans with (s2 := tx_timestamp y).
    + cbn [filter]. rewrite IH.
      destruct (f y), (f t); try reflexivity.
      cbn [insert_desc]. now rewrite E.
Qed.

Lemma filter_sort (f : txn -> bool) l :
  filter f (sort_by_timestamp_desc l)
  = sort_by_timestamp_desc (filter f l).
Proof.
  induction l as [|t l IH]; [reflexivity|].
  cbn [sort_by_timestamp_desc filter].
  rewrite filter_insert_desc by apply SortFacts.sort_sorted.
  rewrite IH. now destruct (f t).
Qed.

End ListingFacts.

(** ** TransactionFilter *)

Module FilterFacts.

Import TransactionFilter.

Lemma date_range_loop_spec transactions start_date end_date :
  forall filtered,
    date_range_loop transactions start_date end_date filtered
    = filtered
      ++ filter (Text.in_date_range start_date end_date) transactions.
Proof.
  induction transactions as [|t l IH]; intros acc; simpl.
  - now rewrite app_nil_r.
  - unfold Text.in_date_range at 1.
    destruct (String.leb start_date (tx_date t)
              && String.leb (tx_date t) end_date); rewrite IH; auto.
    now rewrite <- app_assoc.
Qed.

Lemma filter_by_date_range_spec transactions start_date end_date :
  filter_by_date_range transactions start_date end_date
  = filter (Text.in_date_range start_date end_date) transactions.
Proof. apply date_range_loop_spec. Qed.

Lemma count_char_app c s1 s2 :
  Text.count_char c (s1 ++ s2)
  = Text.count_char c s1 + Text.count_char c s2.
Proof.
  induction s1 as [|a s1 IH]; simpl; [reflexivity|]. rewrite IH. lia.
Qed.

Lemma replace_commas_no_comma s :
  Text.count_char ","%char (replace_commas s) = 0.
Proof.
  induction s as [|a s IH]; simpl; [reflexivity|]. rewrite IH.
  destruct (Ascii.eqb a ","%char) eqn:E; simpl; [reflexivity|].
  now rewrite E.
Qed.

End FilterFacts.

(** ** The CSV export and the invoice files *)

Module ExportFacts.

Import TransactionFilter.

Section Rows.

Variable float_str : float -> string.

Lemma row_commas t :
  Text.comma_free float_str t ->
  Text.count_char ","%char (join "," (row float_str t) ++ newline) = 6.
Proof.
  intros (H1 & H2 & H3 & H4 & H5 & H6). unfold row. cbn [join].
  rewrite !FilterFacts.count_char_app, H1, H2, H3, H4, H5, H6,
    FilterFacts.replace_commas_no_comma.
  reflexivity.
Qed.

Lemma rows_loop_commas transactions :
  Forall (Text.comma_free float_str) transactions ->
  forall csv_content,
    Text.count_char ","%char (rows_loop float_str transactions csv_content)
    = Text.count_char ","%char csv_content + 6 * List.length transactions.
Proof.
  induction 1 as [|t l Ht Hl IH]; intros acc;
    cbn [rows_loop List.length].
  - lia.
  - rewrite IH, FilterFacts.count_char_app, (row_commas t Ht). lia.
Qed.

End Rows.

End ExportFacts.

Module PathFacts.

Import Py InvoiceFiles.

Lemma append_inv_head (a b1 b2 : string) :
  (a ++ b1)%string = (a ++ b2)%string -> b1 = b2.
Proof.
  induction a as [|c a IH]; simpl; [auto|]. intros [= H]. auto.
Qed.

Lemma list_of_append (s1 s2 : string) :
  list_ascii_of_string (s1 ++ s2)
  = list_ascii_of_string s1 ++ list_ascii_of_string s2.
Proof.
  induction s1 as [|c s1 IH]; simpl; [reflexivity|]. now rewrite IH.
Qed.

Lemma append_inv_tail (a1 a2 b : string) :
  (a1 ++ b)%string = (a2 ++ b)%string -> a1 = a2.
Proof.
  intros H. apply (f_equal list_ascii_of_string) in H.
  rewrite !list_of_append in H. apply app_inv_tail in H.
  apply (f_equal string_of_list_ascii) in H.
  now rewrite !string_of_list_ascii_of_string in H.
Qed.

(** The path of an invoice determines the id of its transaction. *)
Lemma invoice_path_inj folder id1 id2 :
  path_join folder ("invoice_" ++ id1 ++ ".html")
  = path_join folder ("invoice_" ++ id2 ++ ".html") ->
  id1 = id2.
Proof.
  unfold path_join. cbn [String.prefix append].
  change (Ascii.eqb "/"%char "i"%char) with false. cbv iota.
  destruct (negb (truthy_str folder) || ends_with_slash folder);
    intros H; apply append_inv_head in H.
  - injection H as H. now apply append_inv_tail in H.
  - injection H as H. now apply append_inv_tail in H.
Qed.

End PathFacts.

(** ** The routes *)

Module RouteFacts.

Import Py DictFacts Run WalletFacts.

Lemma generated_id_truthy o :
  truthy_str (PaymentGateway.generate_transaction_id o) = true.
Proof. reflexivity. Qed.

(** What a settlement that went through has written. *)
Lemma place_order_placed_inv o1 o2 buyer bname seller sname P title
    order_id w debit credit w2 :
  Routes.place_order o1 o2 buyer bname seller sname P title order_id w
  = (Routes.Placed debit (Ok credit), w2) ->
  transactions_file w2 = transactions_file w ++ [Json debit; Json credit]
  /\ tx_id debit = PaymentGateway.generate_transaction_id o1
  /\ tx_id credit = tx_id debit
  /\ tx_user_id debit = IdStr (str buyer)
  /\ tx_user_id credit = IdStr (str seller).
Proof.
  unfold Routes.place_order.
  set (d1 := ("Service Purchase: " ++ title ++ " (Order #"
                ++ str_of_int order_id ++ ")")%string).
  set (d2 := ("Payment Received: " ++ title ++ " (Order #"
                ++ str_of_int order_id
                ++ ") - After 10% platform fee")%string).
  destruct (deduct_money_cases o1 buyer P d1 (Some bname) w)
    as [(e & _ & log & Hrun)|(x & Hw & H0 & Hlow & Hrun)];
    rewrite Hrun; [discriminate|].
  set (w1 := mk_world _ _ _).
  set (amount := (P * (1 - Routes.platform_fee_percent))%float).
  cbv zeta. destruct (amount <=? 0)%float eqn:Ha.
  - rewrite (@credit_seller_invalid o2 seller amount d2 (Some sname) _ w1 Ha).
    discriminate.
  - rewrite (@credit_seller_success o2 seller amount d2 (Some sname) _ w1 Ha).
    intros [= <- <- <-]. cbn [transactions_file w1].
    rewrite <- app_assoc. repeat split.
Qed.

Lemma get_transaction_run txn_id user_id w :
  PaymentGateway.get_transaction txn_id user_id w
  = (PaymentGateway.scan_transaction txn_id user_id (transactions_file w),
     mk_world (wallet_file w) (transactions_file w)
              (io_log w ++ [OpenRead TransactionsTxt])).
Proof. reflexivity. Qed.

End RouteFacts.

(** ** Card validation *)

Module CardFacts.

Import Py CardValidation.

Local Open Scope Z_scope.

Lemma number_guard (card_number : string) :
  negb (truthy_str card_number)
  || negb (List.length (remove_spaces (list_ascii_of_string card_number))
           =? 16)%nat
  = negb (List.length (remove_spaces (list_ascii_of_string card_number))
          =? 16)%nat.
Proof. destruct card_number; reflexivity. Qed.

Lemma decimal_not_space c :
  is_decimal c = true ->
  int_space c = false
  /\ Ascii.eqb c "+"%char = false /\ Ascii.eqb c "-"%char = false.
Proof.
  destruct c as [[] [] [] [] [] [] [] []]; try discriminate;
    repeat split.
Qed.

(** [int] of two decimal digits. *)
Lemma py_int_two_digits a b :
  is_decimal a = true -> is_decimal b = true ->
  py_int [a; b] = Some (10 * digit_value a + digit_value b).
Proof.
  intros Ha Hb.
  destruct (decimal_not_space a Ha) as (Sa & Pa & Ma).
  destruct (decimal_not_space b Hb) as (Sb & _ & _).
  unfold py_int, int_strip. cbn [int_lstrip]. rewrite Sa.
  cbn [rev app int_lstrip]. rewrite Sb. cbn [rev app].
  assert (Hd : int_digits [a; b] 0 false
               = Some (10 * digit_value a + digit_value b)).
  { cbn [int_digits]. rewrite Ha, Hb. reflexivity. }
  destruct a as [[] [] [] [] [] [] [] []]; try discriminate Pa;
    try discriminate Ma; exact Hd.
Qed.

End CardFacts.

(** ** Transaction ids *)

Module IdFacts.

Import Py.

Local Open Scope Z_scope.

Lemma suffixes_checked :
  forallb Text.suffix_ok (map (fun k => 100 + Z.of_nat k) (seq 0 900)) = true.
Proof. vm_compute. reflexivity. Qed.

(** [str] of a suffix has three characters and [int] reads it back. *)
Lemma suffix_text n :
  100 <= n <= 999 ->
  String.length (str_of_int n) = 3%nat
  /\ CardValidation.py_int (list_ascii_of_string (str_of_int n)) = Some n.
Proof.
  intros H. pose proof suffixes_checked as Hall.
  rewrite forallb_forall in Hall.
  assert (Hin : In n (map (fun k => 100 + Z.of_nat k) (seq 0 900))).
  { apply in_map_iff. exists (Z.to_nat (n - 100)). split; [lia|].
    apply in_seq. lia. }
  apply Hall in Hin. unfold Text.suffix_ok in Hin.
  apply andb_prop in Hin. destruct Hin as [Hl Hi].
  apply Nat.eqb_eq in Hl. split; [exact Hl|].
  destruct (CardValidation.py_int (list_ascii_of_string (str_of_int n)))
    as [m|]; [|discriminate].
  apply Z.eqb_eq in Hi. now subst.
Qed.

Lemma length_append (s1 s2 : string) :
  String.length (s1 ++ s2) = (String.length s1 + String.length s2)%nat.
Proof. induction s1 as [|c s1 IH]; simpl; [reflexivity|]. now rewrite IH. Qed.

Lemma append_inv_same_length (s1 s2 a1 a2 : string) :
  String.length s1 = String.length s2 ->
  (s1 ++ a1)%string = (s2 ++ a2)%string -> s1 = s2 /\ a1 = a2.
Proof.
  revert s2. induction s1 as [|c s1 IH]; intros [|d s2]; simpl;
    try discriminate.
  - auto.
  - intros [= Hl] [= -> H]. destruct (IH s2 Hl H) as [-> ->]. auto.
Qed.

End IdFacts.

(** ** The wallet methods on a ledger that cannot be opened *)

Module LedgerWriteFacts.

Import Py DictFacts Run.



End LedgerWriteFacts.

(** ** Properties beyond the claims *)

Module Extra.

Import Py DictFacts Run WalletFacts.



(** X2. [add_money] with an amount its guard lets through always adds one
    line to the ledger, written before the wallet is touched and therefore
    without [new_balance]; on status success the returned record is that
    line with the new stored balance, on any other status it is the line
    itself and the wallet snapshot is unchanged. *)
Theorem add_money_ledger_line
    (o : oracle) (u : ident) (amount : float)
    (payment_method description : string) (w : world) :
  (amount <=? 0)%float = false ->
  exists written r w',
    WalletManager.add_money o u amount payment_method description w
    = (Ok r, w')
    /\ transactions_file w' = transactions_file w ++ [Json written]
    /\ tx_new_balance written = None
    /\ ((tx_status r = "success"
         /\ r = set_new_balance written (Spec.stored_balance w' u)
         /\ Spec.stored_balance w' u
            = (Spec.stored_balance w u + amount)%float)
        \/ (tx_status r = "failed"
            /\ r = written
            /\ wallet_file w' = wallet_file w)).
Proof.
  intros H0.
  destruct (random_random o <? PaymentGateway.success_rate)%float eqn:Hr.
  - do 3 eexists. split; [now apply add_money_success|].
    split; [reflexivity|]. split; [reflexivity|]. left.
    unfold Spec.stored_balance at 1 2. rewrite stored_after_credit.
    unfold Outcome.credited.
    cbn [wallet_balance set_last_updated set_balance].
    rewrite stored_balance_or_new. repeat split.
  - do 3 eexists. split; [now apply add_money_failed|].
    split; [reflexivity|]. split; [reflexivity|]. right. repeat split.
Qed.

Lemma add_money_ledger_line_witness :
  (500 <=? 0)%float = false
  /\ exists written r w',
       WalletManager.add_money Sample.oracle_a (IdInt 7) 500%float
         "card" "Test" Sample.fresh = (Ok r, w')
       /\ transactions_file w' = [Json written]
       /\ tx_new_balance written = None.
Proof.
  split; [reflexivity|].
  destruct (add_money_ledger_line Sample.oracle_a (IdInt 7) 500%float
              "card" "Test" Sample.fresh eq_refl)
    as (written & r & w' & Hrun & Hfile & Hnone & _).
  exists written, r, w'. auto.
Defined.

(** X3. No wallet method touches the wallet of another user: whatever
    [add_money], [deduct_money] or [credit_seller] does for [u], the
    stored wallet of a user [v] with another id is the one it was. *)
Theorem other_wallets_untouched
    (o : oracle) (u v : ident) (amount : float)
    (payment_method description : string)
    (username transaction_id : option string) (w : world) :
  str u <> str v ->
  Spec.stored_wallet
    (snd (WalletManager.add_money o u amount payment_method description w)) v
  = Spec.stored_wallet w v
  /\ Spec.stored_wallet
       (snd (WalletManager.deduct_money o u amount description username w)) v
     = Spec.stored_wallet w v
  /\ Spec.stored_wallet
       (snd (WalletManager.credit_seller o u amount description username
               transaction_id w)) v
     = Spec.stored_wallet w v.
Proof.
  intros Hne. split; [|split].
  - destruct (amount <=? 0)%float eqn:H0.
    + now rewrite (@add_money_invalid o u amount payment_method description
                     w H0).
    + destruct (random_random o <? PaymentGateway.success_rate)%float eqn:Hr.
      * rewrite (@add_money_success o u amount payment_method description w
                   H0 Hr).
        cbn [snd]. now apply stored_after_credit_other.
      * rewrite (@add_money_failed o u amount payment_method description w
                   H0 Hr).
        reflexivity.
  - destruct (deduct_money_cases o u amount description username w)
      as [(e & _ & log & Hrun)|(x & Hw & H0 & Hlow & Hrun)];
      rewrite Hrun; cbn [snd].
    + reflexivity.
    + now apply (@stored_after_update_other w u v x).
  - destruct (amount <=? 0)%float eqn:H0.
    + now rewrite (@credit_seller_invalid o u amount description username
                     transaction_id w H0).
    + rewrite (@credit_seller_success o u amount description username
                 transaction_id w H0).
      cbn [snd]. now apply stored_after_credit_other.
Qed.

Lemma other_wallets_untouched_witness :
  str (IdInt 2) <> str (IdInt 1)
  /\ Spec.stored_balance
       (snd (WalletManager.credit_seller Sample.oracle_a (IdInt 2)
               180%float "Payment Received" None None Sample.buyer_1000))
       (IdInt 1)
     = 1000%float.
Proof.
  assert (H : str (IdInt 2) <> str (IdInt 1)) by discriminate.
  split; [exact H|].
  destruct (other_wallets_untouched Sample.oracle_a (IdInt 2) (IdInt 1)
              180%float "card" "Payment Received" None None
              Sample.buyer_1000 H) as (_ & _ & Hc).
  unfold Spec.stored_balance. rewrite Hc. reflexivity.
Defined.

(** X4. Every call that rewrites the wallet snapshot leaves it clean: after
    a [deduct_money] or [credit_seller] that returns, or an [add_money]
    that returns status success, every line of the snapshot is a wallet
    record and no two lines are of one user, whatever torn, empty or
    repeated lines the file had. *)
Theorem rewritten_snapshot_is_clean
    (o : oracle) (u : ident) (amount : float)
    (payment_method description : string)
    (username transaction_id : option string) (w : world) (r : txn)
    (w' : world) :
  WalletManager.deduct_money o u amount description username w = (Ok r, w')
  \/ WalletManager.credit_seller o u amount description username
       transaction_id w = (Ok r, w')
  \/ (WalletManager.add_money o u amount payment_method description w
      = (Ok r, w')
      /\ tx_status r = "success") ->
  Snapshot.one_line_per_user (wallet_file w').
Proof.
  intros [H|[H|[H Hs]]].
  - destruct (deduct_money_cases o u amount description username w)
      as [(e & _ & log & Hrun)|(x & Hw & H0 & Hlow & Hrun)];
      rewrite Hrun in H; [discriminate|].
    injection H as _ <-. cbn [wallet_file].
    apply SnapshotFacts.written_one_line_per_user.
    apply keyed_update with (w0 := x);
      [apply keyed_loaded|now rewrite loaded_stored|reflexivity].
  - destruct (amount <=? 0)%float eqn:H0.
    + rewrite (@credit_seller_invalid o u amount description username
                 transaction_id w H0) in H. discriminate.
    + rewrite (@credit_seller_success o u amount description username
                 transaction_id w H0) in H.
      injection H as _ <-. cbn [wallet_file].
      apply SnapshotFacts.written_one_line_per_user, credited_keyed.
  - destruct (amount <=? 0)%float eqn:H0.
    + rewrite (@add_money_invalid o u amount payment_method description
                 w H0) in H. discriminate.
    + destruct (random_random o <? PaymentGateway.success_rate)%float eqn:Hr.
      * rewrite (@add_money_success o u amount payment_method description w
                   H0 Hr) in H.
        injection H as _ <-. cbn [wallet_file].
        apply SnapshotFacts.written_one_line_per_user, credited_keyed.
      * rewrite (@add_money_failed o u amount payment_method description w
                   H0 Hr) in H.
        injection H as <- _. discriminate Hs.
Qed.

Lemma rewritten_snapshot_is_clean_witness :
  exists r w',
    WalletManager.credit_seller Sample.oracle_a (IdInt 7) 1%float
      "Payment Received" None None SampleMore.messy_wallets = (Ok r, w')
    /\ Snapshot.one_line_per_user (wallet_file w')
    /\ wallet_file w'
       = [Json (mk_wallet (IdStr "7") 10%float "2026-01-01T09:00:00"
                  (Some "2026-01-15T10:30:00.000003"));
          Json (Sample.wallet_of "8" 20%float)].
Proof.
  pose proof (@credit_seller_success Sample.oracle_a (IdInt 7) 1%float
                "Payment Received" None None SampleMore.messy_wallets
                eq_refl) as Hrun.
  cbv zeta in Hrun.
  do 2 eexists. split; [exact Hrun|]. split; [|reflexivity].
  eapply (rewritten_snapshot_is_clean Sample.oracle_a (IdInt 7) 1%float
            "card" "Payment Received" None None SampleMore.messy_wallets).
  right. left. exact Hrun.
Defined.

(** X5. What [__write_all_wallets] writes, [__read_all_wallets] reads
    back: for a dictionary that holds each wallet under the string of its
    own user id, writing and then reading returns that dictionary, in the
    same order. *)
Theorem snapshot_round_trip (wallets : dict wallet) (w : world) :
  keyed wallets ->
  exists w1 w2,
    WalletManager.write_all_wallets wallets w = (Ok tt, w1)
    /\ WalletManager.read_all_wallets w1 = (Ok wallets, w2).
Proof.
  intros H. do 2 eexists. split; [reflexivity|].
  unfold WalletManager.read_all_wallets, bind, log_io. simpl.
  now rewrite load_written.
Qed.

Lemma snapshot_round_trip_witness :
  keyed [("7", Sample.wallet_of "7" 5%float);
         ("8", Sample.wallet_of "8" 20%float)]
  /\ exists w1 w2,
       WalletManager.write_all_wallets
         [("7", Sample.wallet_of "7" 5%float);
          ("8", Sample.wallet_of "8" 20%float)] SampleMore.messy_wallets
       = (Ok tt, w1)
       /\ WalletManager.read_all_wallets w1
          = (Ok [("7", Sample.wallet_of "7" 5%float);
                 ("8", Sample.wallet_of "8" 20%float)], w2).
Proof.
  assert (H : keyed [("7", Sample.wallet_of "7" 5%float);
                     ("8", Sample.wallet_of "8" 20%float)]).
  { split.
    - repeat constructor; simpl; intuition discriminate.
    - repeat constructor. }
  split; [exact H|].
  exact (snapshot_round_trip _ SampleMore.messy_wallets H).
Defined.

(** X6. The first credit of a user without a wallet stores the amount
    itself: [0.0 + amount] is exact for a positive amount, so after
    [credit_seller] the stored balance and the record's [new_balance] are
    the amount. *)
Theorem first_credit_is_exact
    (o : oracle) (u : ident) (amount : float) (description : string)
    (username transaction_id : option string) (w : world) :
  Spec.stored_wallet w u = None ->
  (0 <? amount)%float = true ->
  exists r w',
    WalletManager.credit_seller o u amount description username
      transaction_id w = (Ok r, w')
    /\ Spec.stored_balance w' u = amount
    /\ tx_new_balance r = Some amount.
Proof.
  intros Hw Hpos.
  pose proof (FloatOrder.ltb_true_leb_false Hpos) as H0.
  do 2 eexists. split; [now apply credit_seller_success|].
  unfold Spec.stored_balance. rewrite stored_after_credit.
  unfold Outcome.credited, Outcome.wallet_or_new. rewrite Hw.
  cbn [wallet_balance set_last_updated set_balance tx_new_balance
       Outcome.credit_record].
  change (0.0 + amount)%float with (0 + amount)%float.
  rewrite (FloatEdge.zero_add_positive amount Hpos). split; reflexivity.
Qed.

Lemma first_credit_is_exact_witness :
  Spec.stored_wallet Sample.buyer_1000 (IdInt 2) = None
  /\ (0 <? 0.1)%float = true
  /\ exists r w',
       WalletManager.credit_seller Sample.oracle_a (IdInt 2) 0.1%float
         "Payment Received" None None Sample.buyer_1000 = (Ok r, w')
       /\ Spec.stored_balance w' (IdInt 2) = 0.1%float.
Proof.
  split; [reflexivity|]. split; [reflexivity|].
  destruct (first_credit_is_exact Sample.oracle_a (IdInt 2) 0.1%float
              "Payment Received" None None Sample.buyer_1000
              eq_refl eq_refl) as (r & w' & Hrun & Hb & _).
  now exists r, w'.
Defined.

(** X7. Spending the whole balance is allowed and leaves exactly zero: for
    a positive finite stored balance [b], [deduct_money] of [b] returns,
    the stored balance becomes [0] and the wallet record stays. *)
Theorem deduct_whole_balance
    (o : oracle) (u : ident) (description : string)
    (username : option string) (w : world) :
  (0 <? Spec.stored_balance w u)%float = true ->
  (Spec.stored_balance w u <? infinity)%float = true ->
  exists r w',
    WalletManager.deduct_money o u (Spec.stored_balance w u) description
      username w = (Ok r, w')
    /\ Spec.stored_balance w' u = 0%float
    /\ Spec.stored_wallet w' u <> None
    /\ tx_new_balance r = Some 0%float.
Proof.
  intros Hpos Hfin.
  pose proof (FloatOrder.ltb_true_leb_false Hpos) as H0.
  destruct (Spec.stored_wallet w u) as [x|] eqn:Hw.
  - rewrite (stored_balance_of w u x Hw) in *.
    pose proof (FloatEdge.ltb_irrefl (wallet_balance x)) as Hlow.
    do 2 eexists.
    split; [exact (@deduct_money_success o u (wallet_balance x) description
                     username w x H0 Hw Hlow)|].
    unfold Spec.stored_balance.
    rewrite (@stored_after_update w u x
               (set_last_updated
                  (set_balance x (wallet_balance x - wallet_balance x)%float)
                  (now_last_updated o)) _ _ Hw eq_refl).
    cbn [wallet_balance set_last_updated set_balance tx_new_balance
         Outcome.debit_record].
    rewrite (FloatEdge.sub_diag_finite _ Hpos Hfin).
    repeat split. discriminate.
  - rewrite (stored_balance_none w u Hw) in Hpos. discriminate Hpos.
Qed.

Lemma deduct_whole_balance_witness :
  (0 <? Spec.stored_balance Sample.buyer_1000 (IdInt 1))%float = true
  /\ (Spec.stored_balance Sample.buyer_1000 (IdInt 1) <? infinity)%float
     = true
  /\ exists r w',
       WalletManager.deduct_money Sample.oracle_a (IdInt 1) 1000%float
         "Service Purchase" None Sample.buyer_1000 = (Ok r, w')
       /\ Spec.stored_balance w' (IdInt 1) = 0%float.
Proof.
  split; [reflexivity|]. split; [reflexivity|].
  destruct (deduct_whole_balance Sample.oracle_a (IdInt 1)
              "Service Purchase" None Sample.buyer_1000 eq_refl eq_refl)
    as (r & w' & Hrun & Hb & _).
  now exists r, w'.
Defined.

(** X8. The amount guard [amount <= 0] does not stop NaN: [credit_seller]
    with a NaN amount returns, and so does [add_money] when the payment
    succeeds, and the stored balance of the user becomes NaN. *)
Theorem nan_amount_is_credited
    (o : oracle) (u : ident) (payment_method description : string)
    (username transaction_id : option string) (w : world) :
  (exists r w',
     WalletManager.credit_seller o u nan description username
       transaction_id w = (Ok r, w')
     /\ Spec.stored_balance w' u = nan)
  /\ ((random_random o <? 1)%float = true ->
      exists r w',
        WalletManager.add_money o u nan payment_method description w
        = (Ok r, w')
        /\ tx_status r = "success"
        /\ Spec.stored_balance w' u = nan).
Proof.
  assert (H0 : (nan <=? 0)%float = false) by reflexivity.
  split.
  - do 2 eexists. split; [now apply credit_seller_success|].
    unfold Spec.stored_balance. rewrite stored_after_credit.
    unfold Outcome.credited.
    cbn [wallet_balance set_last_updated set_balance].
    apply FloatEdge.add_nan_r.
  - intros Hr. do 2 eexists.
    split; [now apply add_money_success|]. split; [reflexivity|].
    unfold Spec.stored_balance. rewrite stored_after_credit.
    unfold Outcome.credited.
    cbn [wallet_balance set_last_updated set_balance].
    apply FloatEdge.add_nan_r.
Qed.

Lemma nan_amount_is_credited_witness :
  (random_random Sample.oracle_a <? 1)%float = true
  /\ exists r w',
       WalletManager.add_money Sample.oracle_a (IdInt 1) nan "card"
         "Wallet Recharge" Sample.buyer_1000 = (Ok r, w')
       /\ Spec.stored_balance w' (IdInt 1) = nan.
Proof.
  split; [reflexivity|].
  destruct (nan_amount_is_credited Sample.oracle_a (IdInt 1) "card"
              "Wallet Recharge" None None Sample.buyer_1000) as [_ H].
  destruct (H eq_refl) as (r & w' & Hrun & _ & Hb).
  now exists r, w'.
Defined.

(** X9. A NaN balance defeats the balance check: when the stored balance
    of a user is NaN, [deduct_money] returns for every amount its guard
    lets through, however large, and the balance stays NaN. *)
Theorem nan_balance_pays_anything
    (o : oracle) (u : ident) (amount : float) (description : string)
    (username : option string) (w : world) :
  Spec.stored_balance w u = nan ->
  (amount <=? 0)%float = false ->
  exists r w',
    WalletManager.deduct_money o u amount description username w
    = (Ok r, w')
    /\ Spec.stored_balance w' u = nan
    /\ tx_new_balance r = Some nan.
Proof.
  intros Hnan H0.
  destruct (Spec.stored_wallet w u) as [x|] eqn:Hw.
  - rewrite (stored_balance_of w u x Hw) in Hnan.
    assert (Hlow : (wallet_balance x <? amount)%float = false).
    { rewrite Hnan. apply FloatEdge.ltb_nan_l. }
    do 2 eexists.
    split; [exact (@deduct_money_success o u amount description username
                     w x H0 Hw Hlow)|].
    unfold Spec.stored_balance.
    rewrite (@stored_after_update w u x
               (set_last_updated
                  (set_balance x (wallet_balance x - amount)%float)
                  (now_last_updated o)) _ _ Hw eq_refl).
    cbn [wallet_balance set_last_updated set_balance tx_new_balance
         Outcome.debit_record].
    rewrite Hnan, FloatEdge.sub_nan_l. split; reflexivity.
  - rewrite (stored_balance_none w u Hw) in Hnan.
    apply (f_equal (fun x => (x =? x)%float)) in Hnan.
    vm_compute in Hnan. discriminate Hnan.
Qed.

Lemma nan_balance_pays_anything_witness :
  Spec.stored_balance SampleMore.holder_nan (IdInt 7) = nan
  /\ (1000000 <=? 0)%float = false
  /\ exists r w',
       WalletManager.deduct_money Sample.oracle_a (IdInt 7) 1000000%float
         "Service Purchase" None SampleMore.holder_nan = (Ok r, w')
       /\ Spec.stored_balance w' (IdInt 7) = nan.
Proof.
  split; [reflexivity|]. split; [reflexivity|].
  destruct (nan_balance_pays_anything Sample.oracle_a (IdInt 7)
              1000000%float "Service Purchase" None SampleMore.holder_nan
              eq_refl eq_refl) as (r & w' & Hrun & Hb & _).
  now exists r, w'.
Defined.

(** X10. An infinite balance is never used up: when the stored balance is
    infinity, [deduct_money] of any positive finite amount returns and the
    balance is still infinity. *)
Theorem infinite_balance_stays_infinite
    (o : oracle) (u : ident) (amount : float) (description : string)
    (username : option string) (w : world) :
  Spec.stored_balance w u = infinity ->
  (0 <? amount)%float = true ->
  (amount <? infinity)%float = true ->
  exists r w',
    WalletManager.deduct_money o u amount description username w
    = (Ok r, w')
    /\ Spec.stored_balance w' u = infinity.
Proof.
  intros Hinf Hpos Hfin.
  pose proof (FloatOrder.ltb_true_leb_false Hpos) as H0.
  destruct (Spec.stored_wallet w u) as [x|] eqn:Hw.
  - rewrite (stored_balance_of w u x Hw) in Hinf.
    assert (Hlow : (wallet_balance x <? amount)%float = false).
    { rewrite Hinf. now apply FloatEdge.ltb_asym. }
    do 2 eexists.
    split; [exact (@deduct_money_success o u amount description username
                     w x H0 Hw Hlow)|].
    unfold Spec.stored_balance.
    rewrite (@stored_after_update w u x
               (set_last_updated
                  (set_balance x (wallet_balance x - amount)%float)
                  (now_last_updated o)) _ _ Hw eq_refl).
    cbn [wallet_balance set_last_updated set_balance].
    rewrite Hinf. now apply FloatEdge.infinity_sub_finite.
  - rewrite (stored_balance_none w u Hw) in Hinf.
    apply (f_equal (fun x => (x <? 1)%float)) in Hinf.
    vm_compute in Hinf. discriminate Hinf.
Qed.

Lemma infinite_balance_stays_infinite_witness :
  Spec.stored_balance SampleMore.holder_infinity (IdInt 7) = infinity
  /\ (0 <? 5000)%float = true
  /\ (5000 <? infinity)%float = true
  /\ exists r w',
       WalletManager.deduct_money Sample.oracle_a (IdInt 7) 5000%float
         "Service Purchase" None SampleMore.holder_infinity = (Ok r, w')
       /\ Spec.stored_balance w' (IdInt 7) = infinity.
Proof.
  split; [reflexivity|]. split; [reflexivity|]. split; [reflexivity|].
  exact (infinite_balance_stays_infinite Sample.oracle_a (IdInt 7)
           5000%float "Service Purchase" None SampleMore.holder_infinity
           eq_refl eq_refl eq_refl).
Defined.

(** X11. [get_wallet] only reads: it returns a wallet whose balance is the
    one [get_balance] returns, opens the snapshot for reading and nothing
    else, and changes no file; for a user without a wallet the zero-balance
    wallet it returns is not stored. *)
Theorem get_wallet_reads_only (o : oracle) (u : ident) (w : world) :
  exists x w',
    WalletQueries.get_wallet o u w = (Ok x, w')
    /\ fst (WalletManager.get_balance u w) = Ok (wallet_balance x)
    /\ wallet_file w' = wallet_file w
    /\ transactions_file w' = transactions_file w
    /\ io_log w' = io_log w ++ [OpenRead WalletsTxt]
    /\ (Spec.stored_wallet w u = None ->
        wallet_balance x = 0%float /\ Spec.stored_wallet w' u = None).
Proof.
  unfold WalletQueries.get_wallet, WalletManager.read_all_wallets, bind,
    log_io. simpl. rewrite get_balance_stored, loaded_stored.
  unfold Spec.stored_balance.
  destruct (Spec.stored_wallet w u) as [x|] eqn:Hw.
  - do 2 eexists. split; [reflexivity|]. repeat split; discriminate.
  - do 2 eexists. split; [reflexivity|]. repeat split. exact Hw.
Qed.

(** X12. Every call of [get_transaction] ends in one of five ways.  When
    [open] of the ledger raises [IOError] it raises [CustomException].
    Otherwise the first line of the ledger that the scan does not go past
    decides: that line is a matching record, which is returned; or it is
    a malformed line, and the call returns [None]; or it is a JSON value
    that is not a record, and the call raises [AttributeError]; or there
    is no such line, and the call raises
    [TransactionNotFoundException]. *)
Theorem get_transaction_outcomes
    (io : Storage.opening) (txn_id : string) (user_id : option ident)
    (ledger : list (line AnyJson.value)) :
  let answer := AnyJson.get_transaction io txn_id user_id ledger in
  (exists text,
     io = Storage.IOError text
     /\ answer
        = AnyJson.Raises
            (CustomException ("Error reading transactions: " ++ text)))
  \/ (io = Storage.Opens
      /\ ((exists pre t post,
             ledger = pre ++ Json (AnyJson.Record t) :: post
             /\ forallb (AnyJson.passed txn_id user_id) pre = true
             /\ Spec.matches txn_id user_id t = true
             /\ answer = AnyJson.Returns (Some t))
          \/ (exists pre text post,
                ledger = pre ++ Malformed text :: post
                /\ forallb (AnyJson.passed txn_id user_id) pre = true
                /\ answer = AnyJson.Returns None)
          \/ (exists pre text post,
                ledger = pre ++ Json (AnyJson.Other text) :: post
                /\ forallb (AnyJson.passed txn_id user_id) pre = true
                /\ answer = AnyJson.AttributeError text)
          \/ (forallb (AnyJson.passed txn_id user_id) ledger = true
              /\ answer
                 = AnyJson.Raises (TransactionNotFoundException txn_id)))).
Proof.
  destruct io as [|text]; cbv zeta.
  - right. split; [reflexivity|].
    exact (@AnyJsonFacts.scan_endings txn_id user_id ledger).
  - left. exists text. split; reflexivity.
Qed.

(** X13. The listing of a user is the listing of all transactions
    restricted to the records of that user, in the same order. *)
Theorem user_listing_is_restricted_listing (user_id : ident) (w : world) :
  exists all mine,
    fst (PaymentGateway.get_all_transactions w) = Ok all
    /\ fst (PaymentGateway.get_user_transactions user_id w) = Ok mine
    /\ mine = filter (Spec.owned_by user_id) all.
Proof.
  do 2 eexists. split; [reflexivity|]. split; [reflexivity|].
  cbn [transactions_file].
  rewrite SortFacts.collect_user_spec, SortFacts.collect_all_spec.
  simpl. now rewrite ListingFacts.filter_sort.
Qed.

(** X14. The listings are stable: the records of one timestamp appear in
    the order their lines have in the ledger file. *)
Theorem listing_keeps_file_order_of_ties (timestamp : string) (w : world) :
  exists all,
    fst (PaymentGateway.get_all_transactions w) = Ok all
    /\ filter (Text.has_timestamp timestamp) all
       = filter (Text.has_timestamp timestamp)
                (Spec.valid_records (transactions_file w)).
Proof.
  eexists. split; [reflexivity|]. cbn [transactions_file].
  rewrite SortFacts.collect_all_spec. simpl.
  apply SortFacts.sort_stable.
Qed.

(** X15. [filter_by_date_range] keeps exactly the records of its input
    whose date lies between the two bounds, as strings; it keeps a
    newest-first listing newest first. *)
Theorem date_range_of_a_listing
    (transactions : list txn) (start_date end_date : string) :
  (forall t,
     In t (TransactionFilter.filter_by_date_range transactions start_date
             end_date)
     <-> In t transactions
         /\ String.leb start_date (tx_date t) = true
         /\ String.leb (tx_date t) end_date = true)
  /\ (Spec.newest_first transactions ->
      Spec.newest_first
        (TransactionFilter.filter_by_date_range transactions start_date
           end_date)).
Proof.
  rewrite FilterFacts.filter_by_date_range_spec. split.
  - intros t. rewrite filter_In. unfold Text.in_date_range.
    rewrite andb_true_iff. tauto.
  - apply ListingFacts.newest_first_filter.
Qed.

(** X16. With the bounds the wrong way round, [filter_by_date_range]
    returns the empty list. *)
Theorem inverted_date_range_is_empty
    (transactions : list txn) (start_date end_date : string) :
  String.leb start_date end_date = false ->
  TransactionFilter.filter_by_date_range transactions start_date end_date
  = [].
Proof.
  intros H. rewrite FilterFacts.filter_by_date_range_spec.
  induction transactions as [|t l IH]; [reflexivity|]. simpl.
  rewrite IH. unfold Text.in_date_range.
  destruct (String.leb start_date (tx_date t)) eqn:E1; [|reflexivity].
  destruct (String.leb (tx_date t) end_date) eqn:E2; [|reflexivity].
  rewrite (SortFacts.string_leb_trans _ _ _ E1 E2) in H. discriminate H.
Qed.

Lemma inverted_date_range_is_empty_witness :
  String.leb "2026-02-01" "2026-01-01" = false
  /\ TransactionFilter.filter_by_date_range
       [Sample.record_r; Sample.record_s] "2026-02-01" "2026-01-01" = [].
Proof.
  split; [reflexivity|].
  exact (inverted_date_range_is_empty [Sample.record_r; Sample.record_s]
           "2026-02-01" "2026-01-01" eq_refl).
Defined.

(** X17. [export_to_csv] escapes the commas of the descriptions: when the
    ids, amounts, statuses, methods, dates and times of the records hold no
    comma, the text exported for a non-empty list has six commas for the
    header and six for each record, whatever the descriptions hold, and it
    is the text written to the file. *)
Theorem export_has_six_commas_per_line
    (float_str : float -> string) (transactions : list txn)
    (filename : string) :
  transactions <> [] ->
  Forall (Text.comma_free float_str) transactions ->
  exists csv_content,
    TransactionFilter.export_to_csv float_str transactions filename
    = (csv_content, Some (filename, csv_content))
    /\ Text.count_char ","%char csv_content
       = 6 * (1 + List.length transactions).
Proof.
  intros Hne Hall. destruct transactions as [|t l]; [congruence|].
  eexists. split; [reflexivity|].
  rewrite (ExportFacts.rows_loop_commas float_str (t :: l) Hall).
  cbn [List.length]. change (Text.count_char ","%char
    (TransactionFilter.join "," TransactionFilter.headers
       ++ TransactionFilter.newline)) with 6. lia.
Qed.

Lemma export_has_six_commas_per_line_witness :
  [Sample.record_padded; Sample.record_r] <> []
  /\ Forall (Text.comma_free SampleMore.float_text)
            [Sample.record_padded; Sample.record_r]
  /\ exists csv_content,
       fst (TransactionFilter.export_to_csv SampleMore.float_text
              [Sample.record_padded; Sample.record_r] "transactions_1.csv")
       = csv_content
       /\ Text.count_char ","%char csv_content = 18.
Proof.
  assert (H1 : [Sample.record_padded; Sample.record_r] <> [])
    by discriminate.
  assert (H2 : Forall (Text.comma_free SampleMore.float_text)
                 [Sample.record_padded; Sample.record_r]).
  { repeat constructor. }
  split; [exact H1|]. split; [exact H2|].
  destruct (export_has_six_commas_per_line SampleMore.float_text
              [Sample.record_padded; Sample.record_r] "transactions_1.csv"
              H1 H2) as (csv & Hrun & Hcount).
  exists csv. rewrite Hrun. split; [reflexivity|exact Hcount].
Defined.

(** X18. Whenever [save_invoice] returns a path for each of two
    transactions, the two paths are equal exactly when the transactions
    have the same id; and it returns a path only when [open] succeeded on
    a path without the character of code 0. *)
Theorem invoice_path_follows_id
    (io1 io2 : Storage.opening) (invoices_folder g1 g2 : string)
    (t1 t2 : txn) (files1 files2 after1 after2 : InvoiceFiles.folder)
    (path1 path2 : string) (w1 w2 w1' w2' : world) :
  InvoiceFiles.save_invoice io1 invoices_folder g1 t1 files1 w1
  = (InvoiceFiles.Saved path1 after1, w1') ->
  InvoiceFiles.save_invoice io2 invoices_folder g2 t2 files2 w2
  = (InvoiceFiles.Saved path2 after2, w2') ->
  (path1 = path2 <-> tx_id t1 = tx_id t2)
  /\ io1 = Storage.Opens
  /\ InvoiceFiles.has_nul path1 = false.
Proof.
  unfold InvoiceFiles.save_invoice, InvoiceGenerator.generate_invoice_html,
    ret. cbv zeta.
  destruct (InvoiceFiles.has_nul
              (InvoiceFiles.path_join invoices_folder
                 ("invoice_" ++ tx_id t1 ++ ".html"))) eqn:N1;
    [discriminate|].
  destruct (InvoiceFiles.has_nul
              (InvoiceFiles.path_join invoices_folder
                 ("invoice_" ++ tx_id t2 ++ ".html"))) eqn:N2;
    [discriminate|].
  destruct io1; [|discriminate]. destruct io2; [|discriminate].
  intros [= <- _ _] [= <- _ _]. split; [|split; [reflexivity|exact N1]].
  split.
  - apply PathFacts.invoice_path_inj.
  - intros ->. reflexivity.
Qed.

Lemma invoice_path_follows_id_witness :
  exists path1 path2 after1 after2,
    InvoiceFiles.save_invoice Storage.Opens "invoices"
      "2026-01-15 10:31:00" Sample.record_r [] Sample.fresh
    = (InvoiceFiles.Saved path1 after1, Sample.fresh)
    /\ InvoiceFiles.save_invoice Storage.Opens "invoices"
         "2026-01-15 10:32:00" Sample.record_s [] Sample.fresh
       = (InvoiceFiles.Saved path2 after2, Sample.fresh)
    /\ path1 <> path2.
Proof.
  do 4 eexists. split; [reflexivity|]. split; [reflexivity|].
  intros H.
  destruct (invoice_path_follows_id Storage.Opens Storage.Opens
              "invoices" "2026-01-15 10:31:00" "2026-01-15 10:32:00"
              Sample.record_r Sample.record_s [] [] _ _ _ _
              Sample.fresh Sample.fresh _ _ eq_refl eq_refl)
    as [[Hid _] _].
  apply Hid in H. discriminate H.
Defined.

(** X19. A second invoice saved for the same transaction id replaces the
    first: when [save_invoice] of [t1] and then of [t2] with the id of
    [t1] both return, they return the same path, the folder holds the
    files it held after the first call, and the file of that path is the
    document of [t2]. *)
Theorem second_invoice_replaces_first
    (io1 io2 : Storage.opening) (invoices_folder g1 g2 : string)
    (t1 t2 : txn) (files files1 files2 : InvoiceFiles.folder)
    (path1 path2 : string) (w w1 w2 : world) :
  tx_id t1 = tx_id t2 ->
  InvoiceFiles.save_invoice io1 invoices_folder g1 t1 files w
  = (InvoiceFiles.Saved path1 files1, w1) ->
  InvoiceFiles.save_invoice io2 invoices_folder g2 t2 files1 w1
  = (InvoiceFiles.Saved path2 files2, w2) ->
  path2 = path1
  /\ (exists doc2,
        InvoiceGenerator.generate_invoice_html g2 t2 w1 = (Ok doc2, w2)
        /\ dict_get path1 files2 = Some doc2)
  /\ map fst files2 = map fst files1.
Proof.
  intros Hid.
  unfold InvoiceFiles.save_invoice, InvoiceGenerator.generate_invoice_html,
    ret. cbv zeta. rewrite <- Hid.
  destruct (InvoiceFiles.has_nul
              (InvoiceFiles.path_join invoices_folder
                 ("invoice_" ++ tx_id t1 ++ ".html"))); [discriminate|].
  destruct io1; [|discriminate]. destruct io2; [|discriminate].
  intros [= <- <- <-] [= <- <- <-]. split; [reflexivity|]. split.
  - eexists. split; [reflexivity|]. apply dict_get_set_same.
  - apply dict_set_keys. rewrite dict_get_set_same. discriminate.
Qed.

Lemma second_invoice_replaces_first_witness :
  tx_id Sample.record_r = tx_id Sample.record_credit
  /\ exists path files1 files2,
       InvoiceFiles.save_invoice Storage.Opens "invoices"
         "2026-01-15 10:31:00" Sample.record_r [] Sample.fresh
       = (InvoiceFiles.Saved path files1, Sample.fresh)
       /\ InvoiceFiles.save_invoice Storage.Opens "invoices"
            "2026-01-15 10:32:00" Sample.record_credit files1 Sample.fresh
          = (InvoiceFiles.Saved path files2, Sample.fresh)
       /\ path = "invoices/invoice_TXN20260115103000123.html"
       /\ List.length files2 = 1.
Proof.
  split; [reflexivity|]. do 3 eexists.
  split; [reflexivity|]. split; [reflexivity|]. split; [reflexivity|].
  destruct (second_invoice_replaces_first Storage.Opens
              Storage.Opens "invoices" "2026-01-15 10:31:00"
              "2026-01-15 10:32:00" Sample.record_r Sample.record_credit
              [] _ _ _ _ Sample.fresh Sample.fresh Sample.fresh
              eq_refl eq_refl eq_refl)
    as (_ & _ & Hk).
  apply (f_equal (@List.length string)) in Hk.
  rewrite !length_map in Hk. rewrite Hk. reflexivity.
Defined.

(** X20. [get_invoice] shows a user only records of their own: when it
    answers with a document, the document is the invoice of a record of
    the ledger that has the id asked for and whose user id, as a string, is
    the current user's; no file has changed. *)
Theorem get_invoice_shows_own_records
    (generated_on : string) (current_user_id : ident) (txn_id : string)
    (w : world) (doc : InvoiceGenerator.invoice) (w' : world) :
  WalletRoutes.get_invoice generated_on current_user_id txn_id w
  = (WalletRoutes.InvoiceDocument doc, w') ->
  exists t,
    In (Json t) (transactions_file w)
    /\ tx_id t = txn_id
    /\ str (tx_user_id t) = str current_user_id
    /\ InvoiceGenerator.generate_invoice_html generated_on t w'
       = (Ok doc, w')
    /\ transactions_file w' = transactions_file w
    /\ wallet_file w' = wallet_file w.
Proof.
  unfold WalletRoutes.get_invoice. rewrite RouteFacts.get_transaction_run.
  destruct (ListingFacts.scan_outcomes txn_id None (transactions_file w))
    as [(pre & t & post & Hl & _ & _ & Hm & Hs)
       |[(pre & text & post & _ & _ & _ & Hs)|(_ & _ & Hs)]];
    rewrite Hs; try discriminate.
  destruct (String.eqb (str (tx_user_id t)) (str current_user_id)) eqn:E;
    [|discriminate].
  cbn [negb]. unfold InvoiceGenerator.generate_invoice_html at 1, ret.
  intros [= <- <-]. exists t.
  split; [rewrite Hl; apply in_or_app; right; now left|].
  unfold Spec.matches in Hm. rewrite andb_true_r in Hm.
  split; [now apply String.eqb_eq|].
  split; [now apply String.eqb_eq|]. repeat split.
Qed.

Lemma get_invoice_shows_own_records_witness :
  exists doc w',
    WalletRoutes.get_invoice "2026-01-15 10:31:00" (IdInt 1)
      "TXN20260115103000123" SampleMore.settled_ledger
    = (WalletRoutes.InvoiceDocument doc, w')
    /\ exists t,
         In (Json t) (transactions_file SampleMore.settled_ledger)
         /\ str (tx_user_id t) = str (IdInt 1).
Proof.
  do 2 eexists. split; [reflexivity|].
  destruct (get_invoice_shows_own_records "2026-01-15 10:31:00" (IdInt 1)
              "TXN20260115103000123" SampleMore.settled_ledger _ _ eq_refl)
    as (t & Hin & _ & Hu & _).
  now exists t.
Defined.

(** X21. After a settlement the seller cannot open the invoice of the
    credit: [place_order] gives the credit the id of the debit, and
    [get_invoice] looks the id up without a user id, so on a ledger of
    valid lines that did not hold the id it finds the buyer's debit first;
    the buyer gets the invoice, a seller who is another user gets
    "Unauthorized". *)
Theorem seller_cannot_open_invoice
    (o1 o2 : oracle) (buyer seller : ident)
    (buyer_username seller_username : string)
    (P : float) (title : string) (order_id : Z) (generated_on : string)
    (w : world) (debit credit : txn) (w2 : world) :
  Routes.place_order o1 o2 buyer buyer_username seller seller_username P
    title order_id w = (Routes.Placed debit (Ok credit), w2) ->
  Text.clean (transactions_file w) = true ->
  (forall t, In (Json t) (transactions_file w) -> tx_id t <> tx_id debit) ->
  str buyer <> str seller ->
  (exists doc w3,
     WalletRoutes.get_invoice generated_on buyer (tx_id debit) w2
     = (WalletRoutes.InvoiceDocument doc, w3))
  /\ (exists w3,
        WalletRoutes.get_invoice generated_on seller (tx_id credit) w2
        = (WalletRoutes.Unauthorized, w3)).
Proof.
  intros Hrun Hclean Hfresh Hne.
  destruct (RouteFacts.place_order_placed_inv _ _ _ _ _ _ _ _ _ _ _ _ _ Hrun)
    as (Hfile & _ & Hid & Hub & _).
  assert (Hscan :
    PaymentGateway.scan_transaction (tx_id debit) None (transactions_file w2)
    = Ok (Some debit)).
  { rewrite LedgerFacts.scan_clean.
    - unfold Spec.first_match.
      rewrite Hfile, LedgerFacts.valid_records_app,
        LedgerFacts.find_none_app.
      + simpl. unfold Spec.matches. now rewrite String.eqb_refl.
      + intros t Ht. apply LedgerFacts.valid_records_in in Ht.
        unfold Spec.matches. rewrite andb_true_r.
        apply String.eqb_neq. now apply Hfresh.
    - intros l Hl. rewrite Hfile in Hl. apply in_app_or in Hl.
      destruct Hl as [Hl|[<-|[<-|[]]]]; try reflexivity.
      unfold Text.clean in Hclean. rewrite forallb_forall in Hclean.
      apply Hclean in Hl. now destruct (Spec.is_malformed l). }
  unfold WalletRoutes.get_invoice.
  rewrite Hid, !RouteFacts.get_transaction_run, Hscan, Hub.
  cbn [str]. rewrite String.eqb_refl. cbn [negb]. split.
  - do 2 eexists. reflexivity.
  - apply String.eqb_neq in Hne. rewrite Hne. cbn [negb].
    eexists. reflexivity.
Qed.

Lemma seller_cannot_open_invoice_witness :
  exists debit credit w2,
    Routes.place_order Sample.oracle_a Sample.oracle_b (IdInt 1) "asha"
      (IdInt 2) "ravi" 200%float "Logo design" 12 Sample.buyer_1000
    = (Routes.Placed debit (Ok credit), w2)
    /\ Text.clean (transactions_file Sample.buyer_1000) = true
    /\ str (IdInt 1) <> str (IdInt 2)
    /\ exists w3,
         WalletRoutes.get_invoice "2026-01-15 10:31:00" (IdInt 2)
           (tx_id credit) w2 = (WalletRoutes.Unauthorized, w3).
Proof.
  destruct (Routes.place_order Sample.oracle_a Sample.oracle_b (IdInt 1)
              "asha" (IdInt 2) "ravi" 200%float "Logo design" 12
              Sample.buyer_1000) as [out w2] eqn:Hrun.
  pose proof Hrun as Hval. vm_compute in Hval.
  injection Hval as Hout Hw2.
  destruct out as [e|debit [credit|e]]; try discriminate Hout.
  exists debit, credit, w2. split; [reflexivity|].
  assert (Hne : str (IdInt 1) <> str (IdInt 2)) by discriminate.
  split; [reflexivity|]. split; [exact Hne|].
  apply (seller_cannot_open_invoice Sample.oracle_a Sample.oracle_b
           (IdInt 1) (IdInt 2) "asha" "ravi" 200%float "Logo design" 12
           "2026-01-15 10:31:00" Sample.buyer_1000 debit credit w2 Hrun
           eq_refl); [|exact Hne].
  intros t [].
Defined.

(** X22. [place_order] moves no money without an order: when the stored
    balance is below the price of the chosen tier the request ends on the
    wallet page, or in the error of [int] when an amount of its message is
    not finite; when the balance suffices but no order could be created it
    ends on the error page; and whenever no order was created the wallet
    snapshot and the ledger are unchanged. *)
Theorem no_order_no_payment
    (o1 o2 : oracle) (buyer seller : ident)
    (buyer_username seller_username : string)
    (base_price : float) (budget_tier : string)
    (order : option (float * Z)) (title : string) (w : world) :
  let price := WalletRoutes.order_price base_price budget_tier in
  let request :=
    WalletRoutes.place_order_request o1 o2 buyer buyer_username seller
      seller_username base_price budget_tier order title w in
  ((Spec.stored_balance w buyer <? price)%float = true ->
   fst request = WalletRoutes.WalletPage
   \/ (fst request = WalletRoutes.Unhandled None
       /\ (is_finite price && is_finite (Spec.stored_balance w buyer)
           && is_finite (price - Spec.stored_balance w buyer))%float
          = false))
  /\ ((Spec.stored_balance w buyer <? price)%float = false ->
      order = None ->
      fst request = WalletRoutes.ErrorPlacingOrder)
  /\ ((forall payment, fst request <> WalletRoutes.OrderCreated payment) ->
      wallet_file (snd request) = wallet_file w
      /\ transactions_file (snd request) = transactions_file w).
Proof.
  intros price request. unfold request, WalletRoutes.place_order_request.
  cbv zeta. rewrite get_balance_stored. fold price.
  unfold WalletRoutes.int_raises.
  destruct (Spec.stored_balance w buyer <? price)%float.
  - destruct (is_finite price);
      destruct (is_finite (Spec.stored_balance w buyer));
      destruct (is_finite (price - Spec.stored_balance w buyer));
      cbn [negb orb andb fst snd]; repeat split; try discriminate;
      (now left) || (now right).
  - destruct order as [[total order_id]|].
    + split; [discriminate|]. split; [discriminate|].
      destruct (Routes.place_order _ _ _ _ _ _ _ _ _ _) as [payment w2].
      intros H. now destruct (H payment).
    + repeat split; discriminate.
Qed.

(** X23. An order whose total is the price that passed the balance check
    is paid: for a positive price [P] of the tier and a stored balance that
    is not below it, [place_order] with an order of total [P] debits the
    buyer and credits the seller under the id of the debit. *)
Theorem checked_order_is_paid
    (o1 o2 : oracle) (buyer seller : ident)
    (buyer_username seller_username : string)
    (base_price : float) (budget_tier : string) (order_id : Z)
    (title : string) (w : world) :
  let P := WalletRoutes.order_price base_price budget_tier in
  (0 <? P)%float = true ->
  (Spec.stored_balance w buyer <? P)%float = false ->
  exists debit credit w2,
    WalletRoutes.place_order_request o1 o2 buyer buyer_username seller
      seller_username base_price budget_tier (Some (P, order_id)) title w
    = (WalletRoutes.OrderCreated (Routes.Placed debit (Ok credit)), w2)
    /\ tx_id credit = tx_id debit
    /\ tx_amount debit = P
    /\ tx_amount credit = (P * (1 - Routes.platform_fee_percent))%float
    /\ transactions_file w2
       = transactions_file w ++ [Json debit; Json credit].
Proof.
  intros P Hpos Hcheck.
  pose proof (FloatOrder.ltb_true_leb_false Hpos) as H0.
  pose proof (@FloatPositive.mul_fee_factor_positive P Hpos) as Hcredit.
  pose proof (FloatOrder.ltb_true_leb_false Hcredit) as Ha.
  unfold WalletRoutes.place_order_request. cbv zeta.
  rewrite get_balance_stored. fold P. rewrite Hcheck.
  set (w1 := mk_world _ _ _).
  destruct (Spec.stored_wallet w buyer) as [x|] eqn:Hw.
  - rewrite (stored_balance_of w buyer x Hw) in Hcheck.
    assert (Hw1 : Spec.stored_wallet w1 buyer = Some x) by exact Hw.
    unfold Routes.place_order.
    rewrite (@deduct_money_success o1 buyer P _ (Some buyer_username) w1 x
               H0 Hw1 Hcheck).
    cbv zeta.
    match goal with
    | |- context [WalletManager.credit_seller o2 seller _ ?d ?n ?i ?w0] =>
        rewrite (@credit_seller_success o2 seller
                   (P * (1 - Routes.platform_fee_percent))%float d n i w0 Ha)
    end.
    do 3 eexists. split; [reflexivity|].
    cbn [transactions_file w1]. rewrite <- app_assoc. repeat split.
  - rewrite (stored_balance_none w buyer Hw) in Hcheck. congruence.
Qed.

Lemma checked_order_is_paid_witness :
  (0 <? WalletRoutes.order_price 250 "Basic")%float = true
  /\ (Spec.stored_balance Sample.buyer_1000 (IdInt 1)
      <? WalletRoutes.order_price 250 "Basic")%float = false
  /\ exists debit credit w2,
       WalletRoutes.place_order_request Sample.oracle_a Sample.oracle_b
         (IdInt 1) "asha" (IdInt 2) "ravi" 250%float "Basic"
         (Some (WalletRoutes.order_price 250 "Basic", 12%Z)) "Logo design"
         Sample.buyer_1000
       = (WalletRoutes.OrderCreated (Routes.Placed debit (Ok credit)), w2)
       /\ tx_amount debit = 200%float
       /\ tx_amount credit = 180%float.
Proof.
  split; [reflexivity|]. split; [reflexivity|].
  destruct (checked_order_is_paid Sample.oracle_a Sample.oracle_b
              (IdInt 1) (IdInt 2) "asha" "ravi" 250%float "Basic" 12%Z
              "Logo design" Sample.buyer_1000 eq_refl eq_refl)
    as (debit & credit & w2 & Hrun & _ & Hd & Hc & _).
  exists debit, credit, w2. split; [exact Hrun|].
  split; [rewrite Hd; reflexivity|rewrite Hc; reflexivity].
Defined.

(** X24. An order that costs nothing is never paid: when the balance check
    of [place_order] passes and the order created has a total price of
    zero or less, [deduct_money] refuses the amount, the order is
    cancelled, and the wallet snapshot and the ledger are unchanged. *)
Theorem free_order_is_cancelled
    (o1 o2 : oracle) (buyer seller : ident)
    (buyer_username seller_username : string)
    (base_price : float) (budget_tier : string)
    (total_price : float) (order_id : Z) (title : string) (w : world) :
  (Spec.stored_balance w buyer
   <? WalletRoutes.order_price base_price budget_tier)%float = false ->
  (total_price <=? 0)%float = true ->
  exists w',
    WalletRoutes.place_order_request o1 o2 buyer buyer_username seller
      seller_username base_price budget_tier (Some (total_price, order_id))
      title w
    = (WalletRoutes.OrderCreated
         (Routes.Cancelled (CustomException "Amount must be greater than 0")),
       w')
    /\ wallet_file w' = wallet_file w
    /\ transactions_file w' = transactions_file w.
Proof.
  intros Hcheck H. unfold WalletRoutes.place_order_request. cbv zeta.
  rewrite get_balance_stored, Hcheck. unfold Routes.place_order.
  match goal with
  | |- context [WalletManager.deduct_money o1 buyer total_price ?d ?n ?w0] =>
      rewrite (@deduct_money_invalid o1 buyer total_price d n w0 H)
  end.
  eexists. split; [reflexivity|]. split; reflexivity.
Qed.

Lemma free_order_is_cancelled_witness :
  (Spec.stored_balance Sample.buyer_1000 (IdInt 1)
   <? WalletRoutes.order_price 0 "Premium")%float = false
  /\ (WalletRoutes.order_price 0 "Premium" <=? 0)%float = true
  /\ exists w',
       WalletRoutes.place_order_request Sample.oracle_a Sample.oracle_b
         (IdInt 1) "asha" (IdInt 2) "ravi" 0%float "Premium"
         (Some (WalletRoutes.order_price 0 "Premium", 13%Z)) "Free advice"
         Sample.buyer_1000
       = (WalletRoutes.OrderCreated
            (Routes.Cancelled
               (CustomException "Amount must be greater than 0")), w')
       /\ transactions_file w' = transactions_file Sample.buyer_1000.
Proof.
  split; [reflexivity|]. split; [reflexivity|].
  destruct (free_order_is_cancelled Sample.oracle_a Sample.oracle_b
              (IdInt 1) (IdInt 2) "asha" "ravi" 0%float "Premium"
              (WalletRoutes.order_price 0 "Premium") 13%Z "Free advice"
              Sample.buyer_1000 eq_refl eq_refl)
    as (w' & Hrun & _ & Ht).
  exists w'. split; [exact Hrun|exact Ht].
Defined.

(** X25. The [/wallet/add] endpoint never passes on an exception of the
    wallet manager: an amount that does not parse gives the general
    failure, an amount of zero or less gives "Invalid amount", both with
    the world untouched, and every other amount, NaN included, is
    processed. *)
Theorem add_money_endpoint_replies
    (o : oracle) (current_user_id : ident) (amount : option float)
    (method : string) (w : world) :
  let reply := WalletRoutes.add_money o current_user_id amount method w in
  (amount = None -> reply = (WalletRoutes.PaymentFailed, w))
  /\ (forall a, amount = Some a -> (a <=? 0)%float = true ->
      reply = (WalletRoutes.InvalidAmount, w))
  /\ (forall a, amount = Some a -> (a <=? 0)%float = false ->
      exists success r w', reply = (WalletRoutes.Processed success r, w'))
  /\ (forall e, fst reply <> WalletRoutes.ErrorMessage e)
  /\ (amount = Some nan -> (random_random o <? 1)%float = true ->
      exists r w',
        reply = (WalletRoutes.Processed true r, w')
        /\ Spec.stored_balance w' current_user_id = nan).
Proof.
  intros reply. unfold reply, WalletRoutes.add_money.
  split; [now intros ->|].
  split; [now intros a -> ->|].
  assert (Hproc : forall a, (a <=? 0)%float = false ->
    exists success r w',
      (let (res, w1) :=
         WalletManager.add_money o current_user_id a method
           "Wallet Recharge" w in
       match res with
       | Ok result =>
           (WalletRoutes.Processed
              (String.eqb (tx_status result) "success") result, w1)
       | Raise (KeyError _) => (WalletRoutes.PaymentFailed, w1)
       | Raise e => (WalletRoutes.ErrorMessage e, w1)
       end) = (WalletRoutes.Processed success r, w')).
  { intros a H0.
    destruct (add_money_ledger_cases o current_user_id a method
                "Wallet Recharge" w H0) as (r & w' & Hrun).
    rewrite Hrun. now do 3 eexists. }
  split.
  { intros a -> H0. rewrite H0. now apply Hproc. }
  split.
  { intros e. destruct amount as [a|]; [|discriminate].
    destruct (a <=? 0)%float eqn:H0; [discriminate|].
    destruct (Hproc a H0) as (success & r & w' & ->). discriminate. }
  intros -> Hr. change (nan <=? 0)%float with false. cbv iota.
  rewrite (@add_money_success o current_user_id nan method
             "Wallet Recharge" w eq_refl Hr).
  do 2 eexists. split; [reflexivity|].
  unfold Spec.stored_balance. rewrite stored_after_credit.
  unfold Outcome.credited. cbn [wallet_balance set_last_updated set_balance].
  apply FloatEdge.add_nan_r.
Qed.

(** X26. [validate_card] ignores the spaces of the card number: two
    numbers that are the same once their spaces are removed get the same
    verdict. *)
Theorem card_number_spaces_ignored
    (now_year now_month : Z) (number1 number2 expiry_date cvv : string) :
  CardValidation.remove_spaces (list_ascii_of_string number1)
  = CardValidation.remove_spaces (list_ascii_of_string number2) ->
  CardValidation.validate_card now_year now_month number1 expiry_date cvv
  = CardValidation.validate_card now_year now_month number2 expiry_date cvv.
Proof.
  intros H. unfold CardValidation.validate_card.
  rewrite !CardFacts.number_guard, H. reflexivity.
Qed.

Lemma card_number_spaces_ignored_witness :
  CardValidation.remove_spaces (list_ascii_of_string "4111 1111 1111 1111")
  = CardValidation.remove_spaces (list_ascii_of_string "4111111111111111")
  /\ CardValidation.validate_card 2026 11 "4111 1111 1111 1111" "11/26" "123"
     = CardValidation.Accepted
  /\ CardValidation.validate_card 2026 11 "4111111111111111" "11/26" "123"
     = CardValidation.Accepted.
Proof.
  split; [reflexivity|]. split; [reflexivity|].
  rewrite <- (card_number_spaces_ignored 2026 11 "4111 1111 1111 1111"
                "4111111111111111" "11/26" "123" eq_refl).
  reflexivity.
Defined.

(** X27. What an accepted card guarantees: the number has sixteen digit
    characters once its spaces are removed, the CVV has three, the expiry
    date has five characters with a slash in the middle, its two halves
    are integers for [int], the month lies between 1 and 12, and the
    two-digit year and the month are not before the current ones. *)
Theorem accepted_card_is_well_formed
    (now_year now_month : Z) (card_number expiry_date cvv : string) :
  CardValidation.validate_card now_year now_month card_number expiry_date
    cvv = CardValidation.Accepted ->
  let number :=
    CardValidation.remove_spaces (list_ascii_of_string card_number) in
  let expiry := list_ascii_of_string expiry_date in
  List.length number = 16
  /\ forallb CardValidation.isdigit number = true
  /\ String.length cvv = 3
  /\ forallb CardValidation.isdigit (list_ascii_of_string cvv) = true
  /\ List.length expiry = 5
  /\ nth 2 expiry "000"%char = "/"%char
  /\ exists month year,
       CardValidation.py_int (firstn 2 expiry) = Some month
       /\ CardValidation.py_int (skipn 3 expiry) = Some year
       /\ (1 <= month <= 12)%Z
       /\ ((now_year mod 100 < year)%Z
           \/ (year = now_year mod 100 /\ now_month <= month)%Z).
Proof.
  intros H. unfold CardValidation.validate_card in H.
  cbv zeta in H |- *.
  set (number :=
         CardValidation.remove_spaces (list_ascii_of_string card_number))
    in *.
  set (expiry := list_ascii_of_string expiry_date) in *.
  destruct (negb (truthy_str card_number)
            || negb (List.length number =? 16)%nat) eqn:E1; [discriminate|].
  destruct (negb (CardValidation.str_isdigit number)) eqn:E2;
    [discriminate|].
  destruct (negb (truthy_str cvv)
            || negb (List.length (list_ascii_of_string cvv) =? 3)%nat
            || negb (CardValidation.str_isdigit (list_ascii_of_string cvv)))
    eqn:E3; [discriminate|].
  destruct (negb (truthy_str expiry_date)
            || negb (List.length expiry =? 5)%nat
            || negb (Ascii.eqb (nth 2 expiry "000"%char) "/"%char))
    eqn:E4; [discriminate|].
  destruct (CardValidation.py_int (firstn 2 expiry)) as [month|] eqn:Em;
    [|discriminate].
  destruct (CardValidation.py_int (skipn 3 expiry)) as [year|] eqn:Ey;
    [|discriminate].
  destruct ((month <? 1)%Z || (month >? 12)%Z) eqn:E5; [discriminate|].
  destruct ((year <? now_year mod 100)%Z
            || ((year =? now_year mod 100)%Z && (month <? now_month)%Z))
    eqn:E6; [discriminate|].
  clear H.
  apply orb_false_elim in E1. destruct E1 as [_ E1].
  apply negb_false_iff in E1, E2. apply Nat.eqb_eq in E1.
  apply orb_false_elim in E3. destruct E3 as [E3 E3d].
  apply orb_false_elim in E3. destruct E3 as [_ E3l].
  apply negb_false_iff in E3l, E3d. apply Nat.eqb_eq in E3l.
  apply orb_false_elim in E4. destruct E4 as [E4 E4s].
  apply orb_false_elim in E4. destruct E4 as [_ E4l].
  apply negb_false_iff in E4l, E4s. apply Nat.eqb_eq in E4l.
  apply Ascii.eqb_eq in E4s.
  apply orb_false_elim in E5. destruct E5 as [E5a E5b].
  apply orb_false_elim in E6. destruct E6 as [E6a E6b].
  split; [exact E1|].
  split; [unfold CardValidation.str_isdigit in E2;
          destruct number; [discriminate|exact E2]|].
  split; [rewrite <- E3l; clear; induction cvv; simpl; congruence|].
  split; [unfold CardValidation.str_isdigit in E3d;
          destruct (list_ascii_of_string cvv); [discriminate|exact E3d]|].
  split; [exact E4l|]. split; [exact E4s|].
  exists month, year. split; [reflexivity|]. split; [reflexivity|].
  split; [lia|].
  apply andb_false_iff in E6b. lia.
Qed.

Lemma accepted_card_is_well_formed_witness :
  CardValidation.validate_card 2026 11 "4111 1111 1111 1111" "11/26" "123"
  = CardValidation.Accepted
  /\ List.length
       (CardValidation.remove_spaces
          (list_ascii_of_string "4111 1111 1111 1111")) = 16.
Proof.
  split; [reflexivity|].
  exact (proj1 (accepted_card_is_well_formed 2026 11 "4111 1111 1111 1111"
                  "11/26" "123" eq_refl)).
Defined.

(** X28. The expiry check compares within the century: for a card whose
    number and CVV pass and an expiry date of two decimal digits, a slash
    and two decimal digits, the card is accepted exactly when the month is
    between 1 and 12 and the pair of the two-digit year and the month is
    not before the pair of the current year modulo 100 and the current
    month. *)
Theorem two_digit_expiry_rule
    (now_year now_month : Z) (card_number cvv : string)
    (m1 m2 y1 y2 : ascii) :
  List.length
    (CardValidation.remove_spaces (list_ascii_of_string card_number)) = 16 ->
  forallb CardValidation.isdigit
    (CardValidation.remove_spaces (list_ascii_of_string card_number))
  = true ->
  List.length (list_ascii_of_string cvv) = 3 ->
  forallb CardValidation.isdigit (list_ascii_of_string cvv) = true ->
  CardValidation.is_decimal m1 = true ->
  CardValidation.is_decimal m2 = true ->
  CardValidation.is_decimal y1 = true ->
  CardValidation.is_decimal y2 = true ->
  let month :=
    (10 * CardValidation.digit_value m1 + CardValidation.digit_value m2)%Z in
  let year :=
    (10 * CardValidation.digit_value y1 + CardValidation.digit_value y2)%Z in
  CardValidation.validate_card now_year now_month card_number
    (String m1 (String m2 (String "/" (String y1 (String y2 EmptyString)))))
    cvv = CardValidation.Accepted
  <-> (1 <= month <= 12)%Z
      /\ ((now_year mod 100 < year)%Z
          \/ (year = now_year mod 100 /\ now_month <= month)%Z).
Proof.
  intros Hn Hnd Hc Hcd Hm1 Hm2 Hy1 Hy2 month year.
  unfold CardValidation.validate_card.
  rewrite CardFacts.number_guard, Hn, Hc.
  assert (Hs1 : CardValidation.str_isdigit
                  (CardValidation.remove_spaces
                     (list_ascii_of_string card_number)) = true).
  { unfold CardValidation.str_isdigit.
    destruct (CardValidation.remove_spaces
                (list_ascii_of_string card_number));
      [discriminate Hn|exact Hnd]. }
  assert (Hs2 : CardValidation.str_isdigit (list_ascii_of_string cvv)
                = true).
  { unfold CardValidation.str_isdigit.
    destruct (list_ascii_of_string cvv) eqn:E; [discriminate Hc|exact Hcd]. }
  assert (Ht : truthy_str cvv = true).
  { destruct cvv; [discriminate Hc|reflexivity]. }
  rewrite Hs1, Hs2, Ht.
  cbn [Nat.eqb negb orb truthy_str String.eqb list_ascii_of_string
       List.length nth firstn skipn].
  change (Ascii.eqb "/"%char "/"%char) with true. cbn [negb].
  rewrite (CardFacts.py_int_two_digits m1 m2 Hm1 Hm2),
    (CardFacts.py_int_two_digits y1 y2 Hy1 Hy2).
  fold month year.
  destruct (month <? 1)%Z eqn:E1; destruct (month >? 12)%Z eqn:E2;
    cbn [orb];
    try (split; [discriminate|lia]).
  destruct (year <? now_year mod 100)%Z eqn:E3; cbn [orb].
  - split; [discriminate|lia].
  - destruct (year =? now_year mod 100)%Z eqn:E4; cbn [andb].
    + destruct (month <? now_month)%Z eqn:E5.
      * split; [discriminate|lia].
      * split; [lia|reflexivity].
    + split; [lia|reflexivity].
Qed.

Lemma two_digit_expiry_rule_witness :
  CardValidation.validate_card 2026 11 "4111111111111111" "11/26" "123"
  = CardValidation.Accepted
  /\ CardValidation.validate_card 2026 11 "4111111111111111" "10/26" "123"
     <> CardValidation.Accepted.
Proof.
  pose proof (two_digit_expiry_rule 2026 11 "4111111111111111" "123"
                "1"%char "1"%char "2"%char "6"%char
                eq_refl eq_refl eq_refl eq_refl eq_refl eq_refl eq_refl
                eq_refl) as H1.
  pose proof (two_digit_expiry_rule 2026 11 "4111111111111111" "123"
                "1"%char "0"%char "2"%char "6"%char
                eq_refl eq_refl eq_refl eq_refl eq_refl eq_refl eq_refl
                eq_refl) as H2.
  cbv zeta in H1, H2. split.
  - apply H1. vm_compute. split; [split; discriminate|].
    right. split; [reflexivity|discriminate].
  - intros H. apply H2 in H. vm_compute in H.
    destruct H as [_ [H|[_ H]]]; [discriminate H|]. now apply H.
Defined.

(** X29. The two chat endpoints disagree on the role of one kind of user
    only: [ask] and [init_chat] compute the same role unless the user is
    authenticated and is both a provider and an admin, whom [ask] takes
    for a provider and [init_chat] for an admin. *)
Theorem chat_roles_differ_for_provider_admins (u : Chat.user) :
  (Chat.ask_role u <> Chat.init_chat_role u
   <-> Chat.has_is_authenticated u && Chat.is_authenticated u
       && (Chat.has_is_provider u && Chat.is_provider u)
       && (Chat.has_is_admin u && Chat.is_admin u) = true)
  /\ (Chat.ask_role u <> Chat.init_chat_role u ->
      Chat.ask_role u = "provider" /\ Chat.init_chat_role u = "admin"
      /\ Chat.response_suggestions (Chat.ask_role u)
         <> firstn 3 (Chat.get_initial_suggestions (Chat.init_chat_role u))).
Proof.
  unfold Chat.ask_role, Chat.init_chat_role.
  destruct (Chat.has_is_authenticated u && Chat.is_authenticated u);
    destruct (Chat.has_is_provider u && Chat.is_provider u);
    destruct (Chat.has_is_admin u && Chat.is_admin u); cbn [andb];
    split; try (split; [intros H; now destruct H|discriminate]);
    try (intros H; now destruct H).
  - split; [reflexivity|discriminate].
  - intros _. repeat split. discriminate.
Qed.

(** X30. The shape of a transaction id and when two ids collide: for a
    stamp of fourteen characters and a suffix between 100 and 999 the id
    has twenty characters, and two such ids are equal exactly when they
    were made in the same second with the same suffix. *)
Theorem transaction_ids_collide_within_a_second (o1 o2 : oracle) :
  String.length (now_id_stamp o1) = 14 ->
  String.length (now_id_stamp o2) = 14 ->
  (100 <= randint_100_999 o1 <= 999)%Z ->
  (100 <= randint_100_999 o2 <= 999)%Z ->
  String.length (PaymentGateway.generate_transaction_id o1) = 20
  /\ (PaymentGateway.generate_transaction_id o1
      = PaymentGateway.generate_transaction_id o2
      <-> now_id_stamp o1 = now_id_stamp o2
          /\ randint_100_999 o1 = randint_100_999 o2).
Proof.
  intros H1 H2 R1 R2.
  destruct (IdFacts.suffix_text _ R1) as [L1 I1].
  destruct (IdFacts.suffix_text _ R2) as [L2 I2].
  unfold PaymentGateway.generate_transaction_id. split.
  - cbn [append String.length]. rewrite IdFacts.length_append, H1, L1.
    reflexivity.
  - split.
    + intros H. apply PathFacts.append_inv_head in H.
      destruct (IdFacts.append_inv_same_length _ _ _ _
                  (eq_trans H1 (eq_sym H2)) H) as [Hs Hn].
      split; [exact Hs|]. rewrite Hn in I1. congruence.
    + intros [-> ->]. reflexivity.
Qed.

Lemma transaction_ids_collide_within_a_second_witness :
  String.length (now_id_stamp Sample.oracle_a) = 14
  /\ (100 <= randint_100_999 Sample.oracle_a <= 999)%Z
  /\ String.length (PaymentGateway.generate_transaction_id Sample.oracle_a)
     = 20
  /\ PaymentGateway.generate_transaction_id Sample.oracle_a
     <> PaymentGateway.generate_transaction_id Sample.oracle_b.
Proof.
  assert (R1 : (100 <= randint_100_999 Sample.oracle_a <= 999)%Z)
    by (split; discriminate).
  assert (R2 : (100 <= randint_100_999 Sample.oracle_b <= 999)%Z)
    by (split; discriminate).
  destruct (transaction_ids_collide_within_a_second Sample.oracle_a
              Sample.oracle_b eq_refl eq_refl R1 R2) as [Hlen Hiff].
  split; [reflexivity|]. split; [exact R1|]. split; [exact Hlen|].
  intros H. apply Hiff in H. destruct H as [H _]. discriminate H.
Defined.

End Extra.
